(** * Woolie shopper: the shopping-list consolidation core

    A shallow embedding of the list optimisers of the repository
    ([smart_shopping_list.py], [meal_plan_agent.py], the [apply_preferences]
    and [categorize_items] helpers of [flask_app.py],
    [shopping_list_matcher.py] and the list edits of
    [shopping_chat_agent_native.py]), the properties of its specification
    that concern them, and further properties read off the code.

    Conventions of the embedding:
    - a Python [str] is a [string] (a sequence of bytes); [lower], [strip]
      and [split] are the ASCII behaviour of the Python methods;
    - a Python [dict] used as a record (an ingredient, a staple, a display
      item) is a record of [option] fields, [None] meaning that the key is
      absent; [d.get(k, default)] is [get_or default];
    - a Python [dict] used as a map (the groups, the categories) is an
      insertion-ordered association list with unique keys;
    - a Python [float] is a binary64 [spec_float];
    - a call that can raise returns an [option], [None] being the exception. *)

From Stdlib Require Import String Ascii List ZArith Bool Lia PeanoNat.
From Stdlib Require Import Permutation Sorted DecimalString SpecFloat.
Import ListNotations.

Open Scope list_scope.
Open Scope string_scope.

(** ** Python strings *)

Module Py.

Definition get_or {A : Type} (default : A) (o : option A) : A :=
  match o with
  | Some v => v
  | None => default
  end.

(** [str.lower] on ASCII text. *)
Definition lower_char (c : ascii) : ascii :=
  let n := nat_of_ascii c in
  if (65 <=? n)%nat && (n <=? 90)%nat then ascii_of_nat (n + 32) else c.

Fixpoint lower (s : string) : string :=
  match s with
  | EmptyString => EmptyString
  | String c s' => String (lower_char c) (lower s')
  end.

(** [str.isspace] on one ASCII character: tab to carriage return, the four
    separators 28..31 and the space. *)
Definition isspace (c : ascii) : bool :=
  let n := nat_of_ascii c in
  ((9 <=? n)%nat && (n <=? 13)%nat) || ((28 <=? n)%nat && (n <=? 32)%nat).

Fixpoint lstrip (s : string) : string :=
  match s with
  | EmptyString => EmptyString
  | String c s' => if isspace c then lstrip s' else s
  end.

Fixpoint rstrip (s : string) : string :=
  match s with
  | EmptyString => EmptyString
  | String c s' =>
      match rstrip s' with
      | EmptyString => if isspace c then EmptyString else String c EmptyString
      | r => String c r
      end
  end.

Definition strip (s : string) : string := rstrip (lstrip s).

(** [s.rstrip(c)] for a one-character argument. *)
Fixpoint rstrip_char (x : ascii) (s : string) : string :=
  match s with
  | EmptyString => EmptyString
  | String c s' =>
      match rstrip_char x s' with
      | EmptyString => if Ascii.eqb c x then EmptyString else String c EmptyString
      | r => String c r
      end
  end.

Definition is_empty (s : string) : bool :=
  match s with
  | EmptyString => true
  | _ => false
  end.

(** [s.split()]: the maximal runs of non-space characters. *)
Fixpoint split_from (cur s : string) : list string :=
  match s with
  | EmptyString => if is_empty cur then [] else [cur]
  | String c s' =>
      if isspace c
      then (if is_empty cur then split_from "" s' else cur :: split_from "" s')
      else split_from (cur ++ String c "") s'
  end.

Definition split (s : string) : list string := split_from "" s.

(** [sep.join(l)] *)
Definition join (sep : string) (l : list string) : string := String.concat sep l.

(** [sub in s] *)
Fixpoint contains (sub s : string) : bool :=
  prefix sub s ||
  match s with
  | EmptyString => false
  | String _ s' => contains sub s'
  end.

(** [str(n)] for a non-negative integer. *)
Definition str_of_nat (n : nat) : string := NilEmpty.string_of_uint (Nat.to_uint n).
Definition str_of_N (n : N) : string := NilEmpty.string_of_uint (N.to_uint n).

Definition bytes (l : list nat) : string :=
  string_of_list_ascii (map ascii_of_nat l).

End Py.

(** ** Python floats (binary64) *)

Module PyFloat.

Definition prec : Z := 53.
Definition emax : Z := 1024.

Definition float := spec_float.

Definition zero : float := S754_zero false.
Definition add : float -> float -> float := SFadd prec emax.
Definition mul : float -> float -> float := SFmul prec emax.
Definition div : float -> float -> float := SFdiv prec emax.
Definition ltb : float -> float -> bool := SFltb.
Definition eqb : float -> float -> bool := SFeqb.

(** [float(n)] for a non-negative integer: the nearest binary64 value. *)
Definition of_N (n : N) : float :=
  match n with
  | N0 => zero
  | Npos p => binary_normalize prec emax (Zpos p) 0 false
  end.

Definition of_nat (n : nat) : float := of_N (N.of_nat n).

(** The value [n / 10^k], correctly rounded: what [float] returns on the
    decimal literal whose digits are [n] and that has [k] digits after the
    point. *)
Definition of_decimal (n : N) (k : nat) : float :=
  match n with
  | N0 => zero
  | Npos p =>
      div (S754_finite false p 0)
          (S754_finite false (Z.to_pos (10 ^ Z.of_nat k)) 0)
  end.

End PyFloat.

Module PyFormat.
Import Py PyFloat.

Definition is_digit (c : ascii) : bool :=
  let n := nat_of_ascii c in (48 <=? n)%nat && (n <=? 57)%nat.

(** The longest prefix of digits, and what follows it. *)
Fixpoint take_digits (s : string) : string * string :=
  match s with
  | EmptyString => (EmptyString, EmptyString)
  | String c s' =>
      if is_digit c
      then let (d, r) := take_digits s' in (String c d, r)
      else (EmptyString, s)
  end.

(** [re.search] for the pattern "one or more digits, an optional point,
    any number of digits": the leftmost match starts at the first digit of
    [s]; the integer digits are taken greedily, then a point if there is
    one, then the digits after it.  The result is the pair of the digits
    before and after the point. *)
Fixpoint search_number (s : string) : option (string * string) :=
  match s with
  | EmptyString => None
  | String c s' =>
      if is_digit c
      then
        let (ip, rest) := take_digits s in
        match rest with
        | String "."%char rest' => Some (ip, fst (take_digits rest'))
        | _ => Some (ip, EmptyString)
        end
      else search_number s'
  end.

Definition digit_value (c : ascii) : N := N.of_nat (nat_of_ascii c - 48).

Fixpoint digits_value (acc : N) (s : string) : N :=
  match s with
  | EmptyString => acc
  | String c s' => digits_value (10 * acc + digit_value c)%N s'
  end.

(** [float(m.group(1))] for the match above. *)
Definition float_of_match (m : string * string) : float :=
  let (ip, fp) := m in
  of_decimal (digits_value 0%N (ip ++ fp)) (String.length fp).

Definition round_half_even_div (num den : Z) : Z :=
  let q := (num / den)%Z in
  let r := (num mod den)%Z in
  match (2 * r ?= den)%Z with
  | Lt => q
  | Gt => (q + 1)%Z
  | Eq => if Z.even q then q else (q + 1)%Z
  end.

(** [m * 2^e * 10] rounded to the nearest integer, ties to even. *)
Definition tenths (m : positive) (e : Z) : Z :=
  match e with
  | Zneg p => round_half_even_div (10 * Zpos m) (2 ^ Zpos p)
  | _ => (10 * Zpos m * 2 ^ e)%Z
  end.

(** [f"{x:.1f}"] *)
Definition format_1f (x : float) : string :=
  match x with
  | S754_nan => "nan"
  | S754_infinity s => if s then "-inf" else "inf"
  | S754_zero s => if s then "-0.0" else "0.0"
  | S754_finite s m e =>
      let t := tenths m e in
      (if s then "-" else "") ++
      str_of_N (Z.to_N (t / 10)) ++ "." ++ str_of_N (Z.to_N (t mod 10))
  end.

End PyFormat.

(** ** Insertion-ordered dictionaries *)

Module Dict.

Definition t (V : Type) : Type := list (string * V).

Fixpoint get {V : Type} (k : string) (d : t V) : option V :=
  match d with
  | [] => None
  | (k', v) :: d' => if String.eqb k' k then Some v else get k d'
  end.

(** [d[k] = v]: an existing key keeps its position. *)
Fixpoint set {V : Type} (k : string) (v : V) (d : t V) : t V :=
  match d with
  | [] => [(k, v)]
  | (k', v') :: d' =>
      if String.eqb k' k then (k, v) :: d' else (k', v') :: set k v d'
  end.

Definition mem {V : Type} (k : string) (d : t V) : bool :=
  match get k d with
  | Some _ => true
  | None => false
  end.

Definition keys {V : Type} (d : t V) : list string := map fst d.
Definition values {V : Type} (d : t V) : list V := map snd d.

(** [d[k].append(v)] on a [defaultdict(list)]. *)
Definition append_to {V : Type} (k : string) (v : V) (d : t (list V)) : t (list V) :=
  set k (Py.get_or [] (get k d) ++ [v])%list d.

End Dict.

(** ** Records of the pipeline *)

(** An ingredient line: a dict with the keys [name], [ingredient_name],
    [quantity], [unit] and [notes], each possibly absent. *)
Record ingredient : Type := mk_ingredient {
  i_name : option string;
  i_ingredient_name : option string;
  i_quantity : option string;
  i_unit : option string;
  i_notes : option string
}.

(** A staple: [name], [quantity], [unit], [in_stock]. *)
Record staple : Type := mk_staple {
  s_name : option string;
  s_quantity : option string;
  s_unit : option string;
  s_in_stock : option bool
}.

(** A substitution rule as the generator reads it: the keys
    [original_ingredient] and [replacement]. *)
Record substitution : Type := mk_substitution {
  sub_original_ingredient : option string;
  sub_replacement : option string
}.

(** A display item of a categorized list: [item], [quantity], [unit],
    [notes]. *)
Record display_item : Type := mk_display_item {
  d_item : option string;
  d_quantity : option string;
  d_unit : option string;
  d_notes : option string
}.

Definition categorized_list : Type := Dict.t (list display_item).

(** The result of an optimizer. *)
Record optimizer_result : Type := mk_result {
  categories : option categorized_list;
  shopping_tips : list string;
  cost_saving_suggestions : list string;
  total_items : option Z
}.

(** [item.get('name', item.get('ingredient_name', default))] *)
Definition name_of (default : string) (it : ingredient) : string :=
  Py.get_or (Py.get_or default (i_ingredient_name it)) (i_name it).

(** [not staple.get('in_stock', False)] *)
Definition not_in_stock (s : staple) : bool :=
  negb (Py.get_or false (s_in_stock s)).

Definition cats_of (r : optimizer_result) : categorized_list :=
  Py.get_or [] (categories r).

Definition all_items (c : categorized_list) : list display_item :=
  flat_map snd c.

(** ** smart_shopping_list.py: the rule-based generator *)

Module SmartShoppingListGenerator.
Import Py PyFloat PyFormat.

(** [self.category_map], in the order of the dictionary literal. *)
Definition category_map : Dict.t (list string) :=
  [ ("Fresh Produce",
      [ "lettuce"; "spinach"; "kale"; "arugula"; "salad"; "greens";
        "tomato"; "cucumber"; "carrot"; "celery"; "onion"; "garlic"; "ginger";
        "potato"; "sweet potato"; "pumpkin"; "squash"; "zucchini"; "eggplant";
        "capsicum"; "pepper"; "chili"; "jalapeno";
        "broccoli"; "cauliflower"; "cabbage"; "brussels sprout";
        "apple"; "banana"; "orange"; "lemon"; "lime"; "avocado";
        "strawberry"; "strawberries"; "blueberry"; "blueberries"; "raspberry"; "raspberries";
        "grape"; "mango"; "pineapple"; "berry"; "berries";
        "melon"; "watermelon"; "peach"; "pear"; "plum"; "cherry"; "cherries";
        "mushroom"; "corn"; "peas"; "bean"; "beans"; "asparagus"; "beetroot";
        "parsley"; "cilantro"; "coriander"; "basil"; "mint"; "dill"; "thyme"; "rosemary";
        "oregano"; "sage"; "tarragon"; "chives";
        "produce"; "vegetable"; "fruit"; "herb"; "fresh"; "zest" ]);
    ("Dairy & Eggs",
      [ "milk"; "cream"; "yogurt"; "yoghurt"; "cheese"; "butter"; "egg";
        "sour cream"; "cottage cheese"; "ricotta"; "mozzarella"; "parmesan";
        "cheddar"; "feta"; "brie"; "cream cheese"; "whipped cream" ]);
    ("Meat & Seafood",
      [ "chicken"; "beef"; "pork"; "lamb"; "turkey"; "duck";
        "bacon"; "ham"; "sausage"; "salami"; "prosciutto";
        "fish"; "salmon"; "tuna"; "cod"; "prawns"; "shrimp"; "seafood";
        "mince"; "steak"; "chop"; "roast"; "fillet"; "breast"; "thigh"; "wing";
        "meat"; "protein" ]);
    ("Pantry Staples",
      [ "flour"; "sugar"; "salt"; "pepper"; "oil"; "vinegar";
        "rice"; "pasta"; "noodle"; "macaroni"; "couscous"; "quinoa";
        "sauce"; "paste"; "stock"; "broth"; "bouillon";
        "spice"; "seasoning"; "cumin"; "paprika"; "turmeric"; "curry";
        "cinnamon"; "nutmeg"; "vanilla"; "extract";
        "honey"; "syrup"; "jam"; "peanut butter"; "tahini";
        "canned"; "tin"; "chickpea"; "lentil"; "kidney bean"; "black bean";
        "coconut milk"; "condensed milk"; "evaporated milk"; "almond milk";
        "baking powder"; "baking soda"; "yeast"; "cornstarch"; "cornflour";
        "breadcrumb"; "panko"; "chia seed"; "chia"; "flax"; "sesame";
        "clove"; "cloves"; "mustard"; "chili powder"; "garlic powder"; "onion powder";
        "italian herb"; "dried herb"; "chili flakes"; "stevia" ]);
    ("Bakery",
      [ "bread"; "roll"; "bun"; "bagel"; "croissant"; "muffin";
        "tortilla"; "wrap"; "pita"; "naan"; "flatbread";
        "cake"; "pastry"; "cookie"; "biscuit" ]);
    ("Frozen",
      [ "frozen"; "ice cream"; "sorbet"; "gelato";
        "frozen vegetables"; "frozen fruit"; "frozen meal" ]);
    ("Beverages",
      [ "water"; "juice"; "soda"; "soft drink"; "tea"; "coffee";
        "wine"; "beer"; "spirits"; "alcohol"; "drink"; "beverage" ]);
    ("Snacks",
      [ "chip"; "crisp"; "cracker"; "popcorn"; "pretzel";
        "chocolate"; "candy"; "lolly"; "snack"; "nut"; "almond"; "cashew" ]) ].

(** The two nested loops of [_get_category] over a table: the first
    category one of whose keywords occurs in the name. *)
Fixpoint scan_categories (table : Dict.t (list string)) (item_name : string) : string :=
  match table with
  | [] => "Other"
  | (category, keywords) :: rest =>
      if existsb (fun keyword => contains keyword item_name) keywords
      then category
      else scan_categories rest item_name
  end.

Definition _get_category (item_name : string) : string :=
  scan_categories category_map (lower item_name).

(** *** Combining duplicates *)

(** The key of the [groups] dictionary: the name, lower-cased, trimmed,
    its runs of spaces collapsed. *)
Definition group_key (item : ingredient) : string :=
  join " " (split (strip (lower (name_of "" item)))).

Definition group_by_name (ingredients : list ingredient) : Dict.t (list ingredient) :=
  fold_left (fun groups item => Dict.append_to (group_key item) item groups)
            ingredients [].

(** [str(item.get('quantity', '1'))] *)
Definition qty_str (item : ingredient) : string := get_or "1" (i_quantity item).

(** The summing loop: [None] when it left through [break]. *)
Fixpoint sum_quantities (total_qty : float) (items : list ingredient) : option float :=
  match items with
  | [] => Some total_qty
  | item :: rest =>
      match search_number (qty_str item) with
      | Some m => sum_quantities (add total_qty (float_of_match m)) rest
      | None => None
      end
  end.

Definition format_total (total_qty : float) : string :=
  rstrip_char "."%char (rstrip_char "0"%char (format_1f total_qty)).

Definition with_notes (notes : string) (item : ingredient) : ingredient :=
  mk_ingredient (i_name item) (i_ingredient_name item) (i_quantity item)
                (i_unit item) (Some notes).

(** [enumerate(items, idx)] with the copy annotated. *)
Fixpoint keep_separate (idx : nat) (items : list ingredient) : list ingredient :=
  match items with
  | [] => []
  | item :: rest =>
      with_notes ("From recipe " ++ str_of_nat idx) item :: keep_separate (S idx) rest
  end.

Definition combined_item (name : string) (total_qty : float) (items : list ingredient) : ingredient :=
  mk_ingredient (Some name) None
                (Some (format_total total_qty))
                (Some (get_or "" (i_unit (hd (mk_ingredient None None None None None) items))))
                (Some ("Combined from " ++ str_of_nat (List.length items) ++ " recipes")).

(** The body of the loop over [groups.items()]. *)
Definition combine_group (name : string) (items : list ingredient) : list ingredient :=
  match items with
  | [single] => [single]
  | _ =>
      match sum_quantities zero items with
      | Some total_qty =>
          if ltb zero total_qty
          then [combined_item name total_qty items]
          else keep_separate 1 items
      | None => keep_separate 1 items
      end
  end.

Definition _combine_duplicates (ingredients : list ingredient) : list ingredient :=
  flat_map (fun g => combine_group (fst g) (snd g)) (group_by_name ingredients).

(** *** Substitutions *)

Definition build_sub_map (substitutions : list substitution) : Dict.t string :=
  fold_left
    (fun sub_map sub =>
       let original := lower (get_or "" (sub_original_ingredient sub)) in
       let replacement := get_or "" (sub_replacement sub) in
       if negb (is_empty original) && negb (is_empty replacement)
       then Dict.set original replacement sub_map
       else sub_map)
    substitutions [].

Definition substitute_item (sub_map : Dict.t string) (item : ingredient) : ingredient :=
  let name := lower (name_of "" item) in
  match Dict.get name sub_map with
  | Some replacement =>
      mk_ingredient (Some replacement) (i_ingredient_name item) (i_quantity item)
                    (i_unit item)
                    (Some (get_or "" (i_notes item) ++ " (Substituted from " ++ name ++ ")"))
  | None => item
  end.

Definition _apply_substitutions (ingredients : list ingredient)
           (substitutions : list substitution) : list ingredient :=
  match substitutions with
  | [] => ingredients
  | _ => map (substitute_item (build_sub_map substitutions)) ingredients
  end.

(** *** Organic preferences *)

(** The note appended to an item made organic: a space and the eight
    bytes that follow it in the source. *)
Definition organic_mark : string :=
  " " ++ bytes [195; 176; 197; 184; 197; 146; 194; 177]%nat.

Definition make_organic (organic_set : list string) (item : ingredient) : ingredient :=
  let name := name_of "" item in
  let name_lower := lower name in
  let should_be_organic := existsb (fun pref => contains pref name_lower) organic_set in
  if should_be_organic && negb (contains "organic" name_lower)
  then mk_ingredient (Some ("organic " ++ name)) (i_ingredient_name item)
                     (i_quantity item) (i_unit item)
                     (Some (get_or "" (i_notes item) ++ organic_mark))
  else item.

Definition _apply_organic_preferences (ingredients : list ingredient)
           (organic_prefs : list string) : list ingredient :=
  match organic_prefs with
  | [] => ingredients
  | _ => map (make_organic (map lower organic_prefs)) ingredients
  end.

(** *** Categorizing *)

Definition format_item (item : ingredient) : display_item :=
  mk_display_item (Some (name_of "" item))
                  (Some (get_or "1" (i_quantity item)))
                  (Some (get_or "" (i_unit item)))
                  (Some (get_or "" (i_notes item))).

(** The key of [categories[category].sort]. *)
Definition sort_key (x : display_item) : string := lower (get_or "" (d_item x)).

(** A stable sort by [sort_key], as [list.sort] is. *)
Fixpoint insert_sorted (x : display_item) (l : list display_item) : list display_item :=
  match l with
  | [] => [x]
  | y :: l' =>
      if String.ltb (sort_key x) (sort_key y)
      then x :: l
      else y :: insert_sorted x l'
  end.

Definition sort_items (l : list display_item) : list display_item :=
  fold_left (fun acc x => insert_sorted x acc) l [].

Definition category_order : list string :=
  [ "Fresh Produce"; "Dairy & Eggs"; "Meat & Seafood"; "Bakery";
    "Pantry Staples"; "Frozen"; "Beverages"; "Snacks"; "Other" ].

Definition _categorize_items (ingredients : list ingredient) : categorized_list :=
  let categories :=
    fold_left
      (fun cats item =>
         Dict.append_to (_get_category (lower (name_of "" item))) (format_item item) cats)
      ingredients [] in
  let categories := map (fun c => (fst c, sort_items (snd c))) categories in
  let sorted_categories :=
    fold_left
      (fun acc cat =>
         match Dict.get cat categories with
         | Some items => Dict.set cat items acc
         | None => acc
         end)
      category_order [] in
  fold_left
    (fun acc c => if Dict.mem (fst c) acc then acc else Dict.set (fst c) (snd c) acc)
    categories sorted_categories.

(** *** Tips *)

Definition tip_prefix (l : list nat) : string :=
  bytes ([195; 176; 197; 184] ++ l)%list.

Definition plain_name (item : ingredient) : string := lower (get_or "" (i_name item)).

Definition produce_tip : string :=
  tip_prefix [194; 165; 194; 172] ++ " Start with fresh produce to ensure best quality".

Definition organic_tip (organic_count : nat) : string :=
  tip_prefix [197; 146; 194; 177] ++ " " ++ str_of_nat organic_count
    ++ " organic items marked with preference".

Definition many_items_tip (n : nat) : string :=
  tip_prefix [226; 128; 156] ++ " " ++ str_of_nat n
    ++ " items total - consider shopping online or using a list app".

Definition _generate_tips (ingredients : list ingredient) (organic_prefs : list string)
  : list string :=
  let produce :=
    existsb (fun item => String.eqb "Fresh Produce" (_get_category (plain_name item)))
            ingredients in
  let organic_count :=
    List.length (filter (fun item => contains "organic" (plain_name item)) ingredients) in
  ((if produce then [produce_tip] else []) ++
   (if (0 <? organic_count)%nat then [organic_tip organic_count] else []) ++
   (if (20 <? List.length ingredients)%nat
    then [many_items_tip (List.length ingredients)] else []))%list.

Definition expensive_keywords : list string :=
  [ "beef"; "lamb"; "salmon"; "prawns"; "shrimp"; "organic" ].

Definition bulk_meat_tip : string :=
  tip_prefix [226; 128; 153; 194; 176]
    ++ " Consider buying meat/seafood on special or in bulk".

Definition seasonal_tip : string :=
  tip_prefix [197; 146; 194; 191] ++ " Buy seasonal produce for better prices and quality".

Definition bulk_pantry_tip : string :=
  tip_prefix [226; 128; 156; 194; 166] ++ " Pantry staples often cheaper in bulk".

Definition _generate_cost_saving_tips (ingredients : list ingredient) : list string :=
  let expensive_items :=
    filter (fun item => existsb (fun kw => contains kw (plain_name item)) expensive_keywords)
           ingredients in
  let pantry_count :=
    List.length
      (filter (fun item => String.eqb (_get_category (plain_name item)) "Pantry Staples")
              ingredients) in
  ((if (3 <? List.length expensive_items)%nat then [bulk_meat_tip] else []) ++
   [seasonal_tip] ++
   (if (5 <? pantry_count)%nat then [bulk_pantry_tip] else []))%list.

(** *** The pipeline *)

(** The line appended for a staple; [staple['name']] and
    [staple['quantity']] raise [KeyError] when the key is absent. *)
Definition staple_line (s : staple) : option ingredient :=
  match s_name s, s_quantity s with
  | Some n, Some q =>
      Some (mk_ingredient (Some n) None (Some q) (Some (get_or "" (s_unit s)))
                          (Some "Staple item"))
  | _, _ => None
  end.

Fixpoint add_staples (combined : list ingredient) (staples : list staple)
  : option (list ingredient) :=
  match staples with
  | [] => Some combined
  | s :: rest =>
      if not_in_stock s
      then match staple_line s with
           | Some line => add_staples (combined ++ [line])%list rest
           | None => None
           end
      else add_staples combined rest
  end.

Definition generate_optimized_list (raw_ingredients : list ingredient)
           (organic_preferences : list string) (substitutions : list substitution)
           (staples : list staple) : option optimizer_result :=
  let combined := _combine_duplicates raw_ingredients in
  let combined := _apply_substitutions combined substitutions in
  let combined := _apply_organic_preferences combined organic_preferences in
  match add_staples combined staples with
  | Some combined =>
      Some (mk_result (Some (_categorize_items combined))
                      (_generate_tips combined organic_preferences)
                      (_generate_cost_saving_tips combined)
                      (Some (Z.of_nat (List.length combined))))
  | None => None
  end.

End SmartShoppingListGenerator.

(** ** meal_plan_agent.py: the assisted optimizers and their repair pass *)

(** What the call of the external classifier comes to: it raised, timed out
    or answered something [json.loads] rejects, or its answer was parsed. *)
Inductive classifier_outcome : Type :=
| ClassifierFailed
| ClassifierReturned (result : optimizer_result).

Module Repair.
Import Py.

(** [.lower().strip()] *)
Definition normalized (s : string) : string := strip (lower s).

(** The set of the names of the classifier's items. *)
Definition ai_item_names (cats : categorized_list) : list string :=
  map (fun item => normalized (get_or "" (d_item item))) (all_items cats).

(** [name in ai_item or ai_item in name] *)
Definition covers (name ai_item : string) : bool :=
  contains name ai_item || contains ai_item name.

(** [any(... for ai_item in ai_items)] *)
Definition found (ai_items : list string) (name : string) : bool :=
  existsb (covers name) ai_items.

(** A missing entry: the dict appended to the list of missing items, and
    whether it carries [is_staple]. *)
Definition missing_item : Type := (ingredient * bool)%type.

Definition missing_ingredients (default : string) (ai_items : list string)
           (raw_ingredients : list ingredient) : list missing_item :=
  map (fun ing => (ing, false))
      (filter (fun ing => negb (found ai_items (normalized (name_of default ing))))
              raw_ingredients).

(** The loop over the staples; [staple['name']] raises when the staple to
    add back has no name. *)
Fixpoint missing_staples (is_staple : bool) (ai_items : list string)
         (staples : list staple) : option (list missing_item) :=
  match staples with
  | [] => Some []
  | s :: rest =>
      if not_in_stock s && negb (found ai_items (normalized (get_or "" (s_name s))))
      then
        match s_name s, missing_staples is_staple ai_items rest with
        | Some n, Some more =>
            Some ((mk_ingredient (Some n) None (Some (get_or "" (s_quantity s)))
                                 (Some (get_or "" (s_unit s))) None, is_staple) :: more)
        | _, _ => None
        end
      else missing_staples is_staple ai_items rest
  end.

Definition count_items (cats : categorized_list) : Z :=
  fold_left (fun n items => (n + Z.of_nat (List.length items))%Z) (Dict.values cats) 0%Z.

(** [if 'Other' not in categories: categories['Other'] = []], then one
    [append] for each missing item. *)
Definition add_to_other (entry : missing_item -> display_item)
           (missing : list missing_item) (cats : categorized_list) : categorized_list :=
  let cats := if Dict.mem "Other" cats then cats else Dict.set "Other" [] cats in
  fold_left (fun c m => Dict.append_to "Other" (entry m) c) missing cats.

End Repair.

Module ShoppingListOptimizer.
Import Py Repair.

Definition quantity_text (qty unit : string) : string := strip (qty ++ " " ++ unit).

Definition repaired_entry (m : missing_item) : display_item :=
  let (item, is_staple) := m in
  let name := name_of "Unknown" item in
  let qty := get_or "" (i_quantity item) in
  let unit := get_or "" (i_unit item) in
  mk_display_item
    (Some name)
    (Some (if negb (is_empty qty) || negb (is_empty unit)
           then quantity_text qty unit else ""))
    None
    (Some ("Added (missing from AI)" ++ (if is_staple then " - Staple" else ""))).

Definition _validate_and_fix_missing_items (ai_result : optimizer_result)
           (raw_ingredients : list ingredient) (staples : list staple)
  : option optimizer_result :=
  let cats := get_or [] (categories ai_result) in
  let ai_items_lower := ai_item_names cats in
  let missing_items := missing_ingredients "Unknown" ai_items_lower raw_ingredients in
  match missing_staples true ai_items_lower staples with
  | None => None
  | Some more =>
      match (missing_items ++ more)%list with
      | [] => Some ai_result
      | missing =>
          let cats := add_to_other repaired_entry missing cats in
          Some (mk_result (Some cats) (shopping_tips ai_result)
                          (cost_saving_suggestions ai_result)
                          (Some (count_items cats)))
      end
  end.

Definition fallback_categories : categorized_list :=
  [ ("Fresh Produce", []); ("Dairy & Eggs", []); ("Meat & Protein", []);
    ("Pantry Staples", []); ("Other", []) ].

Definition fallback_ingredient (ing : ingredient) : display_item :=
  mk_display_item (Some (name_of "Unknown" ing))
                  (Some (quantity_text (get_or "" (i_quantity ing)) (get_or "" (i_unit ing))))
                  None (Some "").

Definition fallback_staple (s : staple) : display_item :=
  mk_display_item (Some (get_or "Unknown" (s_name s)))
                  (Some (quantity_text (get_or "" (s_quantity s)) (get_or "" (s_unit s))))
                  None (Some "Staple item").

Definition _fallback_organization (ingredients : list ingredient) (staples : list staple)
  : optimizer_result :=
  let cats :=
    fold_left (fun c ing => Dict.append_to "Other" (fallback_ingredient ing) c)
              ingredients fallback_categories in
  let cats :=
    fold_left (fun c s => if not_in_stock s
                          then Dict.append_to "Other" (fallback_staple s) c
                          else c)
              staples cats in
  mk_result (Some cats)
            ["AI optimization unavailable - using basic categorization"]
            []
            (Some (Z.of_nat (List.length ingredients
                             + List.length (filter not_in_stock staples)))).

(** [optimize_shopping_list], the classifier's answer being given: both
    [except] clauses return the fallback, and the repair pass runs inside
    the [try]. *)
Definition optimize_shopping_list (outcome : classifier_outcome)
           (raw_ingredients : list ingredient) (organic_preferences : list string)
           (substitutions : list substitution) (staples : list staple)
  : optimizer_result :=
  match outcome with
  | ClassifierFailed => _fallback_organization raw_ingredients staples
  | ClassifierReturned result =>
      match _validate_and_fix_missing_items result raw_ingredients staples with
      | Some repaired => repaired
      | None => _fallback_organization raw_ingredients staples
      end
  end.

End ShoppingListOptimizer.

Module ShoppingListOptimizerNative.
Import Py Repair.

Definition repaired_entry (m : missing_item) : display_item :=
  let item := fst m in
  mk_display_item
    (Some (name_of "Unknown" item))
    (Some (strip (get_or "" (i_quantity item) ++ " " ++ get_or "" (i_unit item))))
    None
    (Some "Added (missing from AI)").

Definition _validate_items (result : optimizer_result)
           (raw_ingredients : list ingredient) (staples : list staple)
  : option optimizer_result :=
  let cats := get_or [] (categories result) in
  let ai_items := ai_item_names cats in
  let missing := missing_ingredients "" ai_items raw_ingredients in
  match missing_staples false ai_items staples with
  | None => None
  | Some more =>
      let cats :=
        match (missing ++ more)%list with
        | [] => cats
        | missing => add_to_other repaired_entry missing cats
        end in
      Some (mk_result (Some cats) (shopping_tips result)
                      (cost_saving_suggestions result)
                      (Some (count_items cats)))
  end.

Definition fallback_ingredient (ing : ingredient) : display_item :=
  mk_display_item (Some (name_of "Unknown" ing))
                  (Some (strip (get_or "" (i_quantity ing) ++ " " ++ get_or "" (i_unit ing))))
                  None (Some "").

(** [staple['name']] raises when a staple to list has no name. *)
Fixpoint fallback_staples (staples : list staple) : option (list display_item) :=
  match staples with
  | [] => Some []
  | s :: rest =>
      if not_in_stock s
      then
        match s_name s, fallback_staples rest with
        | Some n, Some more =>
            Some (mk_display_item
                    (Some n)
                    (Some (strip (get_or "" (s_quantity s) ++ " " ++ get_or "" (s_unit s))))
                    None (Some "Staple") :: more)
        | _, _ => None
        end
      else fallback_staples rest
  end.

Definition _fallback_organization (ingredients : list ingredient) (staples : list staple)
  : option optimizer_result :=
  match fallback_staples staples with
  | Some more =>
      let items := (map fallback_ingredient ingredients ++ more)%list in
      Some (mk_result (Some [("Other", items)]) ["AI optimization unavailable"] []
                      (Some (Z.of_nat (List.length items))))
  | None => None
  end.

Definition optimize_shopping_list (outcome : classifier_outcome)
           (raw_ingredients : list ingredient) (organic_preferences : list string)
           (substitutions : list substitution) (staples : list staple)
  : option optimizer_result :=
  match outcome with
  | ClassifierFailed => _fallback_organization raw_ingredients staples
  | ClassifierReturned result =>
      match _validate_items result raw_ingredients staples with
      | Some repaired => Some repaired
      | None => _fallback_organization raw_ingredients staples
      end
  end.

End ShoppingListOptimizerNative.

(** ** flask_app.py: [apply_preferences] *)

Module FlaskApp.
Import Py.

(** A row of [prefs_db.get_all_substitutions()], which selects the active
    rules: the keys [original] and [substitute]. *)
Record stored_substitution : Type := mk_stored_substitution {
  original : string;
  substitute : string
}.

(** A shopping-list item of the web layer; its [notes] are a list. *)
Record list_item : Type := mk_list_item {
  l_name : option string;
  l_ingredient_name : option string;
  l_quantity : option string;
  l_unit : option string;
  l_original_name : option string;
  l_search_term : option string;
  l_notes : option (list string)
}.

(** [d.get('name', d.get('ingredient_name', ''))] *)
Definition shown_name (d : list_item) : string :=
  get_or (get_or "" (l_ingredient_name d)) (l_name d).

Definition substitute_step (ingredient_name : string) (item_copy : list_item)
           (sub : stored_substitution) : list_item :=
  let note := "Substituted from " ++ original sub in
  if contains (lower (original sub)) ingredient_name
  then mk_list_item (Some (substitute sub)) (l_ingredient_name item_copy)
                    (l_quantity item_copy) (l_unit item_copy)
                    (Some (shown_name item_copy))
                    (l_search_term item_copy)
                    (Some (get_or [] (l_notes item_copy) ++ [note])%list)
  else item_copy.

Definition organic_step (ingredient_name : string) (item_copy : list_item)
           (org_item_name : string) : list_item :=
  if contains (lower org_item_name) ingredient_name
  then mk_list_item (l_name item_copy) (l_ingredient_name item_copy)
                    (l_quantity item_copy) (l_unit item_copy)
                    (l_original_name item_copy)
                    (Some ("organic " ++ shown_name item_copy))
                    (Some (get_or [] (l_notes item_copy) ++ ["Organic preferred"])%list)
  else item_copy.

(** The body of the loop of [apply_preferences]; the two lists are what the
    preference store returns. *)
Definition apply_to_item (substitutions : list stored_substitution)
           (organic_items : list string) (item : list_item) : list_item :=
  let ingredient_name := lower (shown_name item) in
  let item_copy := fold_left (substitute_step ingredient_name) substitutions item in
  fold_left (organic_step ingredient_name) organic_items item_copy.

Definition apply_preferences (substitutions : list stored_substitution)
           (organic_items : list string) (ingredients : list list_item) : list list_item :=
  map (apply_to_item substitutions organic_items) ingredients.

End FlaskApp.

(** ** shopping_list_matcher.py *)

Module ShoppingListMatcher.
Import Py PyFloat.

(** An item to match: [ingredient_name], [name], [quantity], [unit],
    [category]. *)
Record list_item : Type := mk_list_item {
  m_ingredient_name : option string;
  m_name : option string;
  m_quantity : option string;
  m_unit : option string;
  m_category : option string
}.

(** What [search_product] returns on a match; [price] is the JSON number
    read as a binary64 value, [None] when the key is absent or null. *)
Record product : Type := mk_product {
  ingredient : string;
  product_name : string;
  stockcode : Z;
  price : option float;
  category : option string;
  original_quantity : option string;
  original_unit : option string
}.

Record unmatched : Type := mk_unmatched {
  u_ingredient : string;
  u_quantity : string;
  u_unit : string;
  u_category : string
}.

Record report : Type := mk_report {
  matched_items : list product;
  unmatched_items : list unmatched;
  total_matched : nat;
  total_unmatched : nat;
  total_items : nat;
  estimated_cost : float;
  match_rate : float
}.

(** [x or 0] for a price. *)
Definition or_zero (x : option float) : float :=
  match x with
  | Some v => if eqb v zero then zero else v
  | None => zero
  end.

(** [a / b] on two lengths: the exact quotient correctly rounded;
    [ZeroDivisionError] is [None]. *)
Definition true_div (a b : nat) : option float :=
  match N.of_nat b with
  | N0 => None
  | Npos q =>
      match N.of_nat a with
      | N0 => Some zero
      | Npos p => Some (div (S754_finite false p 0) (S754_finite false q 0))
      end
  end.

(** [item.get('ingredient_name') or item.get('name', '')] *)
Definition ingredient_of (item : list_item) : string :=
  match m_ingredient_name item with
  | Some n => if is_empty n then get_or "" (m_name item) else n
  | None => get_or "" (m_name item)
  end.

Section Matching.

(** The catalog search, an external call: its answer may depend on the
    moment of the call, here the position of the item in the list. *)
Variable search_product : nat -> string -> string -> string -> option product.

(** The state of the loop: the two lists and the running cost. *)
Definition loop_state : Type := (list product * list unmatched * float)%type.

Definition match_item (call : nat) (st : loop_state) (item : list_item) : loop_state :=
  let '(matched_items, unmatched_items, total_cost) := st in
  let ingredient := ingredient_of item in
  let quantity := get_or "" (m_quantity item) in
  let unit := get_or "" (m_unit item) in
  let category := get_or "Other" (m_category item) in
  match search_product call ingredient quantity unit with
  | Some matched =>
      let matched :=
        mk_product (ShoppingListMatcher.ingredient matched) (product_name matched)
                   (stockcode matched) (price matched)
                   (Some category) (Some quantity) (Some unit) in
      ((matched_items ++ [matched])%list, unmatched_items,
       add total_cost (or_zero (price matched)))
  | None =>
      (matched_items,
       (unmatched_items ++ [mk_unmatched ingredient quantity unit category])%list,
       total_cost)
  end.

Fixpoint match_loop (call : nat) (st : loop_state) (items : list list_item) : loop_state :=
  match items with
  | [] => st
  | item :: rest => match_loop (S call) (match_item call st item) rest
  end.

Definition match_shopping_list (shopping_list_items : list list_item) : option report :=
  let '(matched_items, unmatched_items, total_cost) :=
    match_loop 0 ([], [], zero) shopping_list_items in
  let rate :=
    match shopping_list_items with
    | [] => Some zero
    | _ =>
        option_map (fun q => mul q (of_N 100))
                   (true_div (List.length matched_items)
                             (List.length shopping_list_items))
    end in
  option_map
    (fun rate =>
       mk_report matched_items unmatched_items
                 (List.length matched_items) (List.length unmatched_items)
                 (List.length shopping_list_items) total_cost rate)
    rate.

End Matching.

End ShoppingListMatcher.

(** ** shopping_chat_agent_native.py: the edits of the chat agent *)

Module ShoppingListChatAgent.
Import Py.

(** An entry of the list under edit: a dict with the keys [item], [name],
    [quantity] and [notes], or anything else, shown through [str]. *)
Record entry_dict : Type := mk_entry {
  e_item : option string;
  e_name : option string;
  e_quantity : option string;
  e_notes : option string
}.

Inductive list_entry : Type :=
| Dict_entry (d : entry_dict)
| Plain_entry (s : string).

Definition shopping_list : Type := Dict.t (list list_entry).

(** An item of the input of the tool [add_items]. *)
Record requested_item : Type := mk_requested {
  r_name : option string;
  r_quantity : option string;
  r_category : option string
}.

(** A tool call of the answer, with its input.  The search and the three
    preference tools call external services and append one message to the
    changes each; a tool of another name does nothing. *)
Inductive tool_call : Type :=
| add_items (items : list requested_item)
| remove_items (item_names : list string)
| modify_quantity (item_name new_quantity : string)
| other_tool (action_type change : string)
| unknown_tool.

Record response : Type := mk_response {
  response_text : string;
  action : string;
  updated_list : option shopping_list;
  changes_made : option string
}.

(** The name an entry is matched under by [remove_items]. *)
Definition entry_name (e : list_entry) : string :=
  match e with
  | Dict_entry d => lower (get_or (get_or "" (e_name d)) (e_item d))
  | Plain_entry s => lower s
  end.

Definition added_entry (name : string) (item : requested_item) : list_entry :=
  Dict_entry (mk_entry (Some name) None (Some (get_or "" (r_quantity item))) (Some "")).

(** The messages appended to the changes. *)
Definition added_message (name category : string) : string :=
  "Added " ++ name ++ " to " ++ category.

Definition removed_message (item_name : string) : string :=
  "Removed " ++ item_name.

Definition changed_message (item_name new_qty : string) : string :=
  "Changed " ++ item_name ++ " quantity to " ++ new_qty.

(** The loop of [add_items]; [item["name"]] raises when the name is absent,
    after the category was created. *)
Fixpoint add_loop (items : list requested_item) (updated : shopping_list)
         (changes : list string) : option (shopping_list * list string) :=
  match items with
  | [] => Some (updated, changes)
  | item :: rest =>
      let category := get_or "Other" (r_category item) in
      let updated := if Dict.mem category updated then updated
                     else Dict.set category [] updated in
      match r_name item with
      | None => None
      | Some name =>
          add_loop rest
                   (Dict.append_to category (added_entry name item) updated)
                   (changes ++ [added_message name category])%list
      end
  end.

(** The inner loop of [remove_items]: the first entry whose name holds the
    needle is popped. *)
Fixpoint pop_first (needle : string) (items : list list_entry) : option (list list_entry) :=
  match items with
  | [] => None
  | e :: rest =>
      if contains needle (entry_name e)
      then Some rest
      else option_map (cons e) (pop_first needle rest)
  end.

(** The loop over the categories, left at the first removal. *)
Fixpoint remove_first (needle : string) (updated : shopping_list) : option shopping_list :=
  match updated with
  | [] => None
  | (category, items) :: rest =>
      match pop_first needle items with
      | Some items' => Some ((category, items') :: rest)
      | None => option_map (cons (category, items)) (remove_first needle rest)
      end
  end.

Definition remove_loop (item_names : list string) (updated : shopping_list)
           (changes : list string) : shopping_list * list string :=
  fold_left
    (fun st item_name =>
       match remove_first (lower item_name) (fst st) with
       | Some updated' => (updated', (snd st ++ [removed_message item_name])%list)
       | None => st
       end)
    item_names (updated, changes).

Definition with_quantity (new_qty : string) (d : entry_dict) : entry_dict :=
  mk_entry (e_item d) (e_name d) (Some new_qty) (e_notes d).

(** The inner loop of [modify_quantity]: only dicts are looked at, and the
    loop is left at the first one whose name holds the needle. *)
Fixpoint set_first (needle new_qty : string) (items : list list_entry)
  : option (list list_entry) :=
  match items with
  | [] => None
  | Dict_entry d :: rest =>
      if contains needle (entry_name (Dict_entry d))
      then Some (Dict_entry (with_quantity new_qty d) :: rest)
      else option_map (cons (Dict_entry d)) (set_first needle new_qty rest)
  | Plain_entry s :: rest =>
      option_map (cons (Plain_entry s)) (set_first needle new_qty rest)
  end.

(** The loop over the categories: the [break] leaves the inner loop only, so
    every category is visited. *)
Fixpoint modify_loop (item_name new_qty : string) (updated : shopping_list)
         (changes : list string) : shopping_list * list string :=
  match updated with
  | [] => ([], changes)
  | (category, items) :: rest =>
      match set_first (lower item_name) new_qty items with
      | Some items' =>
          let (rest', changes') :=
            modify_loop item_name new_qty rest
                        (changes ++ [changed_message item_name new_qty])%list in
          ((category, items') :: rest', changes')
      | None =>
          let (rest', changes') := modify_loop item_name new_qty rest changes in
          ((category, items) :: rest', changes')
      end
  end.

(** The state of the loop over the tool calls. *)
Record edit_state : Type := mk_state {
  st_list : shopping_list;
  st_changes : list string;
  st_action : string
}.

Definition run_tool (st : edit_state) (call : tool_call) : option edit_state :=
  match call with
  | add_items items =>
      match add_loop items (st_list st) (st_changes st) with
      | Some (updated, changes) => Some (mk_state updated changes "add")
      | None => None
      end
  | remove_items item_names =>
      let (updated, changes) := remove_loop item_names (st_list st) (st_changes st) in
      Some (mk_state updated changes "remove")
  | modify_quantity item_name new_qty =>
      let (updated, changes) := modify_loop item_name new_qty (st_list st) (st_changes st) in
      Some (mk_state updated changes "modify")
  | other_tool action_type change =>
      Some (mk_state (st_list st) (st_changes st ++ [change])%list action_type)
  | unknown_tool => Some st
  end.

Fixpoint run_tools (calls : list tool_call) (st : edit_state) : option edit_state :=
  match calls with
  | [] => Some st
  | call :: rest =>
      match run_tool st call with
      | Some st' => run_tools rest st'
      | None => None
      end
  end.

Definition edits_list (action_type : string) : bool :=
  existsb (String.eqb action_type) ["add"; "remove"; "modify"].

(** [_process_response] on the text and the tool calls of the answer. *)
Definition _process_response (text_response : string) (tool_calls : list tool_call)
           (current_shopping_list : shopping_list) : option response :=
  match tool_calls with
  | [] =>
      Some (mk_response
              (if is_empty text_response
               then "I'm here to help with your shopping list!" else text_response)
              "none" None None)
  | _ =>
      match run_tools tool_calls (mk_state current_shopping_list [] "none") with
      | Some st =>
          Some (mk_response
                  (if is_empty text_response
                   then "I've updated your shopping list!" else text_response)
                  (st_action st)
                  (if edits_list (st_action st) then Some (st_list st) else None)
                  (match st_changes st with
                   | [] => None
                   | changes => Some (join "; " changes)
                   end))
      | None => None
      end
  end.



End ShoppingListChatAgent.

(** ** flask_app.py: [categorize_items] *)

Module WebCategorizer.
Import Py.

(** An item of the standard list; [category_staple] is set on the staples
    the route appends. *)
Record item : Type := mk_item {
  w_name : option string;
  w_ingredient_name : option string;
  w_quantity : option string;
  w_unit : option string;
  w_category_staple : option string
}.

Definition pictured (picture : list nat) (text : string) : string :=
  bytes ([240; 159] ++ picture)%list ++ " " ++ text.

Definition dairy : string := pictured [165; 155] "Dairy".
Definition proteins : string := pictured [141; 151] "Proteins".
Definition fresh_produce : string := pictured [165; 172] "Fresh Produce".
Definition bakery : string := pictured [141; 158] "Bakery".
Definition pantry_staples : string := pictured [143; 186] "Pantry Staples".
Definition other : string := pictured [147; 166] "Other".

(** The [category_map] of the staples. *)
Definition category_map : Dict.t string :=
  [ ("Dairy", dairy); ("Proteins", proteins); ("Fresh Produce", fresh_produce);
    ("Bakery", bakery); ("Pantry", pantry_staples); ("Other", other) ].

(** The cascade of [if] and [elif], in its order. *)
Definition keyword_rules : list (list string * string) :=
  [ (["chicken"; "beef"; "pork"; "fish"; "tofu"; "egg"], proteins);
    (["apple"; "banana"; "berry"; "tomato"; "lettuce"; "spinach"; "onion"; "garlic";
      "strawberr"; "blueberr"; "carrot"; "pumpkin"], fresh_produce);
    (["milk"; "cheese"; "yogurt"; "butter"], dairy);
    (["bread"; "loaf"], bakery);
    (["flour"; "sugar"; "salt"; "pepper"; "oil"; "vinegar"; "rice"], pantry_staples) ].

Fixpoint first_rule (rules : list (list string * string)) (ing_name : string) : string :=
  match rules with
  | [] => other
  | (keywords, cat) :: rest =>
      if existsb (fun k => contains k ing_name) keywords
      then cat
      else first_rule rest ing_name
  end.

Definition category_of (it : item) : string :=
  match w_category_staple it with
  | Some cat_name => get_or other (Dict.get cat_name category_map)
  | None => first_rule keyword_rules (lower (get_or "" (w_name it)))
  end.

Definition categorize_items (items : list item) : Dict.t (list item) :=
  fold_left
    (fun categories it =>
       let cat := category_of it in
       let categories := if Dict.mem cat categories then categories
                         else Dict.set cat [] categories in
       Dict.append_to cat it categories)
    items [].

End WebCategorizer.

(** ** meal_plan_agent.py: cleaning the answer of the classifier *)

Module AnswerCleaning.
Import Py.

Definition fence : string := "```".
Definition json_fence : string := "```json".

(** [s[n:]] *)
Fixpoint drop (n : nat) (s : string) : string :=
  match n, s with
  | O, _ => s
  | S n', EmptyString => EmptyString
  | S n', String _ s' => drop n' s'
  end.

(** [s.replace(old, "", 1)]: the first occurrence of [old] is removed. *)
Fixpoint remove_first_occurrence (old s : string) : string :=
  if prefix old s
  then drop (String.length old) s
  else match s with
       | EmptyString => EmptyString
       | String c s' => String c (remove_first_occurrence old s')
       end.

(** [s.rsplit(sep, 1)[0]] when [sep] occurs in [s]: what stands before its
    last occurrence; [None] when it does not occur. *)
Fixpoint before_last (sep s : string) : option string :=
  match s with
  | EmptyString => if prefix sep EmptyString then Some EmptyString else None
  | String c s' =>
      match before_last sep s' with
      | Some r => Some (String c r)
      | None => if prefix sep s then Some EmptyString else None
      end
  end.

(** [s.endswith(suffix)] *)
Fixpoint endswith (suffix s : string) : bool :=
  String.eqb suffix s ||
  match s with
  | EmptyString => false
  | String _ s' => endswith suffix s'
  end.

(** The cleaning of [ShoppingListOptimizer.optimize_shopping_list], from the
    content of the answer to the text handed to [json.loads]. *)
Definition clean (content : string) : string :=
  let content := strip content in
  let content :=
    if prefix json_fence content
    then strip (remove_first_occurrence json_fence content) else content in
  let content :=
    if prefix fence content
    then strip (remove_first_occurrence fence content) else content in
  if endswith fence content
  then strip (get_or content (before_last fence content))
  else content.

End AnswerCleaning.

(** ** Notions the statements use *)

Module Notions.
Import Py Repair.

(** An input name is covered by a categorized list when it occurs in the
    normalized name of one of its items, or that name occurs in it. *)
Definition covered_in (cats : categorized_list) (name : string) : Prop :=
  exists item,
    In item (all_items cats) /\
    covers name (normalized (get_or "" (d_item item))) = true.

(** The items filed under a category. *)
Definition filed_under (cat : string) (cats : categorized_list) : list display_item :=
  get_or [] (Dict.get cat cats).




(** The scan of the keyword table in the order the specification fixes:
    Fresh Produce, Dairy & Eggs, Meat & Seafood, Bakery, Pantry Staples,
    Frozen, Beverages, Snacks. *)
Definition canonical_order : list string :=
  [ "Fresh Produce"; "Dairy & Eggs"; "Meat & Seafood"; "Bakery";
    "Pantry Staples"; "Frozen"; "Beverages"; "Snacks" ].

Definition canonical_table : Dict.t (list string) :=
  map (fun cat =>
         (cat, get_or [] (Dict.get cat SmartShoppingListGenerator.category_map)))
      canonical_order.

Definition categorize_canonical (item_name : string) : string :=
  SmartShoppingListGenerator.scan_categories canonical_table (lower item_name).

(** A keyword of the category occurs in the lower-cased name. *)
Definition matches_category (table : Dict.t (list string)) (cat name : string) : Prop :=
  exists keywords keyword,
    In (cat, keywords) table /\
    In keyword keywords /\
    contains keyword (lower name) = true.

(** The quantity of a line holds a numeric token. *)
Definition parses (item : ingredient) : Prop :=
  exists m, PyFormat.search_number (SmartShoppingListGenerator.qty_str item) = Some m.

(** The number read from the quantity of a line, zero when there is none. *)
Definition quantity_value (item : ingredient) : PyFloat.float :=
  match PyFormat.search_number (SmartShoppingListGenerator.qty_str item) with
  | Some m => PyFormat.float_of_match m
  | None => PyFloat.zero
  end.

(** The left-to-right sum of the quantities of a group. *)
Definition quantity_sum (items : list ingredient) : PyFloat.float :=
  fold_left (fun total item => PyFloat.add total (quantity_value item)) items PyFloat.zero.

(** What the repair pass owes its inputs: every raw ingredient and every
    staple to list is covered by the output; those the classifier's items do
    not cover are filed under [Other] with the note of the repair; and no
    item of the classifier is lost. *)
Definition repaired_from (default staple_note : string)
           (input output : categorized_list)
           (raw : list ingredient) (staples : list staple) : Prop :=
  (forall ing, In ing raw -> covered_in output (normalized (name_of default ing))) /\
  (forall s, In s staples -> not_in_stock s = true ->
     covered_in output (normalized (get_or "" (s_name s)))) /\
  (forall ing, In ing raw ->
     ~ covered_in input (normalized (name_of default ing)) ->
     exists item,
       In item (filed_under "Other" output) /\
       d_item item = Some (name_of "Unknown" ing) /\
       d_notes item = Some "Added (missing from AI)") /\
  (forall s, In s staples -> not_in_stock s = true ->
     ~ covered_in input (normalized (get_or "" (s_name s))) ->
     exists item,
       In item (filed_under "Other" output) /\
       d_item item = s_name s /\
       d_notes item = Some ("Added (missing from AI)" ++ staple_note)) /\
  (forall item, In item (all_items input) -> In item (all_items output)).

(** Sample inputs. *)
Definition line (name quantity unit : string) : ingredient :=
  mk_ingredient (Some name) None (Some quantity) (Some unit) None.

Definition shown (item quantity notes : string) : display_item :=
  mk_display_item (Some item) (Some quantity) None (Some notes).

Definition answer (cats : categorized_list) : optimizer_result :=
  mk_result (Some cats) [] [] (Some (count_items cats)).


(** A rule of the generator that can be entered in its substitution map:
    both its original and its replacement are non-empty. *)
Definition usable (sub : substitution) : Prop :=
  get_or "" (sub_original_ingredient sub) <> "" /\
  get_or "" (sub_replacement sub) <> "".

(** The rule names exactly the lower-cased name of the item. *)
Definition names_exactly (sub : substitution) (item : ingredient) : Prop :=
  lower (get_or "" (sub_original_ingredient sub)) = lower (name_of "" item).

(** The original of a stored rule occurs in the lower-cased name. *)
Definition occurs_in (sub : FlaskApp.stored_substitution) (item : FlaskApp.list_item) : Prop :=
  contains (lower (FlaskApp.original sub)) (lower (FlaskApp.shown_name item)) = true.

(** The products the catalog search returns for the items of a list, the
    first call being numbered [call]. *)
Fixpoint hits (search_product : nat -> string -> string -> string -> option ShoppingListMatcher.product)
         (call : nat) (items : list ShoppingListMatcher.list_item)
  : list ShoppingListMatcher.product :=
  match items with
  | [] => []
  | item :: rest =>
      match search_product call (ShoppingListMatcher.ingredient_of item)
                           (get_or "" (ShoppingListMatcher.m_quantity item))
                           (get_or "" (ShoppingListMatcher.m_unit item)) with
      | Some found => found :: hits search_product (S call) rest
      | None => hits search_product (S call) rest
      end
  end.

(** The arithmetic of the report as the specification words it, on the
    binary64 operations of the library.  What a product adds to the cost:
    its price, and zero when the price is missing, null or zero. *)
Definition price_counted (price : option spec_float) : spec_float :=
  match price with
  | Some v => if SFeqb v (S754_zero false) then S754_zero false else v
  | None => S754_zero false
  end.

(** The prices of a list of products summed from left to right, starting
    from zero. *)
Definition cost_of (products : list ShoppingListMatcher.product) : spec_float :=
  fold_left (fun total p => SFadd 53 1024 total (price_counted (ShoppingListMatcher.price p)))
            products (S754_zero false).

(** The quotient of two counts, the second not zero: the exact quotient
    correctly rounded. *)
Definition quotient (a b : nat) : spec_float :=
  match a with
  | O => S754_zero false
  | S _ => SFdiv 53 1024 (S754_finite false (Pos.of_nat a) 0)
                 (S754_finite false (Pos.of_nat b) 0)
  end.

(** [matched / total * 100] *)
Definition percentage (matched total : nat) : spec_float :=
  SFmul 53 1024 (quotient matched total) (binary_normalize 53 1024 100 0 false).

(** One turn of the loop that builds the substitution map. *)
Definition sub_step (sub_map : Dict.t string) (sub : substitution) : Dict.t string :=
  let original := lower (get_or "" (sub_original_ingredient sub)) in
  let replacement := get_or "" (sub_replacement sub) in
  if negb (is_empty original) && negb (is_empty replacement)
  then Dict.set original replacement sub_map
  else sub_map.

(** The note the web helper appends for a rule. *)
Definition substitution_note (sub : FlaskApp.stored_substitution) : string :=
  "Substituted from " ++ FlaskApp.original sub.

(** The original of a stored rule occurs in a lower-cased name. *)
Definition hit_by (ingredient_name : string) (sub : FlaskApp.stored_substitution) : bool :=
  contains (lower (FlaskApp.original sub)) ingredient_name.

(** The categories of the basic organization, [other] filed under [Other]. *)
Definition basic_categories (other : list display_item) : categorized_list :=
  [ ("Fresh Produce", []); ("Dairy & Eggs", []); ("Meat & Protein", []);
    ("Pantry Staples", []); ("Other", other) ].

(** The boolean reading of [matches_category]. *)
Definition matchesb (table : Dict.t (list string)) (cat name : string) : bool :=
  existsb (fun ck => String.eqb (fst ck) cat
                     && existsb (fun keyword => contains keyword (lower name)) (snd ck))
          table.

(** *** Sample inputs *)

Definition milk_answer : optimizer_result :=
  answer [ ("Dairy & Eggs", [shown "3 cups milk" "3 cups" "Combined from recipes"]) ].

Definition blank_answer : optimizer_result :=
  answer [ ("Other", [shown " " "" ""]) ].

Definition milk : ingredient := line "milk" "2" "cup".
Definition kale : ingredient := line "kale" "1" "bunch".

Definition bread_staple : staple :=
  mk_staple (Some "bread") (Some "1") (Some "loaf") (Some false).

Definition flour_two : ingredient := line "flour" "2" "cup".
Definition flour_one : ingredient := line "flour" "1" "cup".
Definition flour_half : ingredient := line "flour" "half" "cup".
Definition flour_zero : ingredient := line "flour" "0" "cup".
Definition flour_blank : ingredient := line "flour" "" "cup".
Definition flour_bare : ingredient :=
  mk_ingredient (Some "flour") None None (Some "cup") None.

Definition almond_milk : ingredient := line "almond milk" "1" "l".
Definition milk_rule : substitution := mk_substitution (Some "milk") (Some "oat milk").
Definition almond_rule : substitution :=
  mk_substitution (Some "Almond Milk") (Some "oat milk").

Definition stored_milk_rule : FlaskApp.stored_substitution :=
  FlaskApp.mk_stored_substitution "milk" "oat milk".
Definition web_almond_milk : FlaskApp.list_item :=
  FlaskApp.mk_list_item (Some "almond milk") None (Some "1") (Some "l") None None None.

End Notions.

(** ** Notions of the further properties *)

Module Properties.
Import Py.

(** The keys of a list in the order of their first occurrence, those of
    [seen] left out. *)
Fixpoint first_seen (seen keys : list string) : list string :=
  match keys with
  | [] => []
  | k :: rest =>
      if existsb (String.eqb k) seen
      then first_seen seen rest
      else k :: first_seen (seen ++ [k]) rest
  end.

(** The entries filed under a key, none when the key is absent. *)
Definition entries_of {V : Type} (k : string) (d : Dict.t (list V)) : list V :=
  get_or [] (Dict.get k d).

(** The elements of a list whose key is [k], in the order of the list. *)
Definition keyed {A : Type} (key : A -> string) (k : string) (l : list A) : list A :=
  filter (fun x => String.eqb (key x) k) l.

(** The loop that files each element under its key. *)
Definition grouped {A V : Type} (key : A -> string) (val : A -> V)
           (l : list A) (g : Dict.t (list V)) : Dict.t (list V) :=
  fold_left (fun g x => Dict.append_to (key x) (val x) g) l g.

(** The category the generator files an ingredient under. *)
Definition shelf (item : ingredient) : string :=
  SmartShoppingListGenerator._get_category (lower (name_of "" item)).


(** A staple the generator cannot list: it is to be listed and lacks its
    name or its quantity. *)
Definition unlistable (s : staple) : Prop :=
  not_in_stock s = true /\ (s_name s = None \/ s_quantity s = None).

(** The replacement of the last usable rule whose lower-cased original is
    [k]. *)
Fixpoint last_replacement (k : string) (subs : list substitution) : option string :=
  match subs with
  | [] => None
  | sub :: rest =>
      match last_replacement k rest with
      | Some r => Some r
      | None =>
          let original := lower (get_or "" (sub_original_ingredient sub)) in
          let replacement := get_or "" (sub_replacement sub) in
          if negb (is_empty original) && negb (is_empty replacement)
             && String.eqb original k
          then Some replacement
          else None
      end
  end.






(** An entry [remove_items] removes for a name. *)
Definition named (needle : string) (e : ShoppingListChatAgent.list_entry) : bool :=
  contains needle (ShoppingListChatAgent.entry_name e).



(** The first element of a list that satisfies [p] is at the split
    [before ++ x :: after]. *)
Definition first_at {A : Type} (p : A -> bool) (l before : list A) (x : A)
           (after : list A) : Prop :=
  l = (before ++ x :: after)%list /\ p x = true /\
  forall y, In y before -> p y = false.

(** Sample inputs. *)
Definition entry (name quantity : string) : ShoppingListChatAgent.list_entry :=
  ShoppingListChatAgent.Dict_entry
    (ShoppingListChatAgent.mk_entry (Some name) None (Some quantity) (Some "")).

Definition sample_list : ShoppingListChatAgent.shopping_list :=
  [ ("Dairy & Eggs", [entry "milk" "2"; entry "Almond Milk" "1"]);
    ("Other", [ShoppingListChatAgent.Plain_entry "Oat milk"; entry "milk powder" "1"]) ].

(** The line the generator appends for a staple that carries its name and
    its quantity. *)
Definition listed_staple (s : staple) : ingredient :=
  mk_ingredient (Some (get_or "" (s_name s))) None (Some (get_or "" (s_quantity s)))
                (Some (get_or "" (s_unit s))) (Some "Staple item").


(** The six labels of the standard list of the web layer. *)
Definition web_labels : list string :=
  [ WebCategorizer.proteins; WebCategorizer.fresh_produce; WebCategorizer.dairy;
    WebCategorizer.bakery; WebCategorizer.pantry_staples; WebCategorizer.other ].

(** A string of white space only. *)
Fixpoint blank (s : string) : bool :=
  match s with
  | EmptyString => true
  | String c s' => isspace c && blank s'
  end.



(** The entries of a list under edit, category after category. *)
Definition entries (l : ShoppingListChatAgent.shopping_list)
  : list ShoppingListChatAgent.list_entry :=
  flat_map snd l.

(** The lower-cased original of a rule of the generator. *)
Definition rule_key (sub : substitution) : string :=
  lower (get_or "" (sub_original_ingredient sub)).

(** An answer of the classifier that lists the milk and miscounts it. *)
Definition miscounted_answer : optimizer_result :=
  mk_result (Some [ ("Dairy & Eggs",
                     [mk_display_item (Some "milk") (Some "2 cup") None (Some "")]) ])
            [] [] (Some 99%Z).

Definition kale_rule : substitution := mk_substitution (Some "kale") (Some "spinach").


Definition eggs_item : ShoppingListChatAgent.requested_item :=
  ShoppingListChatAgent.mk_requested (Some "eggs") (Some "12") None.

Definition blank_stored_rule : FlaskApp.stored_substitution :=
  FlaskApp.mk_stored_substitution "" "tofu".

Definition newline : string := bytes [10].

(** A catalog that finds the first item at 2.5, misses the second and finds
    the third without a price. *)
Definition sample_catalog (call : nat) (ingredient quantity unit : string)
  : option ShoppingListMatcher.product :=
  match call with
  | 0 => Some (ShoppingListMatcher.mk_product
                 ingredient "Full Cream Milk" 1234
                 (Some (S754_finite false 5 (-1))) None None None)
  | 1 => None
  | _ => Some (ShoppingListMatcher.mk_product
                 ingredient "Loaf" 5678 None None None None)
  end.

Definition three_items : list ShoppingListMatcher.list_item :=
  [ ShoppingListMatcher.mk_list_item (Some "milk") None (Some "2") (Some "l") None;
    ShoppingListMatcher.mk_list_item (Some "kale") None (Some "1") (Some "bunch") None;
    ShoppingListMatcher.mk_list_item None (Some "bread") None None (Some "Bakery") ].

Definition kale_and_milk_rules : list substitution :=
  [ mk_substitution (Some "Milk") (Some "oat milk");
    mk_substitution (Some "kale") (Some "spinach");
    mk_substitution (Some "milk") (Some "soy milk") ].

End Properties.

(** ** Facts on strings *)

Section StringFacts.
Import Py.

Lemma prefix_empty (s : string) : prefix "" s = true.
Proof. destruct s; reflexivity. Qed.

Lemma prefix_app (p s : string) : prefix p (p ++ s) = true.
Proof.
  induction p as [|c p IH]; simpl.
  - apply prefix_empty.
  - destruct (ascii_dec c c) as [_|ne]; [exact IH | now elim ne].
Qed.

Lemma contains_empty (s : string) : contains "" s = true.
Proof. destruct s; reflexivity. Qed.

Lemma contains_prefix (p s : string) : prefix p s = true -> contains p s = true.
Proof. intros H. destruct s; simpl in *; rewrite H; reflexivity. Qed.

Lemma contains_app_left (p s : string) : contains p (p ++ s) = true.
Proof. apply contains_prefix, prefix_app. Qed.

Lemma contains_refl (s : string) : contains s s = true.
Proof.
  apply contains_prefix.
  induction s as [|c s IH]; simpl; [reflexivity|].
  destruct (ascii_dec c c) as [_|ne]; [exact IH | now elim ne].
Qed.

Lemma contains_skip (p : string) (c : ascii) (s : string) :
  contains p s = true -> contains p (String c s) = true.
Proof. intros H. simpl. rewrite H. apply orb_true_r. Qed.

Lemma prefix_split (p s : string) : prefix p s = true -> exists b, s = p ++ b.
Proof.
  revert s. induction p as [|c p IH]; intros s H.
  - now exists s.
  - destruct s as [|d s]; simpl in H; [discriminate|].
    destruct (ascii_dec c d) as [->|_]; [|discriminate].
    destruct (IH s H) as [b ->]. now exists b.
Qed.

(** [contains] is the substring relation. *)
Lemma contains_spec (p s : string) :
  contains p s = true <-> exists a b, s = a ++ p ++ b.
Proof.
  split.
  - induction s as [|c s IH]; intros H.
    + destruct p; [now exists "", "" | discriminate].
    + change (prefix p (String c s) || contains p s = true) in H.
      apply orb_true_iff in H. destruct H as [H|H].
      * destruct (prefix_split _ _ H) as [b E]. now exists "", b.
      * destruct (IH H) as (a & b & E). exists (String c a), b. simpl. now rewrite E.
  - intros (a & b & E). subst s.
    induction a as [|c a IH].
    + change (contains p (p ++ b) = true). apply contains_app_left.
    + change (contains p (String c (a ++ p ++ b)) = true). now apply contains_skip.
Qed.

Lemma lower_app (a b : string) : lower (a ++ b) = lower a ++ lower b.
Proof. induction a as [|c a IH]; simpl; [reflexivity | now rewrite IH]. Qed.

End StringFacts.

(** ** Facts on dictionaries *)

Section DictFacts.
Context {V : Type}.

Lemma get_set_same (k : string) (v : V) (d : Dict.t V) :
  Dict.get k (Dict.set k v d) = Some v.
Proof.
  induction d as [|[k' v'] d IH]; simpl.
  - now rewrite String.eqb_refl.
  - destruct (String.eqb k' k) eqn:E; simpl.
    + now rewrite String.eqb_refl.
    + now rewrite E.
Qed.

Lemma get_set_other (k k' : string) (v : V) (d : Dict.t V) :
  k <> k' -> Dict.get k' (Dict.set k v d) = Dict.get k' d.
Proof.
  intros ne. induction d as [|[k0 v0] d IH]; simpl.
  - apply String.eqb_neq in ne. now rewrite ne.
  - destruct (String.eqb k0 k) eqn:E; simpl.
    + apply String.eqb_eq in E. subst k0.
      apply String.eqb_neq in ne. now rewrite ne.
    + destruct (String.eqb k0 k'); [reflexivity | exact IH].
Qed.

Lemma get_in (k : string) (v : V) (d : Dict.t V) :
  Dict.get k d = Some v -> In (k, v) d.
Proof.
  induction d as [|[k' v'] d IH]; simpl; [discriminate|].
  destruct (String.eqb k' k) eqn:E.
  - apply String.eqb_eq in E. intros [= ->]. left. now subst.
  - intros H. right. now apply IH.
Qed.

End DictFacts.

Section ListDictFacts.
Context {V : Type}.

Lemma append_to_cons_other (k k' : string) (v : V) (vs : list V) (d : Dict.t (list V)) :
  String.eqb k' k = false ->
  Dict.append_to k v ((k', vs) :: d) = (k', vs) :: Dict.append_to k v d.
Proof. intros E. unfold Dict.append_to. simpl. now rewrite E. Qed.

Lemma append_to_cons_same (k : string) (v : V) (vs : list V) (d : Dict.t (list V)) :
  Dict.append_to k v ((k, vs) :: d) = (k, vs ++ [v])%list :: d.
Proof. unfold Dict.append_to. simpl. now rewrite String.eqb_refl. Qed.

Lemma get_append_to_same (k : string) (v : V) (d : Dict.t (list V)) :
  Dict.get k (Dict.append_to k v d) = Some (Py.get_or [] (Dict.get k d) ++ [v])%list.
Proof. apply get_set_same. Qed.

Lemma get_append_to_other (k k' : string) (v : V) (d : Dict.t (list V)) :
  k <> k' -> Dict.get k' (Dict.append_to k v d) = Dict.get k' d.
Proof. apply get_set_other. Qed.

Lemma in_values_append_to (k : string) (v x : V) (d : Dict.t (list V)) :
  In x (flat_map snd (Dict.append_to k v d)) <-> In x (flat_map snd d) \/ x = v.
Proof.
  induction d as [|[k' vs] d IH].
  - unfold Dict.append_to. simpl. intuition congruence.
  - destruct (String.eqb k' k) eqn:E.
    + apply String.eqb_eq in E. subst k'.
      rewrite append_to_cons_same. simpl. rewrite !in_app_iff. simpl. intuition congruence.
    + rewrite append_to_cons_other by exact E.
      simpl. rewrite !in_app_iff, IH. intuition.
Qed.

Lemma in_values_set_nil (k : string) (x : V) (d : Dict.t (list V)) :
  Dict.mem k d = false ->
  (In x (flat_map snd (Dict.set k [] d)) <-> In x (flat_map snd d)).
Proof.
  unfold Dict.mem. induction d as [|[k' vs] d IH]; simpl.
  - intuition.
  - destruct (String.eqb k' k) eqn:E; [discriminate|].
    intros H. simpl. rewrite !in_app_iff, (IH H). intuition.
Qed.

End ListDictFacts.

(** ** The repair pass *)

Section RepairFacts.
Import Py Repair Notions.

Lemma found_iff (ai_items : list string) (name : string) :
  found ai_items name = true <->
  exists ai_item, In ai_item ai_items /\ covers name ai_item = true.
Proof. unfold found. apply existsb_exists. Qed.

Lemma found_covered_in (cats : categorized_list) (name : string) :
  found (ai_item_names cats) name = true <-> covered_in cats name.
Proof.
  rewrite found_iff. unfold ai_item_names, covered_in. split.
  - intros (a & Ha & Hc). apply in_map_iff in Ha as (item & <- & Hi). eauto.
  - intros (item & Hi & Hc). eexists. split; [|exact Hc].
    apply in_map_iff. eauto.
Qed.

Lemma covers_refl (s : string) : covers s s = true.
Proof. unfold covers. now rewrite contains_refl. Qed.

Lemma covers_empty_item (name : string) : covers name "" = true.
Proof. unfold covers. rewrite (contains_empty name). apply orb_true_r. Qed.

Lemma covers_empty_name (ai_item : string) : covers "" ai_item = true.
Proof. unfold covers. now rewrite contains_empty. Qed.

(** The name a raw ingredient is checked under covers the name it is added
    back under, whichever default the check uses. *)
Lemma covers_checked_name (ing : ingredient) :
  covers (normalized (name_of "" ing)) (normalized (name_of "Unknown" ing)) = true.
Proof.
  unfold name_of. destruct (i_name ing) as [n|]; simpl; [apply covers_refl|].
  destruct (i_ingredient_name ing) as [n|]; simpl; [apply covers_refl|].
  apply covers_empty_name.
Qed.

Lemma in_fold_append_other (entry : missing_item -> display_item)
      (missing : list missing_item) (cats : categorized_list) (x : display_item) :
  In x (all_items (fold_left (fun c m => Dict.append_to "Other" (entry m) c) missing cats))
  <-> In x (all_items cats) \/ In x (map entry missing).
Proof.
  revert cats. induction missing as [|m missing IH]; intros cats; simpl.
  - intuition.
  - rewrite IH. unfold all_items at 1. rewrite in_values_append_to.
    unfold all_items. intuition.
Qed.

Lemma in_add_to_other (entry : missing_item -> display_item)
      (missing : list missing_item) (cats : categorized_list) (x : display_item) :
  In x (all_items (add_to_other entry missing cats))
  <-> In x (all_items cats) \/ In x (map entry missing).
Proof.
  unfold add_to_other. rewrite in_fold_append_other.
  destruct (Dict.mem "Other" cats) eqn:E; [reflexivity|].
  unfold all_items at 1. now rewrite (in_values_set_nil _ _ _ E).
Qed.

Lemma get_fold_append_other (entry : missing_item -> display_item)
      (missing : list missing_item) (cats : categorized_list) :
  filed_under "Other" (fold_left (fun c m => Dict.append_to "Other" (entry m) c) missing cats)
  = (filed_under "Other" cats ++ map entry missing)%list.
Proof.
  unfold filed_under. revert cats. induction missing as [|m missing IH]; intros cats; simpl.
  - now rewrite app_nil_r.
  - rewrite IH, get_append_to_same. simpl. now rewrite <- app_assoc.
Qed.

Lemma filed_under_add_to_other (entry : missing_item -> display_item)
      (missing : list missing_item) (cats : categorized_list) :
  filed_under "Other" (add_to_other entry missing cats)
  = (filed_under "Other" cats ++ map entry missing)%list.
Proof.
  unfold add_to_other. rewrite get_fold_append_other. f_equal.
  unfold filed_under, Dict.mem.
  destruct (Dict.get "Other" cats) eqn:E; [now rewrite E|].
  now rewrite get_set_same.
Qed.

Lemma in_missing_ingredients (default : string) (ai_items : list string)
      (raw : list ingredient) (ing : ingredient) :
  In ing raw ->
  found ai_items (normalized (name_of default ing)) = false ->
  In (ing, false) (missing_ingredients default ai_items raw).
Proof.
  intros Hi Hf. unfold missing_ingredients.
  apply (in_map (fun i => (i, false))), filter_In. now rewrite Hf.
Qed.

(** The loop over the staples succeeds when every staple has a name, and
    returns an entry for each staple to list that is not covered. *)
Lemma missing_staples_total (flag : bool) (ai_items : list string) (staples : list staple) :
  (forall s, In s staples -> s_name s <> None) ->
  exists more,
    missing_staples flag ai_items staples = Some more /\
    forall s, In s staples -> not_in_stock s = true ->
      found ai_items (normalized (get_or "" (s_name s))) = false ->
      exists n, s_name s = Some n /\
        In (mk_ingredient (Some n) None (Some (get_or "" (s_quantity s)))
                          (Some (get_or "" (s_unit s))) None, flag) more.
Proof.
  induction staples as [|s staples IH]; intros Hn; simpl.
  - exists []. split; [reflexivity | contradiction].
  - destruct IH as (more & E & Hm); [intros; apply Hn; now right|].
    rewrite E.
    destruct (not_in_stock s && negb (found ai_items (normalized (get_or "" (s_name s))))) eqn:C.
    + destruct (s_name s) as [n|] eqn:En; [|exfalso; apply (Hn s); [now left | exact En]].
      eexists. split; [reflexivity|].
      intros s' [<-|Hi] Hs Hf.
      * exists n. rewrite En. split; [reflexivity | now left].
      * destruct (Hm s' Hi Hs Hf) as (n' & En' & Hin). exists n'. split; [exact En' | now right].
    + exists more. split; [reflexivity|].
      intros s' [<-|Hi] Hs Hf.
      * rewrite Hs, Hf in C. discriminate.
      * now apply Hm.
Qed.

(** Nothing is missing when an item of the classifier has an empty name. *)
Lemma found_with_empty_item (ai_items : list string) (name : string) :
  In "" ai_items -> found ai_items name = true.
Proof. intros H. apply found_iff. exists "". split; [exact H | apply covers_empty_item]. Qed.

Lemma missing_ingredients_none (default : string) (ai_items : list string)
      (raw : list ingredient) :
  (forall name, found ai_items name = true) ->
  missing_ingredients default ai_items raw = [].
Proof.
  intros H. unfold missing_ingredients.
  induction raw as [|ing raw IH]; simpl; [reflexivity|].
  now rewrite H.
Qed.

Lemma missing_staples_none (flag : bool) (ai_items : list string) (staples : list staple) :
  (forall name, found ai_items name = true) ->
  missing_staples flag ai_items staples = Some [].
Proof.
  intros H. induction staples as [|s staples IH]; simpl; [reflexivity|].
  now rewrite H, andb_false_r.
Qed.

End RepairFacts.

Section RepairCompleteness.
Import Py Repair Notions.

Variables (default staple_note : string) (flag : bool).
Variable entry : missing_item -> display_item.
Variables (cats : categorized_list) (raw : list ingredient) (staples : list staple).
Variables (missing more : list missing_item) (out : categorized_list).

Hypothesis entry_ingredient : forall ing,
  d_item (entry (ing, false)) = Some (name_of "Unknown" ing) /\
  d_notes (entry (ing, false)) = Some "Added (missing from AI)".
Hypothesis entry_staple : forall n q u,
  d_item (entry (mk_ingredient (Some n) None q u None, flag)) = Some n /\
  d_notes (entry (mk_ingredient (Some n) None q u None, flag))
  = Some ("Added (missing from AI)" ++ staple_note).
Hypothesis default_covered : forall ing,
  covers (normalized (name_of default ing)) (normalized (name_of "Unknown" ing)) = true.

Hypothesis missing_raw : forall ing, In ing raw ->
  found (ai_item_names cats) (normalized (name_of default ing)) = false ->
  In (ing, false) missing.
Hypothesis missing_staple : forall s, In s staples -> not_in_stock s = true ->
  found (ai_item_names cats) (normalized (get_or "" (s_name s))) = false ->
  exists n, s_name s = Some n /\
    In (mk_ingredient (Some n) None (Some (get_or "" (s_quantity s)))
                      (Some (get_or "" (s_unit s))) None, flag) more.

Hypothesis out_items : forall x,
  In x (all_items out) <-> In x (all_items cats) \/ In x (map entry (missing ++ more)).
Hypothesis out_other :
  filed_under "Other" out = (filed_under "Other" cats ++ map entry (missing ++ more))%list.

Lemma added_raw (ing : ingredient) :
  In ing raw ->
  found (ai_item_names cats) (normalized (name_of default ing)) = false ->
  In (entry (ing, false)) (map entry (missing ++ more)).
Proof.
  intros Hi Hf. apply in_map, in_or_app. left. now apply missing_raw.
Qed.

Lemma added_staple (s : staple) :
  In s staples -> not_in_stock s = true ->
  found (ai_item_names cats) (normalized (get_or "" (s_name s))) = false ->
  exists n q u,
    s_name s = Some n /\
    In (entry (mk_ingredient (Some n) None q u None, flag)) (map entry (missing ++ more)).
Proof.
  intros Hi Hs Hf. destruct (missing_staple s Hi Hs Hf) as (n & En & Hin).
  exists n. do 2 eexists. split; [exact En|].
  apply in_map, in_or_app. right. exact Hin.
Qed.

Lemma repaired_from_out : repaired_from default staple_note cats out raw staples.
Proof.
  unfold repaired_from. repeat split.
  - intros ing Hi.
    destruct (found (ai_item_names cats) (normalized (name_of default ing))) eqn:Hf.
    + apply found_covered_in in Hf. destruct Hf as (item & Hin & Hc).
      exists item. split; [apply out_items; now left | exact Hc].
    + exists (entry (ing, false)). split.
      * apply out_items. right. now apply added_raw.
      * destruct (entry_ingredient ing) as [-> _]. apply default_covered.
  - intros s Hi Hs.
    destruct (found (ai_item_names cats) (normalized (get_or "" (s_name s)))) eqn:Hf.
    + apply found_covered_in in Hf. destruct Hf as (item & Hin & Hc).
      exists item. split; [apply out_items; now left | exact Hc].
    + destruct (added_staple s Hi Hs Hf) as (n & q & u & En & Hin).
      eexists. split; [apply out_items; right; exact Hin|].
      destruct (entry_staple n q u) as [-> _]. rewrite En. apply covers_refl.
  - intros ing Hi Hnc.
    exists (entry (ing, false)). split; [|apply entry_ingredient].
    rewrite out_other. apply in_or_app. right. apply added_raw; [exact Hi|].
    destruct (found _ _) eqn:Hf; [|reflexivity].
    apply found_covered_in in Hf. contradiction.
  - intros s Hi Hs Hnc.
    assert (Hf : found (ai_item_names cats) (normalized (get_or "" (s_name s))) = false).
    { destruct (found _ _) eqn:Hf; [|reflexivity].
      apply found_covered_in in Hf. contradiction. }
    destruct (added_staple s Hi Hs Hf) as (n & q & u & En & Hin).
    eexists. split; [rewrite out_other; apply in_or_app; right; exact Hin|].
    rewrite En. apply entry_staple.
  - intros item Hi. apply out_items. now left.
Qed.

End RepairCompleteness.

Section RepairClaims.
Import Py Repair Notions.

Lemma validate_and_fix_repairs (result : optimizer_result)
      (raw : list ingredient) (staples : list staple) :
  (forall s, In s staples -> s_name s <> None) ->
  exists repaired,
    ShoppingListOptimizer._validate_and_fix_missing_items result raw staples = Some repaired /\
    repaired_from "Unknown" " - Staple" (cats_of result) (cats_of repaired) raw staples.
Proof.
  intros Hn.
  destruct (missing_staples_total true (ai_item_names (cats_of result)) staples Hn)
    as (more & E & Hm).
  unfold ShoppingListOptimizer._validate_and_fix_missing_items.
  fold (cats_of result). rewrite E.
  set (missing := missing_ingredients "Unknown" (ai_item_names (cats_of result)) raw).
  assert (G : forall out,
             (forall x, In x (all_items out) <->
                        In x (all_items (cats_of result)) \/
                        In x (map ShoppingListOptimizer.repaired_entry (missing ++ more))) ->
             filed_under "Other" out
             = (filed_under "Other" (cats_of result)
                ++ map ShoppingListOptimizer.repaired_entry (missing ++ more))%list ->
             repaired_from "Unknown" " - Staple" (cats_of result) out raw staples).
  { intros out H1 H2.
    apply (repaired_from_out "Unknown" " - Staple" true
             ShoppingListOptimizer.repaired_entry (cats_of result) raw staples
             missing more out); try assumption.
    - intros ing. split; reflexivity.
    - intros n q u. split; reflexivity.
    - intros ing. apply covers_refl.
    - intros ing. apply in_missing_ingredients. }
  destruct (missing ++ more)%list as [|m rest] eqn:Em.
  - eexists. split; [reflexivity|]. apply G.
    + simpl. intuition.
    + simpl. now rewrite app_nil_r.
  - eexists. split; [reflexivity|]. unfold cats_of at 2. simpl categories. simpl get_or.
    apply G.
    + apply in_add_to_other.
    + apply filed_under_add_to_other.
Qed.

Lemma validate_items_repairs (result : optimizer_result)
      (raw : list ingredient) (staples : list staple) :
  (forall s, In s staples -> s_name s <> None) ->
  exists repaired,
    ShoppingListOptimizerNative._validate_items result raw staples = Some repaired /\
    repaired_from "" "" (cats_of result) (cats_of repaired) raw staples.
Proof.
  intros Hn.
  destruct (missing_staples_total false (ai_item_names (cats_of result)) staples Hn)
    as (more & E & Hm).
  unfold ShoppingListOptimizerNative._validate_items.
  fold (cats_of result). rewrite E.
  set (missing := missing_ingredients "" (ai_item_names (cats_of result)) raw).
  eexists. split; [reflexivity|]. unfold cats_of at 2. simpl categories. simpl get_or.
  apply (repaired_from_out "" "" false
           ShoppingListOptimizerNative.repaired_entry (cats_of result) raw staples
           missing more); try assumption.
  - intros ing. split; reflexivity.
  - intros n q u. split; reflexivity.
  - intros ing. apply covers_checked_name.
  - intros ing. apply in_missing_ingredients.
  - intros x. destruct (missing ++ more)%list as [|m rest] eqn:Em.
    + simpl. intuition.
    + apply in_add_to_other.
  - destruct (missing ++ more)%list as [|m rest] eqn:Em.
    + simpl. now rewrite app_nil_r.
    + apply filed_under_add_to_other.
Qed.

(** C1. Completeness of the repair pass: for every answer of the classifier,
    every list of raw ingredients and every list of named staples, both
    repair passes ([_validate_and_fix_missing_items] and [_validate_items])
    return a result in which every raw ingredient and every staple that is
    not in stock is covered by an item of the output, the name of the input
    occurring in the normalized name of the item or the converse; an input
    the classifier's items do not cover is appended to [Other] with the note
    [Added (missing from AI)]; no item of the classifier is lost. *)
Theorem repair_pass_covers_every_input :
  forall (result : optimizer_result) (raw : list ingredient) (staples : list staple),
    (forall s, In s staples -> s_name s <> None) ->
    (exists repaired,
        ShoppingListOptimizer._validate_and_fix_missing_items result raw staples
        = Some repaired /\
        repaired_from "Unknown" " - Staple" (cats_of result) (cats_of repaired) raw staples) /\
    (exists repaired,
        ShoppingListOptimizerNative._validate_items result raw staples = Some repaired /\
        repaired_from "" "" (cats_of result) (cats_of repaired) raw staples).
Proof.
  intros result raw staples Hn. split.
  - now apply validate_and_fix_repairs.
  - now apply validate_items_repairs.
Qed.

(** C10. When an item of the classifier's answer has an empty normalized
    name, the coverage test holds of every name: nothing is found missing,
    and both repair passes return the categories of the answer as they
    are. *)
Theorem empty_item_name_covers_everything :
  forall (result : optimizer_result) (raw : list ingredient) (staples : list staple),
    (exists item, In item (all_items (cats_of result)) /\
                  normalized (get_or "" (d_item item)) = "") ->
    (forall name, found (ai_item_names (cats_of result)) name = true) /\
    (forall default, missing_ingredients default (ai_item_names (cats_of result)) raw = []) /\
    (forall flag, missing_staples flag (ai_item_names (cats_of result)) staples = Some []) /\
    ShoppingListOptimizer._validate_and_fix_missing_items result raw staples = Some result /\
    (exists repaired,
        ShoppingListOptimizerNative._validate_items result raw staples = Some repaired /\
        cats_of repaired = cats_of result).
Proof.
  intros result raw staples (item & Hi & He).
  assert (F : forall name, found (ai_item_names (cats_of result)) name = true).
  { intros name. apply found_with_empty_item. rewrite <- He.
    unfold ai_item_names. apply in_map_iff. eauto. }
  split; [exact F|].
  split; [intros; now apply missing_ingredients_none|].
  split; [intros; now apply missing_staples_none|].
  split.
  - unfold ShoppingListOptimizer._validate_and_fix_missing_items. fold (cats_of result).
    rewrite (missing_staples_none _ _ _ F), (missing_ingredients_none _ _ _ F).
    reflexivity.
  - unfold ShoppingListOptimizerNative._validate_items. fold (cats_of result).
    rewrite (missing_staples_none _ _ _ F), (missing_ingredients_none _ _ _ F).
    eexists. split; reflexivity.
Qed.

End RepairClaims.

(** ** The rule-based categorizer *)

Section CategorizerFacts.
Import Py Notions SmartShoppingListGenerator.

Lemma hit_iff (keywords : list string) (name : string) :
  existsb (fun keyword => contains keyword name) keywords = true <->
  exists keyword, In keyword keywords /\ contains keyword name = true.
Proof. apply existsb_exists. Qed.

Lemma scan_first_match (name cat : string) (keywords : list string)
      (before after : Dict.t (list string)) :
  existsb (fun keyword => contains keyword name) keywords = true ->
  (forall c k, In (c, k) before -> existsb (fun keyword => contains keyword name) k = false) ->
  scan_categories (before ++ (cat, keywords) :: after)%list name = cat.
Proof.
  intros Hhit. induction before as [|[c k] before IH]; intros Hmiss; simpl.
  - now rewrite Hhit.
  - rewrite (Hmiss c k) by now left.
    apply IH. intros c' k' Hin. apply (Hmiss c' k'). now right.
Qed.

Lemma scan_no_match (name : string) (table : Dict.t (list string)) :
  (forall c k, In (c, k) table -> existsb (fun keyword => contains keyword name) k = false) ->
  scan_categories table name = "Other".
Proof.
  induction table as [|[c k] table IH]; intros Hmiss; simpl; [reflexivity|].
  rewrite (Hmiss c k) by now left.
  apply IH. intros c' k' Hin. apply (Hmiss c' k'). now right.
Qed.

Lemma no_match_no_hit (table : Dict.t (list string)) (name c : string) (k : list string) :
  ~ matches_category table c name -> In (c, k) table ->
  existsb (fun keyword => contains keyword (lower name)) k = false.
Proof.
  intros Hn Hin. destruct (existsb _ k) eqn:E; [|reflexivity].
  exfalso. apply Hn. apply hit_iff in E as (kw & Hk & Hc). now exists k, kw.
Qed.

(** C6, as the code has it. [_get_category] scans the keyword table in the
    order Fresh Produce, Dairy & Eggs, Meat & Seafood, Pantry Staples,
    Bakery, Frozen, Beverages, Snacks, and returns the first category one of
    whose keywords occurs in the lower-cased name, [Other] when none does:
    Pantry Staples is scanned before Bakery, so a name that matches a keyword
    of both, and none of an earlier category, is a pantry staple. *)
Theorem get_category_first_match_in_table_order :
  forall item_name : string,
    Dict.keys category_map
    = [ "Fresh Produce"; "Dairy & Eggs"; "Meat & Seafood"; "Pantry Staples";
        "Bakery"; "Frozen"; "Beverages"; "Snacks" ] /\
    (forall before cat keywords after,
        category_map = (before ++ (cat, keywords) :: after)%list ->
        (exists keyword, In keyword keywords /\ contains keyword (lower item_name) = true) ->
        (forall c, In c (Dict.keys before) -> ~ matches_category category_map c item_name) ->
        _get_category item_name = cat) /\
    ((forall c, ~ matches_category category_map c item_name) ->
     _get_category item_name = "Other") /\
    (matches_category category_map "Bakery" item_name ->
     matches_category category_map "Pantry Staples" item_name ->
     ~ matches_category category_map "Fresh Produce" item_name ->
     ~ matches_category category_map "Dairy & Eggs" item_name ->
     ~ matches_category category_map "Meat & Seafood" item_name ->
     _get_category item_name = "Pantry Staples").
Proof.
  intros item_name.
  assert (First : forall before cat keywords after,
             category_map = (before ++ (cat, keywords) :: after)%list ->
             (exists keyword, In keyword keywords /\ contains keyword (lower item_name) = true) ->
             (forall c, In c (Dict.keys before) -> ~ matches_category category_map c item_name) ->
             _get_category item_name = cat).
  { intros before cat keywords after E Hhit Hmiss.
    unfold _get_category. rewrite E. apply scan_first_match.
    - now apply hit_iff.
    - intros c k Hin. apply (no_match_no_hit category_map item_name c k).
      + apply Hmiss. unfold Dict.keys. apply in_map_iff. now exists (c, k).
      + rewrite E. apply in_or_app. now left. }
  split; [reflexivity|]. split; [exact First|]. split.
  - intros Hmiss. unfold _get_category. apply scan_no_match.
    intros c k Hin. now apply (no_match_no_hit category_map _ c).
  - intros _ (keywords & keyword & Hin & Hk & Hc) Hfresh Hdairy Hmeat.
    assert (Ek : keywords = Py.get_or [] (Dict.get "Pantry Staples" category_map)).
    { simpl in Hin.
      repeat (destruct Hin as [Hin|Hin]; [inversion Hin; try reflexivity|]);
        try contradiction. }
    apply (First (firstn 3 category_map) "Pantry Staples" keywords (skipn 4 category_map)).
    + rewrite Ek. reflexivity.
    + now exists keyword.
    + intros c Hc'. simpl in Hc'.
      destruct Hc' as [<-|[<-|[<-|[]]]]; assumption.
Qed.

End CategorizerFacts.

(** ** Organic preferences *)

Section OrganicFacts.
Import Py SmartShoppingListGenerator.

Lemma organic_prefix_seen (name : string) :
  contains "organic" (lower ("organic " ++ name)) = true.
Proof.
  rewrite lower_app.
  change (contains "organic" ("organic" ++ (" " ++ lower name)) = true).
  apply contains_app_left.
Qed.

Lemma already_organic_unchanged (organic_set : list string) (item : ingredient) :
  contains "organic" (lower (name_of "" item)) = true ->
  make_organic organic_set item = item.
Proof.
  intros H. unfold make_organic. rewrite H. simpl. now rewrite andb_false_r.
Qed.

Lemma make_organic_cases (organic_set : list string) (item : ingredient) :
  make_organic organic_set item = item \/
  make_organic organic_set item
  = mk_ingredient (Some ("organic " ++ name_of "" item)) (i_ingredient_name item)
                  (i_quantity item) (i_unit item)
                  (Some (get_or "" (i_notes item) ++ organic_mark)).
Proof. unfold make_organic. destruct (_ && _); auto. Qed.

Lemma make_organic_idempotent (organic_set : list string) (item : ingredient) :
  make_organic organic_set (make_organic organic_set item) = make_organic organic_set item.
Proof.
  destruct (make_organic_cases organic_set item) as [E|E]; rewrite E.
  - exact E.
  - apply already_organic_unchanged. apply organic_prefix_seen.
Qed.

(** C7. Applying the organic preferences twice gives what applying them once
    gives; an item whose lower-cased name holds [organic] is left as it is,
    so an item prefixed once is not prefixed again. *)
Theorem apply_organic_preferences_idempotent :
  forall (ingredients : list ingredient) (organic_prefs : list string),
    _apply_organic_preferences (_apply_organic_preferences ingredients organic_prefs)
                               organic_prefs
    = _apply_organic_preferences ingredients organic_prefs /\
    (forall item,
        In item (_apply_organic_preferences ingredients organic_prefs) ->
        make_organic (map lower organic_prefs) item = item).
Proof.
  intros ingredients organic_prefs.
  assert (Fix : forall item,
             In item (map (make_organic (map lower organic_prefs)) ingredients) ->
             make_organic (map lower organic_prefs) item = item).
  { intros item Hin. apply in_map_iff in Hin as (x & <- & _).
    apply make_organic_idempotent. }
  destruct organic_prefs as [|pref prefs].
  - split; [reflexivity|]. intros item _. reflexivity.
  - split; [|exact Fix].
    unfold _apply_organic_preferences.
    rewrite map_map. apply map_ext. intros item. apply make_organic_idempotent.
Qed.

End OrganicFacts.

(** ** Combining duplicates *)

Section CombineFacts.
Import Py PyFloat PyFormat Notions SmartShoppingListGenerator.




Lemma sum_quantities_all (items : list ingredient) (total : float) :
  Forall parses items ->
  sum_quantities total items
  = Some (fold_left (fun t item => add t (quantity_value item)) items total).
Proof.
  intros H. revert total. induction H as [|item items [m Hm] _ IH]; intros total; simpl.
  - reflexivity.
  - unfold quantity_value. rewrite Hm. apply IH.
Qed.

Lemma sum_quantities_none (items : list ingredient) (total : float) :
  (exists item, In item items /\ ~ parses item) ->
  sum_quantities total items = None.
Proof.
  revert total. induction items as [|x items IH]; intros total (item & Hin & Hn).
  - contradiction.
  - simpl. destruct (search_number (qty_str x)) as [m|] eqn:E; [|reflexivity].
    apply IH. exists item. split; [|exact Hn].
    destruct Hin as [<-|Hin]; [|exact Hin].
    exfalso. apply Hn. now exists m.
Qed.

Lemma parses_dec (item : ingredient) : parses item \/ ~ parses item.
Proof.
  unfold parses. destruct (search_number (qty_str item)) as [m|].
  - left. now exists m.
  - right. intros [m H]. discriminate.
Qed.

Lemma all_parse_or_not (items : list ingredient) :
  Forall parses items \/ exists item, In item items /\ ~ parses item.
Proof.
  induction items as [|x items [IH|(item & Hin & Hn)]].
  - left. constructor.
  - destruct (parses_dec x) as [P|N].
    + left. now constructor.
    + right. exists x. split; [now left | exact N].
  - right. exists item. split; [now right | exact Hn].
Qed.

Lemma keep_separate_length (idx : nat) (items : list ingredient) :
  List.length (keep_separate idx items) = List.length items.
Proof. revert idx. induction items as [|x items IH]; intros idx; simpl; auto. Qed.

Lemma keep_separate_nth (idx i : nat) (items : list ingredient) (item : ingredient) :
  nth_error items i = Some item ->
  nth_error (keep_separate idx items) i
  = Some (with_notes ("From recipe " ++ str_of_nat (idx + i)) item).
Proof.
  revert idx i. induction items as [|x items IH]; intros idx i H.
  - destruct i; discriminate.
  - destruct i as [|i]; simpl in *.
    + injection H as <-. now rewrite Nat.add_0_r.
    + rewrite (IH (S idx) i H). simpl. now rewrite Nat.add_succ_r.
Qed.

Lemma combine_group_cases (name : string) (first second : ingredient)
      (rest : list ingredient) :
  let items := first :: second :: rest in
  (Forall parses items -> ltb zero (quantity_sum items) = true ->
   combine_group name items = [combined_item name (quantity_sum items) items]) /\
  ((exists item, In item items /\ ~ parses item) \/ ltb zero (quantity_sum items) = false ->
   combine_group name items = keep_separate 1 items).
Proof.
  intros items. unfold combine_group. subst items. split.
  - intros Hall Hpos. rewrite (sum_quantities_all _ _ Hall).
    fold (quantity_sum (first :: second :: rest)). now rewrite Hpos.
  - intros [Hn|Hz].
    + now rewrite (sum_quantities_none _ _ Hn).
    + destruct (all_parse_or_not (first :: second :: rest)) as [Hall|Hn].
      * rewrite (sum_quantities_all _ _ Hall).
        fold (quantity_sum (first :: second :: rest)). now rewrite Hz.
      * now rewrite (sum_quantities_none _ _ Hn).
Qed.

(** C4, as the code has it. For a group of two lines or more that share
    their normalized name: when the quantity of every line holds a numeric
    token and the sum of these numbers is positive, the combiner emits one
    item, named by the key, whose quantity is the sum printed with one
    decimal and trimmed of its trailing zeros and point, whose unit is that
    of the first line, and whose note is [Combined from N recipes]; when a
    line has no numeric token, or the sum is not positive, it emits the
    lines one by one, the i-th annotated [From recipe i]. *)
Theorem combine_group_sums_or_keeps_lines :
  forall (name : string) (first second : ingredient) (rest : list ingredient),
    let items := first :: second :: rest in
    (Forall parses items -> ltb zero (quantity_sum items) = true ->
     combine_group name items
     = [ mk_ingredient (Some name) None
                       (Some (format_total (quantity_sum items)))
                       (Some (get_or "" (i_unit first)))
                       (Some ("Combined from " ++ str_of_nat (List.length items)
                                               ++ " recipes")) ]) /\
    ((exists item, In item items /\ ~ parses item) \/ ltb zero (quantity_sum items) = false ->
     combine_group name items = keep_separate 1 items) /\
    List.length (keep_separate 1 items) = List.length items /\
    (forall i item, nth_error items i = Some item ->
       nth_error (keep_separate 1 items) i
       = Some (with_notes ("From recipe " ++ str_of_nat (S i)) item)).
Proof.
  intros name first second rest items.
  destruct (combine_group_cases name first second rest) as [Hsum Hsep].
  split; [exact Hsum|]. split; [exact Hsep|]. split.
  - apply keep_separate_length.
  - intros i item H. apply (keep_separate_nth 1 i items item H).
Qed.

(** C5, as the code has it. In a group of two lines or more, a line whose
    quantity is the empty string has no numeric token, and the group is
    emitted line by line; a line with no quantity at all is read as the
    quantity [1], which parses and counts for one in the sum. *)
Theorem empty_quantity_keeps_lines_absent_counts_one :
  forall (name : string) (first second : ingredient) (rest : list ingredient)
         (item : ingredient),
    In item (first :: second :: rest) ->
    i_quantity item = Some "" ->
    ~ parses item /\
    combine_group name (first :: second :: rest) = keep_separate 1 (first :: second :: rest) /\
    List.length (combine_group name (first :: second :: rest))
    = List.length (first :: second :: rest) /\
    (forall other, i_quantity other = None ->
       parses other /\ quantity_value other = of_decimal 1 0).
Proof.
  intros name first second rest item Hin Hq.
  assert (Hn : ~ parses item).
  { intros [m H]. unfold qty_str in H. rewrite Hq in H. discriminate. }
  assert (E : combine_group name (first :: second :: rest)
              = keep_separate 1 (first :: second :: rest)).
  { apply combine_group_cases. left. now exists item. }
  split; [exact Hn|]. split; [exact E|]. split.
  - rewrite E. apply keep_separate_length.
  - intros other Ho. unfold parses, quantity_value, qty_str. rewrite Ho. split.
    + eexists. reflexivity.
    + reflexivity.
Qed.



End CombineFacts.

(** ** Substitutions *)

Section SubstitutionFacts.
Import Py Notions Properties SmartShoppingListGenerator.

Lemma is_empty_false (s : string) : is_empty s = false <-> s <> "".
Proof. destruct s; simpl; split; intros H; congruence. Qed.

Lemma lower_empty (s : string) : lower s = "" <-> s = "".
Proof. destruct s; simpl; split; intros H; congruence. Qed.

Lemma sub_step_usable (sub_map : Dict.t string) (sub : substitution) :
  usable sub ->
  sub_step sub_map sub
  = Dict.set (lower (get_or "" (sub_original_ingredient sub)))
             (get_or "" (sub_replacement sub)) sub_map.
Proof.
  intros [Ho Hr]. unfold sub_step.
  assert (E1 : is_empty (lower (get_or "" (sub_original_ingredient sub))) = false).
  { apply is_empty_false. intros E. apply Ho. now apply lower_empty. }
  assert (E2 : is_empty (get_or "" (sub_replacement sub)) = false) by now apply is_empty_false.
  now rewrite E1, E2.
Qed.

Lemma sub_step_get (sub_map : Dict.t string) (sub : substitution) (k r : string) :
  Dict.get k (sub_step sub_map sub) = Some r ->
  Dict.get k sub_map = Some r \/
  (usable sub /\ lower (get_or "" (sub_original_ingredient sub)) = k).
Proof.
  unfold sub_step.
  destruct (is_empty (lower (get_or "" (sub_original_ingredient sub)))) eqn:E1;
    [now left|].
  destruct (is_empty (get_or "" (sub_replacement sub))) eqn:E2; [now left|]. simpl.
  destruct (string_dec (lower (get_or "" (sub_original_ingredient sub))) k) as [E|NE].
  - intros _. right. split; [|exact E]. split.
    + apply is_empty_false in E1. intros H. apply E1. now apply lower_empty.
    + now apply is_empty_false.
  - rewrite get_set_other by exact NE. now left.
Qed.

Lemma sub_map_sound (subs : list substitution) (sub_map : Dict.t string) (k r : string) :
  Dict.get k (fold_left sub_step subs sub_map) = Some r ->
  Dict.get k sub_map = Some r \/
  exists sub, In sub subs /\ usable sub /\
              lower (get_or "" (sub_original_ingredient sub)) = k.
Proof.
  revert sub_map. induction subs as [|sub subs IH]; intros sub_map H; simpl in H.
  - now left.
  - destruct (IH _ H) as [G|(s & Hin & Hu & Hk)].
    + destruct (sub_step_get _ _ _ _ G) as [G'|[Hu Hk]]; [now left|].
      right. exists sub. split; [now left | now split].
    + right. exists s. split; [now right | now split].
Qed.

Lemma sub_map_keeps (subs : list substitution) (sub_map : Dict.t string) (k : string) :
  Dict.get k sub_map <> None ->
  Dict.get k (fold_left sub_step subs sub_map) <> None.
Proof.
  revert sub_map. induction subs as [|sub subs IH]; intros sub_map H; simpl; [exact H|].
  apply IH. unfold sub_step. destruct (_ && _); [|exact H].
  destruct (string_dec (lower (get_or "" (sub_original_ingredient sub))) k) as [E|NE].
  - subst k. rewrite get_set_same. discriminate.
  - now rewrite get_set_other.
Qed.

Lemma sub_map_complete (subs : list substitution) (sub_map : Dict.t string)
      (sub : substitution) :
  In sub subs -> usable sub ->
  Dict.get (lower (get_or "" (sub_original_ingredient sub)))
           (fold_left sub_step subs sub_map) <> None.
Proof.
  revert sub_map. induction subs as [|x subs IH]; intros sub_map Hin Hu; [contradiction|].
  simpl. destruct Hin as [->|Hin].
  - apply sub_map_keeps. rewrite (sub_step_usable _ _ Hu), get_set_same. discriminate.
  - now apply IH.
Qed.

Lemma build_sub_map_fold (subs : list substitution) :
  build_sub_map subs = fold_left sub_step subs [].
Proof. reflexivity. Qed.

Lemma apply_substitutions_map (items : list ingredient) (subs : list substitution) :
  subs <> [] ->
  _apply_substitutions items subs = map (substitute_item (build_sub_map subs)) items.
Proof. destruct subs; [congruence | reflexivity]. Qed.

Lemma substitute_item_exact (subs : list substitution) (item : ingredient) :
  (exists sub, In sub subs /\ usable sub /\ names_exactly sub item) ->
  exists replacement,
    Dict.get (lower (name_of "" item)) (build_sub_map subs) = Some replacement /\
    substitute_item (build_sub_map subs) item
    = mk_ingredient (Some replacement) (i_ingredient_name item) (i_quantity item)
                    (i_unit item)
                    (Some (get_or "" (i_notes item)
                           ++ " (Substituted from " ++ lower (name_of "" item) ++ ")")).
Proof.
  intros (sub & Hin & Hu & Hk). unfold names_exactly in Hk.
  pose proof (sub_map_complete subs [] sub Hin Hu) as G. rewrite Hk in G.
  rewrite <- build_sub_map_fold in G.
  destruct (Dict.get (lower (name_of "" item)) (build_sub_map subs)) as [r|] eqn:E;
    [|congruence].
  exists r. split; [reflexivity|]. unfold substitute_item. now rewrite E.
Qed.

Lemma sub_map_last (subs : list substitution) (sub_map : Dict.t string) (k : string) :
  Dict.get k (fold_left sub_step subs sub_map)
  = match last_replacement k subs with
    | Some r => Some r
    | None => Dict.get k sub_map
    end.
Proof.
  revert sub_map. induction subs as [|sub subs IH]; intros sub_map; simpl; [reflexivity|].
  rewrite IH. destruct (last_replacement k subs); [reflexivity|].
  unfold sub_step.
  destruct (negb (is_empty (lower (get_or "" (sub_original_ingredient sub))))
            && negb (is_empty (get_or "" (sub_replacement sub)))); simpl; [|reflexivity].
  destruct (String.eqb (lower (get_or "" (sub_original_ingredient sub))) k) eqn:E.
  - apply String.eqb_eq in E. subst k. apply get_set_same.
  - apply String.eqb_neq in E. now apply get_set_other.
Qed.

Lemma last_replacement_app (k : string) (before after : list substitution) :
  last_replacement k (before ++ after)
  = match last_replacement k after with
    | Some r => Some r
    | None => last_replacement k before
    end.
Proof.
  induction before as [|sub before IH]; simpl.
  - now destruct (last_replacement k after).
  - rewrite IH. now destruct (last_replacement k after).
Qed.

Lemma last_replacement_none (k : string) (subs : list substitution) :
  (forall s, In s subs -> usable s -> rule_key s <> k) ->
  last_replacement k subs = None.
Proof.
  induction subs as [|sub subs IH]; intros H; simpl; [reflexivity|].
  rewrite IH by (intros s Hs; apply H; now right).
  destruct (is_empty (lower (get_or "" (sub_original_ingredient sub)))) eqn:E1;
    [reflexivity|].
  destruct (is_empty (get_or "" (sub_replacement sub))) eqn:E2; [reflexivity|]. simpl.
  destruct (String.eqb _ k) eqn:E; [|reflexivity].
  apply String.eqb_eq in E. exfalso. apply (H sub); [now left | | exact E].
  split.
  - apply is_empty_false in E1. intros Hx. apply E1. now apply lower_empty.
  - now apply is_empty_false.
Qed.

Lemma substitute_item_other (subs : list substitution) (item : ingredient) :
  (forall sub, In sub subs -> ~ names_exactly sub item) ->
  substitute_item (build_sub_map subs) item = item.
Proof.
  intros Hn. unfold substitute_item.
  destruct (Dict.get (lower (name_of "" item)) (build_sub_map subs)) as [r|] eqn:E;
    [|reflexivity].
  rewrite build_sub_map_fold in E.
  destruct (sub_map_sound _ _ _ _ E) as [G|(sub & Hin & _ & Hk)]; [discriminate|].
  exfalso. now apply (Hn sub Hin).
Qed.

End SubstitutionFacts.

Section WebSubstitutionFacts.
Import Py Notions FlaskApp.

Variable ingredient_name : string.

Lemma substitute_step_hit (item_copy : list_item) (sub : stored_substitution) :
  hit_by ingredient_name sub = true ->
  l_name (substitute_step ingredient_name item_copy sub) = Some (substitute sub) /\
  get_or [] (l_notes (substitute_step ingredient_name item_copy sub))
  = (get_or [] (l_notes item_copy) ++ [substitution_note sub])%list.
Proof. unfold hit_by, substitute_step. intros ->. split; reflexivity. Qed.

Lemma substitute_step_miss (item_copy : list_item) (sub : stored_substitution) :
  hit_by ingredient_name sub = false -> substitute_step ingredient_name item_copy sub = item_copy.
Proof. unfold hit_by, substitute_step. now intros ->. Qed.

Lemma substitute_step_keeps_notes (item_copy : list_item) (sub : stored_substitution)
      (note : string) :
  In note (get_or [] (l_notes item_copy)) ->
  In note (get_or [] (l_notes (substitute_step ingredient_name item_copy sub))).
Proof.
  intros H. destruct (hit_by ingredient_name sub) eqn:E.
  - destruct (substitute_step_hit item_copy sub E) as [_ ->]. apply in_or_app. now left.
  - now rewrite substitute_step_miss.
Qed.

Lemma substitute_fold_keeps_notes (subs : list stored_substitution) (item_copy : list_item)
      (note : string) :
  In note (get_or [] (l_notes item_copy)) ->
  In note (get_or [] (l_notes (fold_left (substitute_step ingredient_name) subs item_copy))).
Proof.
  revert item_copy. induction subs as [|sub subs IH]; intros item_copy H; simpl; [exact H|].
  apply IH. now apply substitute_step_keeps_notes.
Qed.

Lemma substitute_fold_notes (subs : list stored_substitution) (item_copy : list_item)
      (sub : stored_substitution) :
  In sub subs -> hit_by ingredient_name sub = true ->
  In (substitution_note sub)
     (get_or [] (l_notes (fold_left (substitute_step ingredient_name) subs item_copy))).
Proof.
  revert item_copy. induction subs as [|x subs IH]; intros item_copy Hin Hhit; [contradiction|].
  simpl. destruct Hin as [->|Hin].
  - apply substitute_fold_keeps_notes.
    destruct (substitute_step_hit item_copy sub Hhit) as [_ ->].
    apply in_or_app. right. now left.
  - now apply IH.
Qed.

(** The name after the loop is the substitute of the last rule that hits. *)
Lemma substitute_fold_name (subs : list stored_substitution) (item_copy : list_item) :
  (exists sub, In sub subs /\ hit_by ingredient_name sub = true) ->
  exists before last after,
    subs = (before ++ last :: after)%list /\
    hit_by ingredient_name last = true /\
    (forall sub, In sub after -> hit_by ingredient_name sub = false) /\
    l_name (fold_left (substitute_step ingredient_name) subs item_copy)
    = Some (substitute last).
Proof.
  induction subs as [|x subs IH] using rev_ind; intros (sub & Hin & Hhit).
  - contradiction.
  - rewrite fold_left_app. simpl.
    destruct (hit_by ingredient_name x) eqn:Ex.
    + exists subs, x, []. repeat split; try assumption.
      * intros s [].
      * now apply substitute_step_hit.
    + rewrite substitute_step_miss by exact Ex.
      destruct IH as (before & last & after & E & Hl & Ha & Hn).
      { exists sub. split; [|exact Hhit].
        apply in_app_or in Hin as [Hin|[<-|[]]]; [exact Hin | congruence]. }
      exists before, last, (after ++ [x])%list. repeat split; try assumption.
      * rewrite E, <- app_assoc. reflexivity.
      * intros s Hs. apply in_app_or in Hs as [Hs|[<-|[]]]; [now apply Ha | exact Ex].
Qed.

Lemma organic_step_keeps (item_copy : list_item) (org : string) :
  l_name (organic_step ingredient_name item_copy org) = l_name item_copy /\
  forall note, In note (get_or [] (l_notes item_copy)) ->
               In note (get_or [] (l_notes (organic_step ingredient_name item_copy org))).
Proof.
  unfold organic_step. destruct (contains (lower org) ingredient_name); simpl.
  - split; [reflexivity|]. intros note H. apply in_or_app. now left.
  - split; [reflexivity | auto].
Qed.

Lemma organic_fold_keeps (orgs : list string) (item_copy : list_item) :
  l_name (fold_left (organic_step ingredient_name) orgs item_copy) = l_name item_copy /\
  forall note, In note (get_or [] (l_notes item_copy)) ->
               In note (get_or [] (l_notes (fold_left (organic_step ingredient_name)
                                                      orgs item_copy))).
Proof.
  revert item_copy. induction orgs as [|org orgs IH]; intros item_copy; simpl.
  - split; [reflexivity | auto].
  - destruct (IH (organic_step ingredient_name item_copy org)) as [En Hn].
    destruct (organic_step_keeps item_copy org) as [En' Hn'].
    split; [now rewrite En | auto].
Qed.

End WebSubstitutionFacts.

Section SubstitutionClaim.
Import Py Notions Properties.

(** C8, as the code has it. The two call sites match differently.  The
    substitution step of the generator returns one item for each item, in
    order, and matches on equality: an item whose lower-cased name equals
    the lower-cased original of a usable rule takes the replacement of the
    last such rule as its name, and a note naming the original is appended;
    an item whose name equals the original of no usable rule, even if it
    contains one, is left as it is.  The helper [apply_preferences] of the
    web layer substitutes on containment: when the original of a stored rule
    occurs in the lower-cased name, the name becomes the substitute of the
    last such rule and the notes name the original of each. *)
Theorem substitution_exact_in_generator_containment_in_web_helper :
  forall (substitutions : list substitution) (items : list ingredient)
         (stored : list FlaskApp.stored_substitution) (organic_items : list string)
         (web_item : FlaskApp.list_item),
    (forall i item,
        nth_error items i = Some item ->
        exists item',
          nth_error (SmartShoppingListGenerator._apply_substitutions items substitutions) i
          = Some item' /\
          (forall before sub after,
              substitutions = (before ++ sub :: after)%list ->
              usable sub -> names_exactly sub item ->
              (forall later, In later after -> usable later -> ~ names_exactly later item) ->
              item' = mk_ingredient
                        (Some (get_or "" (sub_replacement sub)))
                        (i_ingredient_name item) (i_quantity item) (i_unit item)
                        (Some (get_or "" (i_notes item)
                               ++ " (Substituted from " ++ lower (name_of "" item) ++ ")"))) /\
          ((forall sub, In sub substitutions -> usable sub -> ~ names_exactly sub item) ->
           item' = item)) /\
    List.length (SmartShoppingListGenerator._apply_substitutions items substitutions)
    = List.length items /\
    (forall sub,
        In sub stored -> occurs_in sub web_item ->
        In (substitution_note sub)
           (get_or [] (FlaskApp.l_notes
                         (FlaskApp.apply_to_item stored organic_items web_item))) /\
        exists before last after,
          stored = (before ++ last :: after)%list /\
          occurs_in last web_item /\
          (forall later, In later after -> ~ occurs_in later web_item) /\
          FlaskApp.l_name (FlaskApp.apply_to_item stored organic_items web_item)
          = Some (FlaskApp.substitute last)).
Proof.
  intros substitutions items stored organic_items web_item. split; [|split].
  - intros i item Hi.
    destruct substitutions as [|s0 subs].
    { exists item. split; [exact Hi|]. split; [|reflexivity].
      intros before sub after E. destruct before; discriminate E. }
    set (rules := s0 :: subs).
    exists (SmartShoppingListGenerator.substitute_item
              (SmartShoppingListGenerator.build_sub_map rules) item).
    split; [|split].
    + rewrite apply_substitutions_map by discriminate. now apply map_nth_error.
    + intros before sub after E Hu Hk Hafter.
      unfold SmartShoppingListGenerator.substitute_item.
      rewrite build_sub_map_fold, sub_map_last, E, last_replacement_app.
      unfold names_exactly in Hk. rewrite <- Hk.
      cbn [last_replacement].
      rewrite (last_replacement_none _ after).
      * rewrite String.eqb_refl. destruct Hu as [Ho Hr].
        assert (E1 : is_empty (lower (get_or "" (sub_original_ingredient sub))) = false).
        { apply is_empty_false. intros Hx. apply Ho. now apply lower_empty. }
        assert (E2 : is_empty (get_or "" (sub_replacement sub)) = false)
          by now apply is_empty_false.
        rewrite E1, E2. reflexivity.
      * intros later Hl Hul Hkl. apply (Hafter later Hl Hul).
        unfold names_exactly. rewrite <- Hk. exact Hkl.
    + intros Hn. unfold SmartShoppingListGenerator.substitute_item.
      rewrite build_sub_map_fold, sub_map_last.
      rewrite (last_replacement_none _ rules); [reflexivity|].
      intros sub Hs Hu Hk. now apply (Hn sub Hs Hu).
  - destruct substitutions as [|s0 subs]; [reflexivity|].
    rewrite apply_substitutions_map by discriminate. apply length_map.
  - intros sub Hin Hocc. unfold FlaskApp.apply_to_item.
    set (n := lower (FlaskApp.shown_name web_item)).
    set (copy := fold_left (FlaskApp.substitute_step n) stored web_item).
    destruct (organic_fold_keeps n organic_items copy) as [En Hnotes].
    split.
    + apply Hnotes. now apply substitute_fold_notes.
    + destruct (substitute_fold_name n stored web_item) as (before & last & after & E & Hl & Ha & Hname).
      { now exists sub. }
      exists before, last, after. repeat split; try assumption.
      * intros later Hlater Hc. unfold occurs_in in Hc. fold n in Hc.
        change (hit_by n later = true) in Hc.
        rewrite (Ha later Hlater) in Hc. discriminate.
      * now rewrite En.
Qed.

End SubstitutionClaim.

(** ** The product matcher *)

Section MatcherFacts.
Import Py PyFloat Notions ShoppingListMatcher.

Variable search_product : nat -> string -> string -> string -> option product.

Lemma match_loop_spec (items : list list_item) :
  forall (call : nat) (m : list product) (u : list unmatched) (t : float)
         (m' : list product) (u' : list unmatched) (t' : float),
    match_loop search_product call (m, u, t) items = (m', u', t') ->
    List.length m' = List.length m + List.length (hits search_product call items) /\
    List.length m' + List.length u' = List.length m + List.length u + List.length items /\
    t' = fold_left (fun total p => add total (or_zero (price p)))
                   (hits search_product call items) t.
Proof.
  induction items as [|item items IH]; intros call m u t m' u' t' H; simpl in H.
  - injection H as <- <- <-. simpl. repeat split; lia.
  - simpl hits.
    destruct (search_product call (ingredient_of item) (get_or "" (m_quantity item))
                             (get_or "" (m_unit item))) as [p|] eqn:E.
    + destruct (IH _ _ _ _ _ _ _ H) as (L1 & L2 & C).
      rewrite length_app in L1, L2. simpl in *. repeat split; try lia. exact C.
    + destruct (IH _ _ _ _ _ _ _ H) as (L1 & L2 & C).
      rewrite length_app in L2. simpl in *. repeat split; try lia. exact C.
Qed.


Lemma true_div_quotient (a b : nat) :
  b <> 0 -> true_div a b = Some (quotient a b).
Proof.
  intros H. unfold true_div, quotient.
  destruct b as [|b]; [congruence|].
  destruct a as [|a]; [reflexivity|].
  cbn [N.of_nat]. now rewrite !Pos.of_nat_succ.
Qed.

(** C9. For every list and every outcome of the searches,
    [match_shopping_list] returns a report: the matched items are as many as
    the searches that succeeded, matched and unmatched items add up to the
    items of the list, the estimated cost is the sum of the prices of the
    products found, a missing price counting for zero, and the match rate is
    the matched count divided by the number of items, times 100, in binary64
    arithmetic; on the empty list no division takes place, and both the rate
    and the cost are zero. *)
Theorem match_report_arithmetic :
  forall shopping_list_items : list list_item,
    exists r,
      match_shopping_list search_product shopping_list_items = Some r /\
      total_matched r = List.length (hits search_product 0 shopping_list_items) /\
      total_matched r + total_unmatched r = List.length shopping_list_items /\
      total_items r = List.length shopping_list_items /\
      estimated_cost r = cost_of (hits search_product 0 shopping_list_items) /\
      match shopping_list_items with
      | [] => match_rate r = S754_zero false /\ estimated_cost r = S754_zero false
      | _ :: _ => match_rate r = percentage (total_matched r) (total_items r)
      end.
Proof.
  intros items. unfold match_shopping_list.
  destruct (match_loop search_product 0 ([], [], zero) items) as [[m u] t] eqn:E.
  destruct (match_loop_spec items _ _ _ _ _ _ _ E) as (L1 & L2 & C).
  simpl in L1, L2.
  destruct items as [|item items].
  - simpl in E. injection E as <- <- <-.
    eexists. split; [reflexivity|]. simpl. repeat split.
  - rewrite (true_div_quotient (List.length m) (List.length (item :: items)))
      by discriminate.
    simpl option_map.
    eexists. split; [reflexivity|]. simpl total_matched. simpl total_unmatched.
    simpl total_items. simpl estimated_cost. simpl match_rate.
    repeat split; try assumption.
Qed.

End MatcherFacts.

(** ** The fallback of the assisted optimizer *)

Section FallbackFacts.
Import Py Notions ShoppingListOptimizer.

Lemma append_other_basic (other : list display_item) (x : display_item) :
  Dict.append_to "Other" x (basic_categories other) = basic_categories (other ++ [x]).
Proof. reflexivity. Qed.

Lemma fold_ingredients_basic (ingredients : list ingredient) (other : list display_item) :
  fold_left (fun c ing => Dict.append_to "Other" (fallback_ingredient ing) c)
            ingredients (basic_categories other)
  = basic_categories (other ++ map fallback_ingredient ingredients).
Proof.
  revert other. induction ingredients as [|ing ingredients IH]; intros other; simpl.
  - now rewrite app_nil_r.
  - rewrite append_other_basic, IH, <- app_assoc. reflexivity.
Qed.

Lemma fold_staples_basic (staples : list staple) (other : list display_item) :
  fold_left (fun c s => if not_in_stock s
                        then Dict.append_to "Other" (fallback_staple s) c
                        else c)
            staples (basic_categories other)
  = basic_categories (other ++ map fallback_staple (filter not_in_stock staples)).
Proof.
  revert other. induction staples as [|s staples IH]; intros other; simpl.
  - now rewrite app_nil_r.
  - destruct (not_in_stock s); simpl.
    + rewrite append_other_basic, IH, <- app_assoc. reflexivity.
    + apply IH.
Qed.


End FallbackFacts.

(** ** The claims on sample inputs *)

Section Samples.
Import Py PyFloat PyFormat Repair Notions.

Lemma matches_category_iff (table : Dict.t (list string)) (cat name : string) :
  matches_category table cat name <-> matchesb table cat name = true.
Proof.
  unfold matches_category, matchesb. rewrite existsb_exists. split.
  - intros (keywords & keyword & Hin & Hk & Hc). exists (cat, keywords).
    split; [exact Hin|]. simpl. rewrite String.eqb_refl. simpl.
    apply existsb_exists. now exists keyword.
  - intros ([c keywords] & Hin & H). simpl in H.
    apply andb_true_iff in H as [Hc Hk]. apply String.eqb_eq in Hc. subst c.
    apply existsb_exists in Hk as (keyword & Hk & Hc).
    now exists keywords, keyword.
Qed.

Lemma no_match (table : Dict.t (list string)) (cat name : string) :
  matchesb table cat name = false -> ~ matches_category table cat name.
Proof. intros E H. apply matches_category_iff in H. congruence. Qed.

(** C1, the sentence that fails. The answer of the classifier that merges
    the milk into [3 cups milk] covers the line [milk]; the repair pass
    returns it as it is, and the names of the output do not hold [milk]:
    they cover the names of the input, they are no superset of them. *)
Lemma covered_name_is_not_an_output_name :
  ShoppingListOptimizer._validate_and_fix_missing_items milk_answer [milk] []
  = Some milk_answer /\
  ShoppingListOptimizerNative._validate_items milk_answer [milk] [] = Some milk_answer /\
  covered_in (cats_of milk_answer) (normalized (name_of "" milk)) /\
  ~ In (normalized (name_of "" milk)) (ai_item_names (cats_of milk_answer)).
Proof.
  split; [reflexivity|]. split; [reflexivity|]. split.
  - apply found_covered_in. reflexivity.
  - simpl. intros [H|[]]. discriminate.
Qed.

Lemma repair_pass_covers_every_input_witness :
  (forall s, In s [bread_staple] -> s_name s <> None) /\
  (exists repaired,
      ShoppingListOptimizer._validate_and_fix_missing_items milk_answer [milk; kale]
                                                            [bread_staple]
      = Some repaired /\
      repaired_from "Unknown" " - Staple" (cats_of milk_answer) (cats_of repaired)
                    [milk; kale] [bread_staple]) /\
  (exists repaired,
      ShoppingListOptimizerNative._validate_items milk_answer [milk; kale] [bread_staple]
      = Some repaired /\
      repaired_from "" "" (cats_of milk_answer) (cats_of repaired)
                    [milk; kale] [bread_staple]).
Proof.
  assert (H : forall s, In s [bread_staple] -> s_name s <> None).
  { intros s [<-|[]]. discriminate. }
  split; [exact H|].
  exact (repair_pass_covers_every_input milk_answer [milk; kale] [bread_staple] H).
Defined.

Lemma empty_item_name_covers_everything_witness :
  (exists item, In item (all_items (cats_of blank_answer)) /\
                normalized (get_or "" (d_item item)) = "") /\
  (forall name, found (ai_item_names (cats_of blank_answer)) name = true) /\
  (forall default,
      missing_ingredients default (ai_item_names (cats_of blank_answer)) [milk; kale] = []) /\
  (forall flag,
      missing_staples flag (ai_item_names (cats_of blank_answer)) [bread_staple] = Some []) /\
  ShoppingListOptimizer._validate_and_fix_missing_items blank_answer [milk; kale]
                                                        [bread_staple]
  = Some blank_answer /\
  (exists repaired,
      ShoppingListOptimizerNative._validate_items blank_answer [milk; kale] [bread_staple]
      = Some repaired /\
      cats_of repaired = cats_of blank_answer).
Proof.
  assert (H : exists item, In item (all_items (cats_of blank_answer)) /\
                           normalized (get_or "" (d_item item)) = "").
  { exists (shown " " "" ""). split; [now left | reflexivity]. }
  split; [exact H|].
  exact (empty_item_name_covers_everything blank_answer [milk; kale] [bread_staple] H).
Defined.




(** C4, the sentence that fails. Both quantities of two lines of no flour
    parse, and the combiner keeps the lines apart: the sum is not positive. *)
Lemma zero_sum_is_kept_separate :
  Forall parses [flour_zero; flour_zero] /\
  SmartShoppingListGenerator._combine_duplicates [flour_zero; flour_zero]
  = [ SmartShoppingListGenerator.with_notes "From recipe 1" flour_zero;
      SmartShoppingListGenerator.with_notes "From recipe 2" flour_zero ].
Proof.
  split; [|vm_compute; reflexivity].
  repeat constructor; eexists; vm_compute; reflexivity.
Qed.

(** C4 on the first pair of the specification: two cups and one cup of flour
    make one item of 3 cups, noted as combined from 2 recipes. *)
Lemma combine_group_sums_or_keeps_lines_witness :
  Forall parses [flour_two; flour_one] /\
  ltb zero (quantity_sum [flour_two; flour_one]) = true /\
  SmartShoppingListGenerator.combine_group "flour" [flour_two; flour_one]
  = [ mk_ingredient (Some "flour") None (Some "3") (Some "cup")
                    (Some "Combined from 2 recipes") ].
Proof.
  assert (P : Forall parses [flour_two; flour_one]).
  { repeat constructor; eexists; vm_compute; reflexivity. }
  assert (S : ltb zero (quantity_sum [flour_two; flour_one]) = true) by reflexivity.
  split; [exact P|]. split; [exact S|].
  exact (proj1 (combine_group_sums_or_keeps_lines "flour" flour_two flour_one []) P S).
Defined.

(** C4 on the second pair of the specification: two cups of flour and half a
    cup, the second quantity not numeric, stay two lines. *)
Lemma numeric_and_worded_quantities_stay_apart :
  SmartShoppingListGenerator._combine_duplicates [flour_two; flour_half]
  = [ mk_ingredient (Some "flour") None (Some "2") (Some "cup") (Some "From recipe 1");
      mk_ingredient (Some "flour") None (Some "half") (Some "cup") (Some "From recipe 2") ].
Proof. vm_compute. reflexivity. Qed.

(** C5, the sentence that fails. A line of flour with no quantity counts for
    one: with two cups it makes 3 cups. *)
Lemma absent_quantity_is_summed_as_one :
  i_quantity flour_bare = None /\
  SmartShoppingListGenerator._combine_duplicates [flour_two; flour_bare]
  = [ mk_ingredient (Some "flour") None (Some "3") (Some "cup")
                    (Some "Combined from 2 recipes") ].
Proof. split; [reflexivity | vm_compute; reflexivity]. Qed.

Lemma empty_quantity_keeps_lines_absent_counts_one_witness :
  In flour_blank [flour_two; flour_blank] /\
  i_quantity flour_blank = Some "" /\
  ~ parses flour_blank /\
  SmartShoppingListGenerator.combine_group "flour" [flour_two; flour_blank]
  = SmartShoppingListGenerator.keep_separate 1 [flour_two; flour_blank] /\
  List.length (SmartShoppingListGenerator.combine_group "flour" [flour_two; flour_blank])
  = List.length [flour_two; flour_blank] /\
  (forall other, i_quantity other = None ->
     parses other /\ quantity_value other = of_decimal 1 0).
Proof.
  assert (Hin : In flour_blank [flour_two; flour_blank]) by (right; now left).
  assert (Hq : i_quantity flour_blank = Some "") by reflexivity.
  split; [exact Hin|]. split; [exact Hq|].
  exact (empty_quantity_keeps_lines_absent_counts_one
           "flour" flour_two flour_blank [] flour_blank Hin Hq).
Defined.

(** C6, the sentence that fails. [bread flour] matches a keyword of Bakery
    and one of Pantry Staples; scanned in the order of the specification it
    would be Bakery, and [_get_category] answers Pantry Staples. *)
Lemma pantry_is_scanned_before_bakery :
  matches_category SmartShoppingListGenerator.category_map "Bakery" "bread flour" /\
  matches_category SmartShoppingListGenerator.category_map "Pantry Staples" "bread flour" /\
  categorize_canonical "bread flour" = "Bakery" /\
  SmartShoppingListGenerator._get_category "bread flour" = "Pantry Staples".
Proof.
  repeat split; try (apply matches_category_iff); vm_compute; reflexivity.
Qed.

Lemma get_category_first_match_in_table_order_witness :
  matches_category SmartShoppingListGenerator.category_map "Bakery" "bread flour" /\
  matches_category SmartShoppingListGenerator.category_map "Pantry Staples" "bread flour" /\
  ~ matches_category SmartShoppingListGenerator.category_map "Fresh Produce" "bread flour" /\
  ~ matches_category SmartShoppingListGenerator.category_map "Dairy & Eggs" "bread flour" /\
  ~ matches_category SmartShoppingListGenerator.category_map "Meat & Seafood" "bread flour" /\
  SmartShoppingListGenerator._get_category "bread flour" = "Pantry Staples".
Proof.
  assert (B : matches_category SmartShoppingListGenerator.category_map "Bakery" "bread flour")
    by (apply matches_category_iff; vm_compute; reflexivity).
  assert (P : matches_category SmartShoppingListGenerator.category_map
                               "Pantry Staples" "bread flour")
    by (apply matches_category_iff; vm_compute; reflexivity).
  assert (F : ~ matches_category SmartShoppingListGenerator.category_map
                                 "Fresh Produce" "bread flour")
    by (apply no_match; vm_compute; reflexivity).
  assert (D : ~ matches_category SmartShoppingListGenerator.category_map
                                 "Dairy & Eggs" "bread flour")
    by (apply no_match; vm_compute; reflexivity).
  assert (M : ~ matches_category SmartShoppingListGenerator.category_map
                                 "Meat & Seafood" "bread flour")
    by (apply no_match; vm_compute; reflexivity).
  repeat (split; [assumption|]).
  exact (proj2 (proj2 (proj2 (get_category_first_match_in_table_order "bread flour")))
               B P F D M).
Defined.

(** The two names of the specification: chicken breast is meat, an unknown
    name is [Other]. *)
Lemma chicken_breast_and_unknown_item :
  SmartShoppingListGenerator._get_category "chicken breast" = "Meat & Seafood" /\
  SmartShoppingListGenerator._get_category "xyzzy-unknown-item" = "Other".
Proof. split; vm_compute; reflexivity. Qed.

Lemma apply_organic_preferences_idempotent_witness :
  SmartShoppingListGenerator._apply_organic_preferences
    (SmartShoppingListGenerator._apply_organic_preferences [kale; milk] ["Kale"]) ["Kale"]
  = [ mk_ingredient (Some "organic kale") None (Some "1") (Some "bunch")
                    (Some SmartShoppingListGenerator.organic_mark);
      milk ].
Proof.
  rewrite (proj1 (apply_organic_preferences_idempotent [kale; milk] ["Kale"])).
  reflexivity.
Defined.

(** C8, the sentence that fails. The name [almond milk] contains the
    original [milk] of a usable rule: the generator leaves the item as it
    is, the web helper renames it. *)
Lemma generator_ignores_containment :
  contains "milk" (lower (name_of "" almond_milk)) = true /\
  usable milk_rule /\
  SmartShoppingListGenerator._apply_substitutions [almond_milk] [milk_rule] = [almond_milk] /\
  FlaskApp.apply_preferences [stored_milk_rule] [] [web_almond_milk]
  = [ FlaskApp.mk_list_item (Some "oat milk") None (Some "1") (Some "l")
                            (Some "almond milk") None (Some ["Substituted from milk"]) ].
Proof.
  split; [reflexivity|]. split; [split; discriminate|].
  split; vm_compute; reflexivity.
Qed.

(** C8 on a list: of three rules, two on [milk], the last one renames the
    milk; the almond milk, whose name only contains [milk], stays. *)
Lemma substitution_exact_in_generator_containment_in_web_helper_witness :
  nth_error (SmartShoppingListGenerator._apply_substitutions
               [milk; almond_milk] Properties.kale_and_milk_rules) 0
  = Some (mk_ingredient (Some "soy milk") None (Some "2") (Some "cup")
                        (Some " (Substituted from milk)")) /\
  nth_error (SmartShoppingListGenerator._apply_substitutions
               [milk; almond_milk] Properties.kale_and_milk_rules) 1
  = Some almond_milk.
Proof.
  pose proof (proj1 (substitution_exact_in_generator_containment_in_web_helper
                       Properties.kale_and_milk_rules [milk; almond_milk]
                       [stored_milk_rule] [] web_almond_milk)) as H.
  split.
  - destruct (H 0 milk eq_refl) as (item' & E & Hlast & _). rewrite E. f_equal.
    apply (Hlast [mk_substitution (Some "Milk") (Some "oat milk"); Properties.kale_rule]
                 (mk_substitution (Some "milk") (Some "soy milk")) []).
    + reflexivity.
    + split; discriminate.
    + reflexivity.
    + intros later [].
  - destruct (H 1 almond_milk eq_refl) as (item' & E & _ & Hnone). rewrite E. f_equal.
    apply Hnone. intros sub Hin _ Hk.
    destruct Hin as [<-|[<-|[<-|[]]]]; vm_compute in Hk; discriminate Hk.
Defined.

(** C9 on the empty list, whatever the catalog answers. *)
Lemma match_empty_list (search_product : nat -> string -> string -> string
                                         -> option ShoppingListMatcher.product) :
  ShoppingListMatcher.match_shopping_list search_product []
  = Some (ShoppingListMatcher.mk_report [] [] 0 0 0 zero zero).
Proof. reflexivity. Qed.

(** C9 on three items: the first is found at 2.5, the second is not found,
    the third is found without a price.  Two of three is 66.66666666666666
    per cent, and the cost is 2.5. *)
Lemma match_report_arithmetic_witness :
  exists r,
    ShoppingListMatcher.match_shopping_list Properties.sample_catalog Properties.three_items = Some r /\
    ShoppingListMatcher.total_matched r = 2 /\
    ShoppingListMatcher.total_unmatched r = 1 /\
    ShoppingListMatcher.total_items r = 3 /\
    ShoppingListMatcher.estimated_cost r = S754_finite false 5 (-1) /\
    ShoppingListMatcher.match_rate r = S754_finite false 4691249611844266 (-46).
Proof.
  destruct (match_report_arithmetic Properties.sample_catalog Properties.three_items)
    as (r & E & M & U & T & C & R).
  exists r. split; [exact E|].
  assert (M2 : ShoppingListMatcher.total_matched r = 2) by (rewrite M; reflexivity).
  assert (T3 : ShoppingListMatcher.total_items r = 3) by (rewrite T; reflexivity).
  split; [exact M2|]. split.
  - rewrite M2 in U. simpl in U. lia.
  - split; [exact T3|]. split.
    + rewrite C. vm_compute. reflexivity.
    + cbv iota beta in R. unfold Properties.three_items in R. rewrite R, M2, T3.
      vm_compute. reflexivity.
Defined.

End Samples.

(** ** Grouping by key *)

Section KeyFacts.
Context {V : Type}.

Lemma mem_keys (k : string) (d : Dict.t V) :
  Dict.mem k d = existsb (String.eqb k) (Dict.keys d).
Proof.
  unfold Dict.mem. induction d as [|[k' v] d IH]; simpl; [reflexivity|].
  rewrite (String.eqb_sym k k').
  destruct (String.eqb k' k); [reflexivity | exact IH].
Qed.

Lemma mem_true_in (k : string) (d : Dict.t V) :
  Dict.mem k d = true <-> In k (Dict.keys d).
Proof.
  rewrite mem_keys, existsb_exists. split.
  - intros (x & Hin & E). apply String.eqb_eq in E. now subst.
  - intros H. exists k. split; [exact H | apply String.eqb_refl].
Qed.

Lemma mem_false_not_in (k : string) (d : Dict.t V) :
  Dict.mem k d = false <-> ~ In k (Dict.keys d).
Proof.
  rewrite <- mem_true_in. destruct (Dict.mem k d); split; intros H; congruence.
Qed.

Lemma set_absent (k : string) (v : V) (d : Dict.t V) :
  Dict.mem k d = false -> Dict.set k v d = (d ++ [(k, v)])%list.
Proof.
  unfold Dict.mem. induction d as [|[k' v'] d IH]; simpl; [reflexivity|].
  destruct (String.eqb k' k); [discriminate|].
  intros H. now rewrite IH.
Qed.

Lemma keys_set_present (k : string) (v : V) (d : Dict.t V) :
  Dict.mem k d = true -> Dict.keys (Dict.set k v d) = Dict.keys d.
Proof.
  unfold Dict.mem, Dict.keys. induction d as [|[k' v'] d IH]; simpl; [discriminate|].
  destruct (String.eqb k' k) eqn:E; simpl.
  - apply String.eqb_eq in E. now subst.
  - intros H. now rewrite IH.
Qed.

Lemma keys_set (k : string) (v : V) (d : Dict.t V) :
  Dict.keys (Dict.set k v d)
  = if Dict.mem k d then Dict.keys d else (Dict.keys d ++ [k])%list.
Proof.
  destruct (Dict.mem k d) eqn:E.
  - now apply keys_set_present.
  - rewrite (set_absent _ _ _ E). unfold Dict.keys. now rewrite map_app.
Qed.

Lemma set_set (k : string) (v v' : V) (d : Dict.t V) :
  Dict.set k v (Dict.set k v' d) = Dict.set k v d.
Proof.
  induction d as [|[k0 v0] d IH]; simpl.
  - now rewrite String.eqb_refl.
  - destruct (String.eqb k0 k) eqn:E; simpl.
    + now rewrite String.eqb_refl.
    + now rewrite E, IH.
Qed.

Lemma get_none_mem (k : string) (d : Dict.t V) :
  Dict.get k d = None <-> Dict.mem k d = false.
Proof. unfold Dict.mem. destruct (Dict.get k d); split; congruence. Qed.

Lemma nodup_keys_set (k : string) (v : V) (d : Dict.t V) :
  NoDup (Dict.keys d) -> NoDup (Dict.keys (Dict.set k v d)).
Proof.
  intros H. rewrite keys_set. destruct (Dict.mem k d) eqn:E; [exact H|].
  apply mem_false_not_in in E.
  apply NoDup_app; [exact H | repeat constructor; intros [] |].
  intros x Hx [<-|[]]. contradiction.
Qed.

End KeyFacts.

Section FirstSeenFacts.
Import Properties.

Lemma existsb_eqb_in (k : string) (l : list string) :
  existsb (String.eqb k) l = true <-> In k l.
Proof.
  rewrite existsb_exists. split.
  - intros (x & Hin & E). apply String.eqb_eq in E. now subst.
  - intros H. exists k. split; [exact H | apply String.eqb_refl].
Qed.

Lemma existsb_eqb_not_in (k : string) (l : list string) :
  existsb (String.eqb k) l = false <-> ~ In k l.
Proof.
  rewrite <- existsb_eqb_in. destruct (existsb _ l); split; intros H; congruence.
Qed.

Lemma first_seen_in (keys seen : list string) (k : string) :
  In k (first_seen seen keys) <-> In k keys /\ ~ In k seen.
Proof.
  revert seen. induction keys as [|x keys IH]; intros seen; simpl.
  - tauto.
  - destruct (existsb (String.eqb x) seen) eqn:E.
    + apply existsb_eqb_in in E. rewrite IH. split.
      * tauto.
      * intros [[<-|H] Hn]; [contradiction | tauto].
    + apply existsb_eqb_not_in in E. simpl. rewrite IH, in_app_iff. simpl. split.
      * intros [<-|[H Hn]]; [tauto|]. split; [tauto|]. intros Hs. apply Hn. now left.
      * intros [[<-|H] Hn]; [now left|].
        destruct (string_dec x k) as [<-|Hne]; [now left|].
        right. split; [exact H|]. intros [Hs|[Hx|[]]]; contradiction.
Qed.

Lemma first_seen_nodup (keys seen : list string) : NoDup (first_seen seen keys).
Proof.
  revert seen. induction keys as [|x keys IH]; intros seen; simpl.
  - constructor.
  - destruct (existsb (String.eqb x) seen); [apply IH|].
    constructor; [|apply IH].
    rewrite first_seen_in, in_app_iff. simpl. tauto.
Qed.


End FirstSeenFacts.

Section GroupingFacts.
Import Properties.
Context {A V : Type}.
Variables (key : A -> string) (val : A -> V).

Lemma entries_append_to (k k' : string) (v : V) (g : Dict.t (list V)) :
  entries_of k' (Dict.append_to k v g)
  = (entries_of k' g ++ (if String.eqb k k' then [v] else []))%list.
Proof.
  unfold entries_of. destruct (String.eqb k k') eqn:E.
  - apply String.eqb_eq in E. subst k'. now rewrite get_append_to_same.
  - apply String.eqb_neq in E. rewrite get_append_to_other by exact E.
    now rewrite app_nil_r.
Qed.

Lemma entries_grouped (l : list A) (g : Dict.t (list V)) (k : string) :
  entries_of k (grouped key val l g)
  = (entries_of k g ++ map val (keyed key k l))%list.
Proof.
  unfold grouped, keyed. revert g. induction l as [|x l IH]; intros g; simpl.
  - now rewrite app_nil_r.
  - rewrite IH, entries_append_to.
    destruct (String.eqb (key x) k); simpl; now rewrite <- app_assoc.
Qed.

Lemma keys_append_to (k : string) (v : V) (g : Dict.t (list V)) :
  Dict.keys (Dict.append_to k v g)
  = if existsb (String.eqb k) (Dict.keys g) then Dict.keys g
    else (Dict.keys g ++ [k])%list.
Proof. unfold Dict.append_to. now rewrite keys_set, mem_keys. Qed.

Lemma keys_grouped (l : list A) (g : Dict.t (list V)) :
  Dict.keys (grouped key val l g)
  = (Dict.keys g ++ first_seen (Dict.keys g) (map key l))%list.
Proof.
  unfold grouped. revert g. induction l as [|x l IH]; intros g; simpl.
  - now rewrite app_nil_r.
  - rewrite IH, keys_append_to.
    destruct (existsb (String.eqb (key x)) (Dict.keys g)); [reflexivity|].
    now rewrite <- app_assoc.
Qed.

Lemma nodup_keys_grouped (l : list A) (g : Dict.t (list V)) :
  NoDup (Dict.keys g) -> NoDup (Dict.keys (grouped key val l g)).
Proof.
  unfold grouped. revert g. induction l as [|x l IH]; intros g H; simpl; [exact H|].
  apply IH. unfold Dict.append_to. now apply nodup_keys_set.
Qed.

(** A dictionary without repeated keys is the list of its keys, each with
    its entries. *)
Lemma dict_by_keys (d : Dict.t (list V)) :
  NoDup (Dict.keys d) ->
  d = map (fun k => (k, entries_of k d)) (Dict.keys d).
Proof.
  induction d as [|[k v] d IH]; intros H; simpl; [reflexivity|].
  inversion H as [|? ? Hk Hd]; subst.
  unfold entries_of at 1. simpl. rewrite String.eqb_refl. simpl. f_equal.
  rewrite (IH Hd) at 1. apply map_ext_in. intros k' Hk'. f_equal.
  unfold entries_of. simpl.
  destruct (String.eqb k k') eqn:E; [|reflexivity].
  apply String.eqb_eq in E. subst k'. contradiction.
Qed.

(** The groups of a list: its keys in the order of their first occurrence,
    each with the values of the elements of that key, in the order of the
    list. *)
Lemma grouped_closed_form (l : list A) :
  grouped key val l []
  = map (fun k => (k, map val (keyed key k l))) (first_seen [] (map key l)).
Proof.
  rewrite (dict_by_keys (grouped key val l [])) at 1
    by (apply nodup_keys_grouped; constructor).
  rewrite keys_grouped. simpl. apply map_ext. intros k.
  now rewrite entries_grouped.
Qed.

Lemma length_values_grouped (l : list A) (g : Dict.t (list V)) :
  List.length (flat_map snd (grouped key val l g))
  = List.length (flat_map snd g) + List.length l.
Proof.
  unfold grouped. revert g. induction l as [|x l IH]; intros g; simpl; [lia|].
  rewrite IH. clear IH.
  assert (E : List.length (flat_map snd (Dict.append_to (key x) (val x) g))
              = S (List.length (flat_map snd g))).
  { induction g as [|[k' vs] g IHg].
    - reflexivity.
    - destruct (String.eqb k' (key x)) eqn:E.
      + apply String.eqb_eq in E. subst k'. rewrite append_to_cons_same. simpl.
        rewrite !length_app. simpl. lia.
      + rewrite append_to_cons_other by exact E. simpl.
        rewrite !length_app, IHg. lia. }
  lia.
Qed.


End GroupingFacts.

(** ** Further properties of the combiner *)

Section CombineProperties.
Import Py PyFloat PyFormat Notions Properties SmartShoppingListGenerator.

Lemma group_by_name_grouped (ingredients : list ingredient) :
  group_by_name ingredients = grouped group_key (fun x => x) ingredients [].
Proof. reflexivity. Qed.

Lemma combine_duplicates_closed_form (ingredients : list ingredient) :
  _combine_duplicates ingredients
  = flat_map (fun k => combine_group k (keyed group_key k ingredients))
             (first_seen [] (map group_key ingredients)).
Proof.
  unfold _combine_duplicates.
  rewrite group_by_name_grouped, grouped_closed_form, flat_map_concat_map, map_map.
  rewrite <- flat_map_concat_map. apply flat_map_ext. intros k. simpl.
  now rewrite map_id.
Qed.



Lemma combine_group_length (name : string) (items : list ingredient) :
  List.length (combine_group name items) <= List.length items.
Proof.
  destruct items as [|a [|b rest]]; [vm_compute; lia | simpl; lia |].
  unfold combine_group.
  destruct (sum_quantities zero (a :: b :: rest)) as [total|].
  - destruct (ltb zero total); [simpl; lia|].
    rewrite keep_separate_length. lia.
  - rewrite keep_separate_length. lia.
Qed.

Lemma length_flat_map_le {A B : Type} (f : A -> list B) (size : A -> nat) (l : list A) :
  (forall a, List.length (f a) <= size a) ->
  List.length (flat_map f l) <= list_sum (map size l).
Proof.
  intros H. induction l as [|a l IH]; simpl; [lia|].
  rewrite length_app. specialize (H a). lia.
Qed.

Lemma length_flat_map_snd {B : Type} (d : Dict.t (list B)) :
  List.length (flat_map snd d) = list_sum (map (fun g => List.length (snd g)) d).
Proof.
  induction d as [|[k v] d IH]; simpl; [reflexivity|].
  rewrite length_app, IH. reflexivity.
Qed.

Lemma keep_separate_in (idx : nat) (items : list ingredient) (x : ingredient) :
  In x items ->
  exists i, In (with_notes ("From recipe " ++ str_of_nat i) x) (keep_separate idx items).
Proof.
  intros Hin. apply In_nth_error in Hin as [n Hn].
  exists (idx + n). apply nth_error_In with (n := n).
  now apply keep_separate_nth.
Qed.

(** X3. Combining loses no line and adds none: every line of the input is in the
    output as it was, or annotated [From recipe i], or merged into the
    combined item of its name; the output is no longer than the input. *)
Theorem combine_duplicates_keeps_every_line :
  forall (ingredients : list ingredient) (x : ingredient),
    In x ingredients ->
    (exists e,
        In e (_combine_duplicates ingredients) /\
        (e = x \/
         (exists i, e = with_notes ("From recipe " ++ str_of_nat i) x) \/
         (exists total items,
             In x items /\ e = combined_item (group_key x) total items))) /\
    List.length (_combine_duplicates ingredients) <= List.length ingredients.
Proof.
  intros ingredients x Hin. split.
  - assert (Hk : In (group_key x) (first_seen [] (map group_key ingredients))).
    { apply first_seen_in. split; [now apply in_map | tauto]. }
    assert (Hx : In x (keyed group_key (group_key x) ingredients)).
    { unfold keyed. apply filter_In. split; [exact Hin | apply String.eqb_refl]. }
    set (items := keyed group_key (group_key x) ingredients) in *.
    assert (G : exists e, In e (combine_group (group_key x) items) /\
                (e = x \/
                 (exists i, e = with_notes ("From recipe " ++ str_of_nat i) x) \/
                 (exists total its, In x its /\ e = combined_item (group_key x) total its))).
    { destruct items as [|a [|b rest]] eqn:E; [contradiction | |].
      - exists x. destruct Hx as [->|[]]. split; [now left | now left].
      - unfold combine_group.
        destruct (sum_quantities zero (a :: b :: rest)) as [total|].
        + destruct (ltb zero total).
          * eexists. split; [now left|]. right. right. now exists total, (a :: b :: rest).
          * destruct (keep_separate_in 1 _ x Hx) as [i Hi].
            eexists. split; [exact Hi|]. right. left. now exists i.
        + destruct (keep_separate_in 1 _ x Hx) as [i Hi].
          eexists. split; [exact Hi|]. right. left. now exists i. }
    destruct G as (e & He & Hcase). exists e. split; [|exact Hcase].
    rewrite combine_duplicates_closed_form. apply in_flat_map.
    exists (group_key x). split; [exact Hk | exact He].
  - unfold _combine_duplicates.
    etransitivity.
    + apply (length_flat_map_le _ (fun g => List.length (snd g))).
      intros g. apply combine_group_length.
    + rewrite <- length_flat_map_snd, group_by_name_grouped, length_values_grouped.
      simpl. lia.
Qed.

End CombineProperties.

(** ** Further properties of the categorizer *)

Section ShelfProperties.
Import Py Notions Properties SmartShoppingListGenerator.

Lemma lower_char_idempotent (c : ascii) : lower_char (lower_char c) = lower_char c.
Proof. destruct c as [[] [] [] [] [] [] [] []]; reflexivity. Qed.

Lemma lower_idempotent (s : string) : lower (lower s) = lower s.
Proof.
  induction s as [|c s IH]; simpl; [reflexivity|].
  now rewrite lower_char_idempotent, IH.
Qed.

Lemma scan_categories_range (table : Dict.t (list string)) (name : string) :
  scan_categories table name = "Other" \/ In (scan_categories table name) (Dict.keys table).
Proof.
  induction table as [|[c k] table IH]; simpl; [now left|].
  destruct (existsb _ k); [right; now left|].
  destruct IH as [IH|IH]; [now left | right; now right].
Qed.

Lemma scan_categories_hit (table : Dict.t (list string)) (name : string) :
  scan_categories table name <> "Other" ->
  exists keywords keyword,
    In (scan_categories table name, keywords) table /\
    In keyword keywords /\ contains keyword name = true.
Proof.
  induction table as [|[c k] table IH]; simpl; [congruence|].
  destruct (existsb (fun keyword => contains keyword name) k) eqn:E.
  - intros _. apply existsb_exists in E as (kw & Hk & Hc).
    exists k, kw. split; [now left | now split].
  - intros H. destruct (IH H) as (ks & kw & Hin & Hk & Hc).
    exists ks, kw. split; [now right | now split].
Qed.

(** X4. [_get_category] answers one of the nine categories of the display
    order, whatever the name; it does not depend on the case of the name;
    and an answer other than [Other] is earned by a keyword of that
    category that occurs in the lower-cased name. *)
Theorem get_category_range_and_case :
  forall item_name : string,
    In (_get_category item_name) category_order /\
    _get_category (lower item_name) = _get_category item_name /\
    (_get_category item_name <> "Other" ->
     matches_category category_map (_get_category item_name) item_name).
Proof.
  intros item_name. split; [|split].
  - unfold _get_category.
    destruct (scan_categories_range category_map (lower item_name)) as [->|H].
    + simpl. tauto.
    + revert H. generalize (scan_categories category_map (lower item_name)).
      intros c H. simpl in H. simpl.
      repeat (destruct H as [<-|H]; [tauto|]). contradiction.
  - unfold _get_category. now rewrite lower_idempotent.
  - intros H. unfold _get_category in *.
    destruct (scan_categories_hit _ _ H) as (ks & kw & Hin & Hk & Hc).
    now exists ks, kw.
Qed.

End ShelfProperties.

Section SortFacts.
Import Py Properties SmartShoppingListGenerator.

Lemma insert_sorted_perm (x : display_item) (l : list display_item) :
  Permutation (insert_sorted x l) (x :: l).
Proof.
  induction l as [|y l IH]; simpl; [apply Permutation_refl|].
  destruct (String.ltb (sort_key x) (sort_key y)); [apply Permutation_refl|].
  rewrite IH. apply perm_swap.
Qed.

Lemma fold_insert_perm (l acc : list display_item) :
  Permutation (fold_left (fun acc x => insert_sorted x acc) l acc) (acc ++ l).
Proof.
  revert acc. induction l as [|x l IH]; intros acc; simpl.
  - now rewrite app_nil_r.
  - rewrite IH, insert_sorted_perm. apply Permutation_middle.
Qed.

Lemma sort_items_perm (l : list display_item) : Permutation (sort_items l) l.
Proof. unfold sort_items. apply (fold_insert_perm l []). Qed.





End SortFacts.

Section CategorizeFacts.
Import Py Notions Properties SmartShoppingListGenerator.

Lemma shelf_in_order (item : ingredient) : In (shelf item) category_order.
Proof.
  unfold shelf, _get_category.
  destruct (scan_categories_range category_map (lower (lower (name_of "" item))))
    as [->|H].
  - simpl. tauto.
  - revert H. generalize (scan_categories category_map (lower (lower (name_of "" item)))).
    intros c H. simpl in H. simpl.
    repeat (destruct H as [<-|H]; [tauto|]). contradiction.
Qed.

Lemma get_map_keys {V : Type} (f : string -> V) (ks : list string) (k : string) :
  Dict.get k (map (fun k => (k, f k)) ks)
  = if existsb (String.eqb k) ks then Some (f k) else None.
Proof.
  induction ks as [|k' ks IH]; simpl; [reflexivity|].
  rewrite (String.eqb_sym k k').
  destruct (String.eqb k' k) eqn:E; simpl; [|exact IH].
  apply String.eqb_eq in E. now subst.
Qed.

Lemma pick_in_order {V : Type} (d : Dict.t V) (ord : list string) (acc : Dict.t V) :
  NoDup ord -> (forall c, In c ord -> ~ In c (Dict.keys acc)) ->
  fold_left (fun acc cat => match Dict.get cat d with
                            | Some items => Dict.set cat items acc
                            | None => acc
                            end) ord acc
  = (acc ++ flat_map (fun cat => match Dict.get cat d with
                                 | Some items => [(cat, items)]
                                 | None => []
                                 end) ord)%list.
Proof.
  revert acc. induction ord as [|c ord IH]; intros acc Hnd Hdisj; simpl.
  - now rewrite app_nil_r.
  - inversion Hnd as [|? ? Hc Hord]; subst.
    destruct (Dict.get c d) as [items|].
    + rewrite set_absent by (apply mem_false_not_in, Hdisj; now left).
      rewrite IH; [now rewrite <- app_assoc | exact Hord |].
      intros c' Hc' Hin. unfold Dict.keys in Hin. rewrite map_app in Hin.
      apply in_app_or in Hin as [Hin|[<-|[]]]; [|contradiction].
      apply (Hdisj c'); [now right | exact Hin].
    + apply IH; [exact Hord|]. intros c' Hc'. apply Hdisj. now right.
Qed.

Lemma rest_unchanged {V : Type} (d acc : Dict.t V) :
  (forall c, In c d -> Dict.mem (fst c) acc = true) ->
  fold_left (fun acc c => if Dict.mem (fst c) acc then acc
                          else Dict.set (fst c) (snd c) acc) d acc
  = acc.
Proof.
  induction d as [|c d IH]; intros H; simpl; [reflexivity|].
  rewrite (H c) by now left. apply IH. intros c' Hc'. apply H. now right.
Qed.

Lemma keyed_nonempty {A : Type} (key : A -> string) (k : string) (l : list A) :
  existsb (String.eqb k) (first_seen [] (map key l)) = true <-> keyed key k l <> [].
Proof.
  rewrite existsb_eqb_in, first_seen_in, in_map_iff. unfold keyed. split.
  - intros [(x & E & Hin) _] H.
    assert (Hx : In x (filter (fun y => String.eqb (key y) k) l)).
    { apply filter_In. split; [exact Hin|]. rewrite E. apply String.eqb_refl. }
    rewrite H in Hx. contradiction.
  - intros H. split; [|tauto].
    destruct (filter (fun y => String.eqb (key y) k) l) as [|x r] eqn:E; [congruence|].
    assert (Hx : In x (filter (fun y => String.eqb (key y) k) l)) by (rewrite E; now left).
    apply filter_In in Hx as [Hin Hk]. apply String.eqb_eq in Hk. now exists x.
Qed.

(** The categorized list in closed form: the categories of the display
    order that hold an item, each with its items sorted. *)
Lemma categorize_items_closed_form (ingredients : list ingredient) :
  _categorize_items ingredients
  = flat_map (fun cat => match keyed shelf cat ingredients with
                         | [] => []
                         | _ :: _ =>
                             [(cat, sort_items (map format_item
                                                    (keyed shelf cat ingredients)))]
                         end)
             category_order.
Proof.
  unfold _categorize_items.
  change (fold_left _ ingredients [])
    with (grouped shelf format_item ingredients []).
  rewrite grouped_closed_form, map_map. simpl fst. simpl snd.
  set (ks := first_seen [] (map shelf ingredients)).
  set (f := fun k => sort_items (map format_item (keyed shelf k ingredients))).
  change (map (fun x => (x, sort_items (map format_item (keyed shelf x ingredients)))) ks)
    with (map (fun k => (k, f k)) ks).
  rewrite pick_in_order; [| repeat constructor; simpl; intuition discriminate
                          | intros c _ []].
  rewrite app_nil_l.
  assert (E : flat_map (fun cat => match Dict.get cat (map (fun k => (k, f k)) ks) with
                                   | Some items => [(cat, items)]
                                   | None => []
                                   end) category_order
              = flat_map (fun cat => match keyed shelf cat ingredients with
                                     | [] => []
                                     | _ :: _ => [(cat, f cat)]
                                     end) category_order).
  { apply flat_map_ext. intros cat. rewrite get_map_keys.
    destruct (existsb (String.eqb cat) ks) eqn:Hk.
    - apply keyed_nonempty in Hk.
      destruct (keyed shelf cat ingredients); [congruence | reflexivity].
    - destruct (keyed shelf cat ingredients) as [|x r] eqn:Hl; [reflexivity|].
      assert (Hne : keyed shelf cat ingredients <> []) by (rewrite Hl; discriminate).
      apply keyed_nonempty in Hne. unfold ks in Hk. congruence. }
  rewrite rest_unchanged; [exact E|].
  intros [k v] Hin. apply mem_true_in.
  apply in_map_iff in Hin as (k' & Hk' & Hin). injection Hk' as -> <-.
  unfold Dict.keys. apply (in_map fst _ (k, f k)). apply in_flat_map.
  exists k. split.
  - unfold ks in Hin. apply first_seen_in in Hin as [Hin _].
    apply in_map_iff in Hin as (x & <- & _). apply shelf_in_order.
  - rewrite get_map_keys.
    assert (Hk : existsb (String.eqb k) ks = true) by now apply existsb_eqb_in.
    rewrite Hk. simpl. now left.
Qed.

End CategorizeFacts.

Section PartitionFacts.
Import Properties.
Context {A : Type}.
Variable key : A -> string.

Lemma keyed_cons_other (x : A) (l : list A) (ks : list string) :
  ~ In (key x) ks ->
  flat_map (fun k => keyed key k (x :: l)) ks = flat_map (fun k => keyed key k l) ks.
Proof.
  induction ks as [|k ks IH]; intros Hn; cbn [flat_map]; [reflexivity|].
  rewrite IH by (intros H; apply Hn; now right).
  f_equal. unfold keyed. cbn [filter].
  destruct (String.eqb (key x) k) eqn:E; [|reflexivity].
  apply String.eqb_eq in E. exfalso. apply Hn. now left.
Qed.

Lemma keyed_cons_perm (x : A) (l : list A) (ks : list string) :
  NoDup ks -> In (key x) ks ->
  Permutation (flat_map (fun k => keyed key k (x :: l)) ks)
              (x :: flat_map (fun k => keyed key k l) ks).
Proof.
  induction ks as [|k ks IH]; intros Hnd Hin; [contradiction|].
  inversion Hnd as [|? ? Hk Hks]; subst. cbn [flat_map].
  destruct (string_dec (key x) k) as [E|NE].
  - subst k. rewrite keyed_cons_other by exact Hk.
    unfold keyed at 1. cbn [filter]. rewrite String.eqb_refl. apply Permutation_refl.
  - destruct Hin as [Hin|Hin]; [congruence|].
    unfold keyed at 1. cbn [filter].
    apply String.eqb_neq in NE. rewrite NE.
    fold (keyed key k l). rewrite (IH Hks Hin).
    symmetry. apply Permutation_middle.
Qed.

(** The elements of a list, taken key by key over keys without repetition
    that hold every key of the list, are the elements of the list. *)
Lemma keyed_partition (l : list A) (ks : list string) :
  NoDup ks -> (forall x, In x l -> In (key x) ks) ->
  Permutation (flat_map (fun k => keyed key k l) ks) l.
Proof.
  intros Hnd. induction l as [|x l IH]; intros Hall.
  - clear. induction ks as [|k ks IH]; simpl; [constructor | exact IH].
  - rewrite keyed_cons_perm; [| exact Hnd | apply Hall; now left].
    constructor. apply IH. intros y Hy. apply Hall. now right.
Qed.

End PartitionFacts.

Section CategorizeProperties.
Import Py Notions Properties SmartShoppingListGenerator.

Lemma category_order_nodup : NoDup category_order.
Proof. repeat constructor; simpl; intuition discriminate. Qed.


Lemma all_items_categorized (ingredients : list ingredient) :
  all_items (_categorize_items ingredients)
  = flat_map (fun cat => sort_items (map format_item (keyed shelf cat ingredients)))
             category_order.
Proof.
  rewrite categorize_items_closed_form. unfold all_items.
  generalize category_order as ord.
  induction ord as [|c ord IH]; [reflexivity|].
  cbn [flat_map]. rewrite flat_map_app, IH. f_equal.
  destruct (keyed shelf c ingredients); [reflexivity|].
  cbn [flat_map snd]. now rewrite app_nil_r.
Qed.

Lemma categorized_perm (ingredients : list ingredient) :
  Permutation (all_items (_categorize_items ingredients))
              (map format_item ingredients).
Proof.
  rewrite all_items_categorized.
  transitivity (map format_item
                    (flat_map (fun cat => keyed shelf cat ingredients) category_order)).
  - generalize category_order as ord.
    induction ord as [|c ord IH]; [constructor|].
    cbn [flat_map]. rewrite map_app.
    apply Permutation_app; [apply sort_items_perm | exact IH].
  - apply Permutation_map, keyed_partition.
    + apply category_order_nodup.
    + intros x _. apply shelf_in_order.
Qed.

(** X5. Categorizing loses no item and adds none: the items of the categorized
    list, all categories together, are the displays of the ingredients, in
    another order. *)
Theorem categorize_items_loses_nothing :
  forall ingredients : list ingredient,
    Permutation (all_items (_categorize_items ingredients))
                (map format_item ingredients) /\
    List.length (all_items (_categorize_items ingredients)) = List.length ingredients.
Proof.
  intros ingredients.
  pose proof (categorized_perm ingredients) as P.
  split; [exact P|].
  rewrite (Permutation_length P). apply length_map.
Qed.

(** X6. The categories of the categorized list are those of the display order
    that hold an item, in that order, each once. *)
Theorem categorize_items_in_display_order :
  forall ingredients : list ingredient,
    Dict.keys (_categorize_items ingredients)
    = filter (fun cat => existsb (fun x => String.eqb (shelf x) cat) ingredients)
             category_order /\
    NoDup (Dict.keys (_categorize_items ingredients)).
Proof.
  intros ingredients.
  assert (E : Dict.keys (_categorize_items ingredients)
              = filter (fun cat => existsb (fun x => String.eqb (shelf x) cat) ingredients)
                       category_order).
  { rewrite categorize_items_closed_form. unfold Dict.keys.
    generalize category_order as ord.
    induction ord as [|c ord IH]; [reflexivity|].
    cbn [flat_map filter]. rewrite map_app, IH.
    assert (K : existsb (fun x => String.eqb (shelf x) c) ingredients
                = negb (match keyed shelf c ingredients with [] => true | _ => false end)).
    { unfold keyed. clear. induction ingredients as [|x l IHl]; [reflexivity|].
      simpl. destruct (String.eqb (shelf x) c); [reflexivity | exact IHl]. }
    rewrite K. destruct (keyed shelf c ingredients); reflexivity. }
  split; [exact E|].
  rewrite E. apply NoDup_filter, category_order_nodup.
Qed.


End CategorizeProperties.

(** ** Further properties of the pipeline *)

Section PipelineProperties.
Import Py Notions Properties SmartShoppingListGenerator.

Lemma staple_line_listed (s : staple) (line : ingredient) :
  staple_line s = Some line -> line = listed_staple s.
Proof.
  unfold staple_line, listed_staple.
  destruct (s_name s), (s_quantity s); intros [= <-]; reflexivity.
Qed.

Lemma staple_line_none (s : staple) :
  staple_line s = None <-> (s_name s = None \/ s_quantity s = None).
Proof.
  unfold staple_line. destruct (s_name s), (s_quantity s); split; intros H;
    try discriminate; try reflexivity; try tauto.
  - destruct H; discriminate.
Qed.

Lemma add_staples_none (staples : list staple) (combined : list ingredient) :
  add_staples combined staples = None <-> exists s, In s staples /\ unlistable s.
Proof.
  revert combined. induction staples as [|s staples IH]; intros combined; simpl.
  - split; [discriminate | intros (s & [] & _)].
  - destruct (not_in_stock s) eqn:E.
    + destruct (staple_line s) as [line|] eqn:L.
      * rewrite IH. split.
        -- intros (x & Hin & Hu). exists x. split; [now right | exact Hu].
        -- intros (x & [<-|Hin] & Hu); [|now exists x].
           destruct Hu as [_ Hu]. apply staple_line_none in Hu. congruence.
      * split; [|reflexivity]. intros _. exists s. split; [now left|].
        split; [exact E | now apply staple_line_none].
    + rewrite IH. split.
      * intros (x & Hin & Hu). exists x. split; [now right | exact Hu].
      * intros (x & [<-|Hin] & Hu); [|now exists x].
        destruct Hu as [Hu _]. congruence.
Qed.

Lemma add_staples_some (staples : list staple) (combined all : list ingredient) :
  add_staples combined staples = Some all ->
  all = (combined ++ map listed_staple (filter not_in_stock staples))%list.
Proof.
  revert combined. induction staples as [|s staples IH]; intros combined; simpl.
  - intros [= <-]. now rewrite app_nil_r.
  - destruct (not_in_stock s).
    + destruct (staple_line s) as [line|] eqn:L; [|discriminate].
      intros H. apply IH in H. rewrite H, <- app_assoc. simpl.
      now rewrite (staple_line_listed s line L).
    + apply IH.
Qed.

Lemma apply_substitutions_length (items : list ingredient) (subs : list substitution) :
  List.length (_apply_substitutions items subs) = List.length items.
Proof. destruct subs; simpl; [reflexivity | apply length_map]. Qed.

Lemma apply_organic_length (items : list ingredient) (prefs : list string) :
  List.length (_apply_organic_preferences items prefs) = List.length items.
Proof. destruct prefs; simpl; [reflexivity | apply length_map]. Qed.

(** X8. The generator fails exactly when a staple to list lacks its name or its
    quantity; staples that are in stock never make it fail. *)
Theorem generate_optimized_list_fails_on_unlistable_staple :
  forall (raw_ingredients : list ingredient) (organic_preferences : list string)
         (substitutions : list substitution) (staples : list staple),
    generate_optimized_list raw_ingredients organic_preferences substitutions staples = None
    <-> exists s, In s staples /\ unlistable s.
Proof.
  intros raw organic subs staples. unfold generate_optimized_list.
  rewrite <- (add_staples_none staples
                (_apply_organic_preferences
                   (_apply_substitutions (_combine_duplicates raw) subs) organic)).
  destruct (add_staples _ staples); split; congruence.
Qed.

(** X9. When the generator succeeds, the total it reports is the number of items
    of its categories: the combined lines, one for each, and one item for
    each staple that is not in stock, noted [Staple item]; a staple in stock
    adds nothing. *)
Theorem generate_optimized_list_counts_its_items :
  forall (raw_ingredients : list ingredient) (organic_preferences : list string)
         (substitutions : list substitution) (staples : list staple)
         (r : optimizer_result),
    generate_optimized_list raw_ingredients organic_preferences substitutions staples
    = Some r ->
    total_items r = Some (Z.of_nat (List.length (all_items (cats_of r)))) /\
    List.length (all_items (cats_of r))
    = List.length (_combine_duplicates raw_ingredients)
      + List.length (filter not_in_stock staples) /\
    (forall s, In s staples -> not_in_stock s = true ->
       In (format_item (listed_staple s)) (all_items (cats_of r))).
Proof.
  intros raw organic subs staples r. unfold generate_optimized_list.
  destruct (add_staples _ staples) as [all|] eqn:E; [|discriminate].
  intros [= <-]. unfold cats_of. simpl categories. simpl total_items. simpl get_or.
  pose proof (categorized_perm all) as P.
  assert (L : List.length (all_items (_categorize_items all)) = List.length all).
  { rewrite (Permutation_length P). apply length_map. }
  apply add_staples_some in E.
  split; [now rewrite L|]. split.
  - rewrite L, E, length_app, length_map, apply_organic_length,
      apply_substitutions_length. reflexivity.
  - intros s Hin Hs. apply (Permutation_in _ (Permutation_sym P)).
    apply in_map. rewrite E. apply in_or_app. right.
    apply in_map, filter_In. now split.
Qed.

End PipelineProperties.

(** ** Further properties of the preferences *)

Section PreferenceProperties.
Import Py Notions Properties SmartShoppingListGenerator.

(** X10. Among the usable rules of one lower-cased original, the last one of the
    list decides: an item of that name takes its replacement. *)
Theorem apply_substitutions_last_rule_wins :
  forall (before after : list substitution) (sub : substitution) (item : ingredient),
    usable sub ->
    names_exactly sub item ->
    (forall s, In s after -> usable s -> rule_key s <> rule_key sub) ->
    _apply_substitutions [item] (before ++ sub :: after)
    = [ mk_ingredient
          (Some (get_or "" (sub_replacement sub))) (i_ingredient_name item)
          (i_quantity item) (i_unit item)
          (Some (get_or "" (i_notes item)
                 ++ " (Substituted from " ++ lower (name_of "" item) ++ ")")) ].
Proof.
  intros before after sub item Hu Hk Hafter.
  rewrite apply_substitutions_map by (destruct before; discriminate).
  simpl map. f_equal. unfold substitute_item.
  rewrite build_sub_map_fold, sub_map_last, last_replacement_app.
  unfold names_exactly in Hk. fold (rule_key sub) in Hk. rewrite <- Hk.
  simpl last_replacement. rewrite (last_replacement_none _ after Hafter).
  fold (rule_key sub). rewrite String.eqb_refl.
  destruct Hu as [Ho Hr].
  assert (E1 : is_empty (rule_key sub) = false).
  { apply is_empty_false. intros E. apply Ho. now apply lower_empty. }
  assert (E2 : is_empty (get_or "" (sub_replacement sub)) = false)
    by now apply is_empty_false.
  rewrite E1, E2. reflexivity.
Qed.

Lemma make_organic_with_empty (organic_set : list string) (item : ingredient) :
  In "" organic_set ->
  contains "organic" (lower (name_of "" (make_organic organic_set item))) = true.
Proof.
  intros Hin. unfold make_organic.
  assert (E : existsb (fun pref => contains pref (lower (name_of "" item))) organic_set
              = true).
  { apply existsb_exists. exists "". split; [exact Hin | apply contains_empty]. }
  rewrite E. simpl andb.
  destruct (contains "organic" (lower (name_of "" item))) eqn:C; simpl.
  - exact C.
  - exact (organic_prefix_seen (name_of "" item)).
Qed.

(** X11. An empty preference occurs in every name: with it among the organic
    preferences, every item of the result is organic. *)
Theorem empty_organic_preference_marks_every_item :
  forall (ingredients : list ingredient) (organic_prefs : list string),
    In "" organic_prefs ->
    forall item,
      In item (_apply_organic_preferences ingredients organic_prefs) ->
      contains "organic" (lower (name_of "" item)) = true.
Proof.
  intros ingredients organic_prefs Hin item Hitem.
  destruct organic_prefs as [|p prefs]; [contradiction|].
  unfold _apply_organic_preferences in Hitem.
  apply in_map_iff in Hitem as (x & <- & _).
  apply make_organic_with_empty.
  change "" with (lower ""). now apply in_map.
Qed.

End PreferenceProperties.

Section WebPreferenceProperties.
Import Py Notions Properties FlaskApp.

Lemma substitute_step_frame (n : string) (item_copy : list_item)
      (sub : stored_substitution) :
  l_ingredient_name (substitute_step n item_copy sub) = l_ingredient_name item_copy /\
  l_quantity (substitute_step n item_copy sub) = l_quantity item_copy /\
  l_unit (substitute_step n item_copy sub) = l_unit item_copy /\
  l_search_term (substitute_step n item_copy sub) = l_search_term item_copy.
Proof. unfold substitute_step. destruct (contains _ n); repeat split. Qed.

Lemma organic_step_frame (n : string) (item_copy : list_item) (org : string) :
  l_ingredient_name (organic_step n item_copy org) = l_ingredient_name item_copy /\
  l_quantity (organic_step n item_copy org) = l_quantity item_copy /\
  l_unit (organic_step n item_copy org) = l_unit item_copy /\
  l_name (organic_step n item_copy org) = l_name item_copy /\
  l_original_name (organic_step n item_copy org) = l_original_name item_copy.
Proof. unfold organic_step. destruct (contains _ n); repeat split. Qed.

Lemma substitute_fold_frame (n : string) (subs : list stored_substitution)
      (item_copy : list_item) :
  l_ingredient_name (fold_left (substitute_step n) subs item_copy)
  = l_ingredient_name item_copy /\
  l_quantity (fold_left (substitute_step n) subs item_copy) = l_quantity item_copy /\
  l_unit (fold_left (substitute_step n) subs item_copy) = l_unit item_copy.
Proof.
  revert item_copy. induction subs as [|sub subs IH]; intros item_copy; simpl.
  - repeat split.
  - destruct (IH (substitute_step n item_copy sub)) as (A & B & C).
    destruct (substitute_step_frame n item_copy sub) as (A' & B' & C' & _).
    repeat split; congruence.
Qed.

Lemma organic_fold_frame (n : string) (orgs : list string) (item_copy : list_item) :
  l_ingredient_name (fold_left (organic_step n) orgs item_copy)
  = l_ingredient_name item_copy /\
  l_quantity (fold_left (organic_step n) orgs item_copy) = l_quantity item_copy /\
  l_unit (fold_left (organic_step n) orgs item_copy) = l_unit item_copy.
Proof.
  revert item_copy. induction orgs as [|org orgs IH]; intros item_copy; simpl.
  - repeat split.
  - destruct (IH (organic_step n item_copy org)) as (A & B & C).
    destruct (organic_step_frame n item_copy org) as (A' & B' & C' & _).
    repeat split; congruence.
Qed.

Lemma substitute_fold_miss (n : string) (subs : list stored_substitution)
      (item_copy : list_item) :
  (forall sub, In sub subs -> hit_by n sub = false) ->
  fold_left (substitute_step n) subs item_copy = item_copy.
Proof.
  revert item_copy. induction subs as [|sub subs IH]; intros item_copy H; simpl.
  - reflexivity.
  - rewrite substitute_step_miss by (apply H; now left).
    apply IH. intros s Hs. apply H. now right.
Qed.

Lemma organic_fold_miss (n : string) (orgs : list string) (item_copy : list_item) :
  (forall org, In org orgs -> contains (lower org) n = false) ->
  fold_left (organic_step n) orgs item_copy = item_copy.
Proof.
  revert item_copy. induction orgs as [|org orgs IH]; intros item_copy H; simpl.
  - reflexivity.
  - unfold organic_step at 2. rewrite (H org) by now left.
    apply IH. intros o Ho. apply H. now right.
Qed.

(** X12. The helper of the web layer returns one item for each item, in order;
    it never touches the quantity, the unit or the ingredient name; and an
    item in whose lower-cased name no stored original and no organic term
    occurs is returned as it is. *)
Theorem apply_preferences_frame :
  forall (substitutions : list stored_substitution) (organic_items : list string)
         (ingredients : list list_item),
    List.length (apply_preferences substitutions organic_items ingredients)
    = List.length ingredients /\
    (forall i item,
        nth_error ingredients i = Some item ->
        exists item',
          nth_error (apply_preferences substitutions organic_items ingredients) i
          = Some item' /\
          l_quantity item' = l_quantity item /\
          l_unit item' = l_unit item /\
          l_ingredient_name item' = l_ingredient_name item /\
          ((forall sub, In sub substitutions -> ~ occurs_in sub item) ->
           (forall org, In org organic_items ->
                        contains (lower org) (lower (shown_name item)) = false) ->
           item' = item)).
Proof.
  intros substitutions organic_items ingredients. unfold apply_preferences.
  split; [apply length_map|].
  intros i item Hi. exists (apply_to_item substitutions organic_items item).
  split; [now apply map_nth_error|].
  unfold apply_to_item.
  set (n := lower (shown_name item)).
  destruct (organic_fold_frame n organic_items
              (fold_left (substitute_step n) substitutions item)) as (A & B & C).
  destruct (substitute_fold_frame n substitutions item) as (A' & B' & C').
  repeat split; try congruence.
  intros Hsub Horg.
  rewrite substitute_fold_miss.
  - now apply organic_fold_miss.
  - intros sub Hin. unfold hit_by. fold n.
    specialize (Hsub sub Hin). unfold occurs_in in Hsub. fold n in Hsub.
    destruct (contains (lower (original sub)) n); [now elim Hsub | reflexivity].
Qed.

(** X13. A stored rule with an empty original occurs in every name: with such a
    rule in the store, the helper renames every item to the substitute of a
    stored rule. *)
Theorem empty_original_renames_every_item :
  forall (substitutions : list stored_substitution) (organic_items : list string)
         (ingredients : list list_item) (rule : stored_substitution),
    In rule substitutions ->
    original rule = "" ->
    forall item,
      In item (apply_preferences substitutions organic_items ingredients) ->
      exists sub, In sub substitutions /\ l_name item = Some (substitute sub).
Proof.
  intros substitutions organic_items ingredients rule Hin Hempty item Hitem.
  unfold apply_preferences in Hitem. apply in_map_iff in Hitem as (x & <- & _).
  unfold apply_to_item. set (n := lower (shown_name x)).
  destruct (organic_fold_keeps n organic_items
              (fold_left (substitute_step n) substitutions x)) as [En _].
  destruct (substitute_fold_name n substitutions x)
    as (before & last & after & E & _ & _ & Hname).
  { exists rule. split; [exact Hin|]. unfold hit_by. rewrite Hempty.
    apply contains_empty. }
  exists last. split.
  - rewrite E. apply in_or_app. right. now left.
  - now rewrite En.
Qed.

End WebPreferenceProperties.

(** ** Further properties of the matcher *)

Section MatcherProperties.
Import Py PyFloat Notions Properties ShoppingListMatcher.

Variable search_product : nat -> string -> string -> string -> option product.



End MatcherProperties.

(** ** Further properties of the repair pass *)

Section RepairProperties.
Import Py Repair Notions Properties.

Lemma missing_staples_some (flag : bool) (ai_items : list string) (staples : list staple)
      (more : list missing_item) :
  missing_staples flag ai_items staples = Some more ->
  forall s, In s staples -> not_in_stock s = true ->
    found ai_items (normalized (get_or "" (s_name s))) = false ->
    exists n, s_name s = Some n /\
      In (mk_ingredient (Some n) None (Some (get_or "" (s_quantity s)))
                        (Some (get_or "" (s_unit s))) None, flag) more.
Proof.
  revert more. induction staples as [|s staples IH]; intros more E x Hin Hs Hf.
  - contradiction.
  - simpl in E.
    destruct (not_in_stock s && negb (found ai_items (normalized (get_or "" (s_name s)))))
      eqn:C.
    + destruct (s_name s) as [n|] eqn:En; [|discriminate].
      destruct (missing_staples flag ai_items staples) as [rest|] eqn:Er; [|discriminate].
      injection E as <-.
      destruct Hin as [<-|Hin].
      * exists n. rewrite En. split; [reflexivity | now left].
      * destruct (IH rest eq_refl x Hin Hs Hf) as (n' & En' & Hin').
        exists n'. split; [exact En' | now right].
    + destruct Hin as [<-|Hin].
      * rewrite Hs, Hf in C. discriminate.
      * now apply (IH more E).
Qed.

Lemma missing_ingredients_nil (default : string) (ai_items : list string)
      (raw : list ingredient) :
  (forall ing, In ing raw -> found ai_items (normalized (name_of default ing)) = true) ->
  missing_ingredients default ai_items raw = [].
Proof.
  unfold missing_ingredients. induction raw as [|ing raw IH]; intros H; simpl.
  - reflexivity.
  - rewrite (H ing) by now left. simpl. apply IH. intros x Hx. apply H. now right.
Qed.

Lemma missing_staples_nil (flag : bool) (ai_items : list string) (staples : list staple) :
  (forall s, In s staples -> not_in_stock s = true ->
     found ai_items (normalized (get_or "" (s_name s))) = true) ->
  missing_staples flag ai_items staples = Some [].
Proof.
  induction staples as [|s staples IH]; intros H; simpl; [reflexivity|].
  rewrite IH by (intros x Hx; apply H; now right).
  destruct (not_in_stock s) eqn:E; [|reflexivity].
  rewrite (H s) by (now left || exact E). reflexivity.
Qed.

Lemma count_items_from (cats : categorized_list) (n : Z) :
  fold_left (fun n items => (n + Z.of_nat (List.length items))%Z) (Dict.values cats) n
  = (n + Z.of_nat (List.length (all_items cats)))%Z.
Proof.
  unfold Dict.values, all_items. revert n.
  induction cats as [|[k v] cats IH]; intros n; simpl; [lia|].
  rewrite IH, length_app. lia.
Qed.

Lemma count_items_length (cats : categorized_list) :
  count_items cats = Z.of_nat (List.length (all_items cats)).
Proof. unfold count_items. now rewrite count_items_from. Qed.

Lemma validate_and_fix_some (result repaired : optimizer_result)
      (raw : list ingredient) (staples : list staple) :
  ShoppingListOptimizer._validate_and_fix_missing_items result raw staples = Some repaired ->
  repaired_from "Unknown" " - Staple" (cats_of result) (cats_of repaired) raw staples /\
  (repaired = result \/
   total_items repaired = Some (count_items (cats_of repaired))).
Proof.
  unfold ShoppingListOptimizer._validate_and_fix_missing_items.
  fold (cats_of result).
  destruct (missing_staples true (ai_item_names (cats_of result)) staples)
    as [more|] eqn:E; [|discriminate].
  set (missing := missing_ingredients "Unknown" (ai_item_names (cats_of result)) raw).
  assert (G : forall out,
             (forall x, In x (all_items out) <->
                        In x (all_items (cats_of result)) \/
                        In x (map ShoppingListOptimizer.repaired_entry (missing ++ more))) ->
             filed_under "Other" out
             = (filed_under "Other" (cats_of result)
                ++ map ShoppingListOptimizer.repaired_entry (missing ++ more))%list ->
             repaired_from "Unknown" " - Staple" (cats_of result) out raw staples).
  { intros out H1 H2.
    apply (repaired_from_out "Unknown" " - Staple" true
             ShoppingListOptimizer.repaired_entry (cats_of result) raw staples
             missing more out); try assumption.
    - intros ing. split; reflexivity.
    - intros n q u. split; reflexivity.
    - intros ing. apply covers_refl.
    - intros ing. apply in_missing_ingredients.
    - now apply missing_staples_some. }
  destruct (missing ++ more)%list as [|m rest] eqn:Em.
  - intros [= <-]. split; [|now left]. apply G.
    + simpl. intuition.
    + simpl. now rewrite app_nil_r.
  - intros [= <-]. split; [|right; reflexivity].
    unfold cats_of at 2. simpl categories. simpl get_or. apply G.
    + apply in_add_to_other.
    + apply filed_under_add_to_other.
Qed.

Lemma validate_items_some (result repaired : optimizer_result)
      (raw : list ingredient) (staples : list staple) :
  ShoppingListOptimizerNative._validate_items result raw staples = Some repaired ->
  repaired_from "" "" (cats_of result) (cats_of repaired) raw staples /\
  total_items repaired = Some (count_items (cats_of repaired)) /\
  categories repaired = Some (cats_of repaired) /\
  shopping_tips repaired = shopping_tips result /\
  cost_saving_suggestions repaired = cost_saving_suggestions result.
Proof.
  unfold ShoppingListOptimizerNative._validate_items.
  fold (cats_of result).
  destruct (missing_staples false (ai_item_names (cats_of result)) staples)
    as [more|] eqn:E; [|discriminate].
  set (missing := missing_ingredients "" (ai_item_names (cats_of result)) raw).
  intros [= <-]. split; [|repeat split].
  unfold cats_of at 2. simpl categories. simpl get_or.
  apply (repaired_from_out "" "" false
           ShoppingListOptimizerNative.repaired_entry (cats_of result) raw staples
           missing more); try assumption.
  - intros ing. split; reflexivity.
  - intros n q u. split; reflexivity.
  - intros ing. apply covers_checked_name.
  - intros ing. apply in_missing_ingredients.
  - now apply missing_staples_some.
  - intros x. destruct (missing ++ more)%list as [|m rest] eqn:Em.
    + simpl. intuition.
    + apply in_add_to_other.
  - destruct (missing ++ more)%list as [|m rest] eqn:Em.
    + simpl. now rewrite app_nil_r.
    + apply filed_under_add_to_other.
Qed.

(** X15. Repairing is idempotent: a result a repair pass returned is returned
    unchanged by the same pass on the same inputs, nothing being missing
    from it any more. *)
Theorem repair_pass_idempotent :
  forall (result : optimizer_result) (raw : list ingredient) (staples : list staple),
    (forall repaired,
        ShoppingListOptimizer._validate_and_fix_missing_items result raw staples
        = Some repaired ->
        ShoppingListOptimizer._validate_and_fix_missing_items repaired raw staples
        = Some repaired) /\
    (forall repaired,
        ShoppingListOptimizerNative._validate_items result raw staples = Some repaired ->
        ShoppingListOptimizerNative._validate_items repaired raw staples = Some repaired).
Proof.
  intros result raw staples. split; intros repaired H.
  - destruct (validate_and_fix_some _ _ _ _ H) as [(Hraw & Hst & _) _].
    unfold ShoppingListOptimizer._validate_and_fix_missing_items.
    fold (cats_of repaired).
    rewrite missing_staples_nil, missing_ingredients_nil; [reflexivity | |].
    + intros ing Hin. apply found_covered_in. now apply Hraw.
    + intros s Hin Hs. apply found_covered_in. now apply Hst.
  - destruct (validate_items_some _ _ _ _ H) as [(Hraw & Hst & _) (Ht & Hc & _)].
    unfold ShoppingListOptimizerNative._validate_items.
    fold (cats_of repaired).
    rewrite missing_staples_nil, missing_ingredients_nil.
    + simpl app. cbv iota. destruct repaired as [c tips cost total].
      unfold cats_of in *. simpl in *. destruct c as [c|]; [|discriminate].
      simpl in *. now rewrite Ht.
    + intros ing Hin. apply found_covered_in. now apply Hraw.
    + intros s Hin Hs. apply found_covered_in. now apply Hst.
Qed.

Lemma length_add_to_other (entry : missing_item -> display_item)
      (missing : list missing_item) (cats : categorized_list) :
  List.length (all_items (add_to_other entry missing cats))
  = List.length (all_items cats) + List.length missing.
Proof.
  unfold add_to_other, all_items.
  etransitivity;
    [exact (length_values_grouped
              (fun _ : missing_item => "Other") entry missing
              (if Dict.mem "Other" cats then cats else Dict.set "Other" [] cats))|].
  f_equal.
  destruct (Dict.mem "Other" cats) eqn:E; [reflexivity|].
  rewrite (set_absent _ _ _ E), flat_map_app, length_app. simpl. lia.
Qed.

Lemma missing_staples_covered (flag : bool) (ai_items : list string)
      (staples : list staple) :
  missing_staples flag ai_items staples = Some [] ->
  forall s, In s staples -> not_in_stock s = true ->
    found ai_items (normalized (get_or "" (s_name s))) = true.
Proof.
  intros E s Hin Hs.
  destruct (found ai_items (normalized (get_or "" (s_name s)))) eqn:Hf; [reflexivity|].
  destruct (missing_staples_some flag ai_items staples [] E s Hin Hs Hf)
    as (n & _ & []).
Qed.

(** X16. The total of a repaired result. [_validate_items] always reports the
    number of items of the categories it returns. The other pass,
    [_validate_and_fix_missing_items], depends on the answer of the
    classifier: when that answer covers every raw ingredient and every
    staple that is not in stock, it is returned untouched, its total
    included, right or wrong; when an input is not covered, items are added
    and the total is the number of items of the categories returned. *)
Theorem repair_pass_total_items :
  forall (result : optimizer_result) (raw : list ingredient) (staples : list staple),
    (forall repaired,
        ShoppingListOptimizerNative._validate_items result raw staples = Some repaired ->
        total_items repaired
        = Some (Z.of_nat (List.length (all_items (cats_of repaired))))) /\
    (forall repaired,
        ShoppingListOptimizer._validate_and_fix_missing_items result raw staples
        = Some repaired ->
        ((forall ing, In ing raw ->
            covered_in (cats_of result) (normalized (name_of "Unknown" ing))) ->
         (forall s, In s staples -> not_in_stock s = true ->
            covered_in (cats_of result) (normalized (get_or "" (s_name s)))) ->
         repaired = result) /\
        ((exists ing, In ing raw /\
                      ~ covered_in (cats_of result) (normalized (name_of "Unknown" ing))) \/
         (exists s, In s staples /\ not_in_stock s = true /\
                    ~ covered_in (cats_of result) (normalized (get_or "" (s_name s)))) ->
         total_items repaired
         = Some (Z.of_nat (List.length (all_items (cats_of repaired)))) /\
         List.length (all_items (cats_of result))
         < List.length (all_items (cats_of repaired)))).
Proof.
  intros result raw staples. split; intros repaired H.
  - destruct (validate_items_some _ _ _ _ H) as [_ (Ht & _)].
    now rewrite Ht, count_items_length.
  - unfold ShoppingListOptimizer._validate_and_fix_missing_items in H.
    fold (cats_of result) in H.
    destruct (missing_staples true (ai_item_names (cats_of result)) staples)
      as [more|] eqn:E; [|discriminate].
    set (missing := missing_ingredients "Unknown" (ai_item_names (cats_of result)) raw)
      in H.
    destruct (missing ++ more)%list as [|m rest] eqn:Em.
    + injection H as <-. split; [reflexivity|].
      apply app_eq_nil in Em as [Em1 Em2]. subst more.
      intros [(ing & Hin & Hn)|(s & Hin & Hs & Hn)]; exfalso.
      * assert (Hf : found (ai_item_names (cats_of result))
                           (normalized (name_of "Unknown" ing)) = false).
        { destruct (found _ _) eqn:Hf; [|reflexivity].
          apply found_covered_in in Hf. contradiction. }
        pose proof (in_missing_ingredients "Unknown" _ raw ing Hin Hf) as Hm.
        fold missing in Hm. rewrite Em1 in Hm. contradiction.
      * apply Hn. apply found_covered_in.
        now apply (missing_staples_covered true _ staples E).
    + injection H as <-. split.
      * intros Hraw Hst. exfalso.
        assert (M1 : missing = []).
        { apply missing_ingredients_nil. intros ing Hin.
          apply found_covered_in. now apply Hraw. }
        assert (M2 : missing_staples true (ai_item_names (cats_of result)) staples
                     = Some []).
        { apply missing_staples_nil. intros s Hin Hs.
          apply found_covered_in. now apply Hst. }
        rewrite E in M2. injection M2 as ->. rewrite M1 in Em. discriminate Em.
      * intros _.
        set (out := add_to_other ShoppingListOptimizer.repaired_entry (m :: rest)
                                 (cats_of result)).
        change (Some (count_items out)
                = Some (Z.of_nat (List.length (all_items out))) /\
                List.length (all_items (cats_of result)) < List.length (all_items out)).
        rewrite count_items_length. split; [reflexivity|].
        subst out. rewrite length_add_to_other. simpl. lia.
Qed.

End RepairProperties.

(** ** The optimizers as a whole *)

Section OptimizerProperties.
Import Py Repair Notions Properties.

Lemma fallback_categories_basic (raw : list ingredient) (staples : list staple) :
  cats_of (ShoppingListOptimizer._fallback_organization raw staples)
  = basic_categories
      (map ShoppingListOptimizer.fallback_ingredient raw
       ++ map ShoppingListOptimizer.fallback_staple (filter not_in_stock staples)).
Proof.
  unfold ShoppingListOptimizer._fallback_organization, cats_of. simpl categories.
  simpl get_or.
  change ShoppingListOptimizer.fallback_categories with (basic_categories []).
  rewrite fold_ingredients_basic, fold_staples_basic. reflexivity.
Qed.

Lemma all_items_basic (other : list display_item) :
  all_items (basic_categories other) = other.
Proof. unfold all_items. simpl. apply app_nil_r. Qed.

Lemma fallback_covers (raw : list ingredient) (staples : list staple) :
  (forall ing, In ing raw ->
     covered_in (cats_of (ShoppingListOptimizer._fallback_organization raw staples))
                (normalized (name_of "Unknown" ing))) /\
  (forall s, In s staples -> not_in_stock s = true ->
     covered_in (cats_of (ShoppingListOptimizer._fallback_organization raw staples))
                (normalized (get_or "" (s_name s)))).
Proof.
  rewrite fallback_categories_basic. unfold covered_in. rewrite all_items_basic.
  split.
  - intros ing Hin. exists (ShoppingListOptimizer.fallback_ingredient ing). split.
    + apply in_or_app. left. now apply in_map.
    + apply covers_refl.
  - intros s Hin Hs. exists (ShoppingListOptimizer.fallback_staple s). split.
    + apply in_or_app. right. apply in_map. apply filter_In. now split.
    + simpl. destruct (s_name s) as [n|]; simpl; [apply covers_refl|].
      apply covers_empty_name.
Qed.

(** X17. Whatever the classifier does, failing, answering well or answering a
    list the repair pass itself fails on, the assisted optimizer returns a
    list that covers every raw ingredient and every staple that is not in
    stock. *)
Theorem optimize_shopping_list_covers_every_input :
  forall (outcome : classifier_outcome) (raw_ingredients : list ingredient)
         (organic_preferences : list string) (substitutions : list substitution)
         (staples : list staple),
    let r := ShoppingListOptimizer.optimize_shopping_list
               outcome raw_ingredients organic_preferences substitutions staples in
    (forall ing, In ing raw_ingredients ->
       covered_in (cats_of r) (normalized (name_of "Unknown" ing))) /\
    (forall s, In s staples -> not_in_stock s = true ->
       covered_in (cats_of r) (normalized (get_or "" (s_name s)))).
Proof.
  intros outcome raw organic subs staples r. subst r.
  destruct outcome as [|result]; simpl; [apply fallback_covers|].
  destruct (ShoppingListOptimizer._validate_and_fix_missing_items result raw staples)
    as [repaired|] eqn:E; [|apply fallback_covers].
  destruct (validate_and_fix_some _ _ _ _ E) as [(Hraw & Hst & _) _].
  split; assumption.
Qed.

Lemma found_empty_name (ai_items : list string) :
  found ai_items "" = false <-> ai_items = [].
Proof.
  destruct ai_items as [|a l]; simpl.
  - split; reflexivity.
  - rewrite covers_empty_name. simpl. split; discriminate.
Qed.

Lemma missing_staples_raises (flag : bool) (ai_items : list string) (staples : list staple) :
  missing_staples flag ai_items staples = None <->
  ai_items = [] /\ exists s, In s staples /\ not_in_stock s = true /\ s_name s = None.
Proof.
  induction staples as [|s staples IH]; simpl.
  - split; [discriminate | intros (_ & x & [] & _)].
  - destruct (not_in_stock s) eqn:Hs; simpl.
    + destruct (s_name s) as [n|] eqn:En; simpl.
      * destruct (found ai_items (normalized n)) eqn:Hf; simpl.
        -- rewrite IH. split.
           ++ intros (A & x & Hin & H). split; [exact A|]. exists x. split; [now right | exact H].
           ++ intros (A & x & [<-|Hin] & Hx & Hn); [congruence|].
              split; [exact A|]. now exists x.
        -- destruct (missing_staples flag ai_items staples) eqn:Er.
           ++ split; [discriminate|].
              intros (A & x & [<-|Hin] & Hx & Hn); [congruence|].
              assert (None = @None (list missing_item)) as _ by reflexivity.
              destruct IH as [_ IH]. discriminate IH. split; [exact A|]. now exists x.
           ++ split; [|reflexivity]. intros _.
              destruct IH as [IH _]. destruct (IH eq_refl) as (A & x & Hin & H).
              split; [exact A|]. exists x. split; [now right | exact H].
      * change (normalized "") with "".
        destruct (found ai_items "") eqn:Hf; simpl.
        -- rewrite IH. split.
           ++ intros (A & x & Hin & H). split; [exact A|]. exists x. split; [now right | exact H].
           ++ intros (A & _). apply found_empty_name in A. congruence.
        -- split; [|reflexivity]. intros _. split; [now apply found_empty_name|].
           exists s. split; [now left|]. now split.
    + rewrite IH. split.
      * intros (A & x & Hin & H). split; [exact A|]. exists x. split; [now right | exact H].
      * intros (A & x & [<-|Hin] & Hx & Hn); [congruence|].
        split; [exact A|]. now exists x.
Qed.

Lemma fallback_staples_raises (staples : list staple) :
  ShoppingListOptimizerNative.fallback_staples staples = None <->
  exists s, In s staples /\ not_in_stock s = true /\ s_name s = None.
Proof.
  induction staples as [|s staples IH]; simpl.
  - split; [discriminate | intros (x & [] & _)].
  - destruct (not_in_stock s) eqn:Hs.
    + destruct (s_name s) as [n|] eqn:En.
      * destruct (ShoppingListOptimizerNative.fallback_staples staples) eqn:Er.
        -- split; [discriminate|].
           intros (x & [<-|Hin] & Hx & Hn); [congruence|].
           destruct IH as [_ IH]. discriminate IH. now exists x.
        -- split; [|reflexivity]. intros _. destruct IH as [IH _].
           destruct (IH eq_refl) as (x & Hin & H). exists x. split; [now right | exact H].
      * split; [|reflexivity]. intros _. exists s. split; [now left|]. now split.
    + rewrite IH. split.
      * intros (x & Hin & H). exists x. split; [now right | exact H].
      * intros (x & [<-|Hin] & Hx & Hn); [congruence|]. now exists x.
Qed.



(** X19. The native optimizer raises in exactly one case: a staple that is not
    in stock has no name and, when the classifier answered, its answer
    lists no item at all. The [except] clause cannot rescue that case,
    because the fallback reads the same name. *)
Theorem native_optimizer_fails_only_on_nameless_staple :
  forall (outcome : classifier_outcome) (raw_ingredients : list ingredient)
         (organic_preferences : list string) (substitutions : list substitution)
         (staples : list staple),
    ShoppingListOptimizerNative.optimize_shopping_list
      outcome raw_ingredients organic_preferences substitutions staples = None <->
    (exists s, In s staples /\ not_in_stock s = true /\ s_name s = None) /\
    match outcome with
    | ClassifierFailed => True
    | ClassifierReturned result => all_items (cats_of result) = []
    end.
Proof.
  intros outcome raw organic subs staples.
  unfold ShoppingListOptimizerNative.optimize_shopping_list.
  destruct outcome as [|result].
  - rewrite <- fallback_staples_raises.
    unfold ShoppingListOptimizerNative._fallback_organization.
    destruct (ShoppingListOptimizerNative.fallback_staples staples); split.
    + discriminate.
    + intros [H _]. discriminate H.
    + intros _. now split.
    + reflexivity.
  - assert (V : ShoppingListOptimizerNative._validate_items result raw staples = None <->
                all_items (cats_of result) = [] /\
                exists s, In s staples /\ not_in_stock s = true /\ s_name s = None).
    { unfold ShoppingListOptimizerNative._validate_items. fold (cats_of result).
      destruct (missing_staples false (ai_item_names (cats_of result)) staples) eqn:E.
      - split; [discriminate|]. intros (A & B).
        assert (N : missing_staples false (ai_item_names (cats_of result)) staples = None).
        { apply missing_staples_raises. split; [|exact B].
          unfold ai_item_names. now rewrite A. }
        congruence.
      - split; [|reflexivity]. intros _.
        apply missing_staples_raises in E as (A & B). split; [|exact B].
        unfold ai_item_names in A. now apply map_eq_nil in A. }
    destruct (ShoppingListOptimizerNative._validate_items result raw staples) eqn:E.
    + split; [discriminate|]. intros (B & A).
      destruct V as [_ V]. discriminate V. now split.
    + destruct V as [V _]. destruct (V eq_refl) as (A & B).
      unfold ShoppingListOptimizerNative._fallback_organization.
      apply fallback_staples_raises in B as B'. rewrite B'. split; [now split | reflexivity].
Qed.

End OptimizerProperties.

(** ** The edits of the chat agent *)

Section ChatProperties.
Import Py Notions Properties ShoppingListChatAgent.

Lemma append_to_ensured {V : Type} (k : string) (v : V) (d : Dict.t (list V)) :
  Dict.append_to k v (if Dict.mem k d then d else Dict.set k [] d)
  = Dict.append_to k v d.
Proof.
  destruct (Dict.mem k d) eqn:E; [reflexivity|].
  unfold Dict.append_to. rewrite get_set_same, set_set.
  apply get_none_mem in E. now rewrite E.
Qed.




Lemma first_at_unique {A : Type} (p : A -> bool) (before : list A) :
  forall (l before' : list A) (x x' : A) (after after' : list A),
    first_at p l before x after -> first_at p l before' x' after' ->
    before = before' /\ x = x' /\ after = after'.
Proof.
  induction before as [|y before IH];
    intros l before' x x' after after' (E1 & P1 & N1) (E2 & P2 & N2).
  - destruct before' as [|y' before'].
    + subst l. simpl in E2. now injection E2 as -> ->.
    + subst l. simpl in E2. injection E2 as -> E.
      rewrite (N2 y') in P1 by now left. discriminate.
  - destruct before' as [|y' before'].
    + subst l. simpl in E2. injection E2 as <- E.
      rewrite (N1 y) in P2 by now left. discriminate.
    + subst l. simpl in E2. injection E2 as <- E.
      destruct (IH (before ++ x :: after)%list before' x x' after after') as (-> & -> & ->).
      * split; [reflexivity|]. split; [exact P1|]. intros z Hz. apply N1. now right.
      * split; [exact E|]. split; [exact P2|]. intros z Hz. apply N2. now right.
      * auto.
Qed.

Lemma pop_first_none (needle : string) (items : list list_entry) :
  pop_first needle items = None <-> forall e, In e items -> named needle e = false.
Proof.
  induction items as [|a items IH]; simpl.
  - split; [intros _ e [] | reflexivity].
  - change (contains needle (entry_name a)) with (named needle a).
    destruct (named needle a) eqn:E.
    + split; [discriminate|]. intros H. rewrite (H a) in E by now left. discriminate.
    + destruct (pop_first needle items) eqn:P; simpl.
      * split; [discriminate|]. intros H.
        destruct IH as [_ IH]. discriminate IH. intros e He. apply H. now right.
      * split; [|reflexivity]. intros _ e [<-|He]; [exact E|].
        destruct IH as [IH _]. now apply IH.
Qed.

Lemma pop_first_some (needle : string) (items : list list_entry) :
  forall items',
    pop_first needle items = Some items' ->
    exists before x after,
      first_at (named needle) items before x after /\ items' = (before ++ after)%list.
Proof.
  induction items as [|a items IH]; intros items'; simpl; [discriminate|].
  change (contains needle (entry_name a)) with (named needle a).
  destruct (named needle a) eqn:E.
  - intros [= <-]. exists [], a, items. split; [|reflexivity].
    split; [reflexivity|]. split; [exact E | intros y []].
  - destruct (pop_first needle items) as [rest|] eqn:P; simpl; [|discriminate].
    intros [= <-]. destruct (IH rest eq_refl) as (b & x & af & (E1 & E2 & E3) & E4).
    exists (a :: b), x, af. split; [|simpl; now rewrite E4].
    split; [simpl; now rewrite E1|]. split; [exact E2|].
    intros y [<-|Hy]; [exact E | now apply E3].
Qed.

Lemma remove_first_none (needle : string) (l : shopping_list) :
  remove_first needle l = None <->
  forall e, In e (entries l) -> named needle e = false.
Proof.
  unfold entries. induction l as [|[c items] l IH]; simpl.
  - split; [intros _ e [] | reflexivity].
  - destruct (pop_first needle items) as [items'|] eqn:P.
    + split; [discriminate|]. intros H.
      assert (N : pop_first needle items = None).
      { apply pop_first_none. intros e He. apply H. apply in_or_app. now left. }
      congruence.
    + destruct (remove_first needle l) eqn:R; simpl.
      * split; [discriminate|]. intros H.
        destruct IH as [_ IH]. discriminate IH. intros e He. apply H.
        apply in_or_app. now right.
      * split; [|reflexivity]. intros _ e He. apply in_app_or in He as [He|He].
        -- now apply (proj1 (pop_first_none needle items) P).
        -- destruct IH as [IH _]. now apply IH.
Qed.

Lemma remove_first_some (needle : string) (l : shopping_list) :
  forall l',
    remove_first needle l = Some l' ->
    Dict.keys l' = Dict.keys l /\
    exists before x after,
      first_at (named needle) (entries l) before x after /\
      entries l' = (before ++ after)%list.
Proof.
  unfold entries, Dict.keys.
  induction l as [|[c items] l IH]; intros l'; simpl; [discriminate|].
  destruct (pop_first needle items) as [items'|] eqn:P.
  - intros [= <-]. simpl. split; [reflexivity|].
    destruct (pop_first_some _ _ _ P) as (b & x & af & (E1 & E2 & E3) & E4).
    exists b, x, (af ++ flat_map snd l)%list. split.
    + split; [rewrite E1, <- app_assoc; reflexivity|]. now split.
    + now rewrite E4, <- app_assoc.
  - destruct (remove_first needle l) as [rest|] eqn:R; simpl; [|discriminate].
    intros [= <-]. destruct (IH rest eq_refl) as (K & b & x & af & (E1 & E2 & E3) & E4).
    simpl. split; [now rewrite K|].
    exists (items ++ b)%list, x, af. split.
    + split; [rewrite E1, <- app_assoc; reflexivity|]. split; [exact E2|].
      intros y Hy. apply in_app_or in Hy as [Hy|Hy]; [|now apply E3].
      now apply (proj1 (pop_first_none needle items) P).
    + now rewrite E4, <- app_assoc.
Qed.

Lemma remove_loop_cons (item_name : string) (item_names : list string)
      (l : shopping_list) (changes : list string) :
  remove_loop (item_name :: item_names) l changes
  = match remove_first (lower item_name) l with
    | Some l' => remove_loop item_names l' (changes ++ [removed_message item_name])%list
    | None => remove_loop item_names l changes
    end.
Proof.
  unfold remove_loop. simpl. now destruct (remove_first (lower item_name) l).
Qed.

(** X21. [remove_items] for one name. When no entry of the list holds the
    lower-cased name in its lower-cased name, the list and the changes are
    left as they were. Otherwise exactly one entry is removed, the first
    one that holds it, reading the categories in their order; the
    categories stay, an emptied one included, and one message is
    recorded. *)
Theorem remove_items_removes_the_first_match :
  forall (item_name : string) (l : shopping_list) (changes : list string),
    ((forall e, In e (entries l) -> named (lower item_name) e = false) ->
     remove_loop [item_name] l changes = (l, changes)) /\
    (forall before x after,
        first_at (named (lower item_name)) (entries l) before x after ->
        exists l',
          remove_loop [item_name] l changes
          = (l', (changes ++ [removed_message item_name])%list) /\
          Dict.keys l' = Dict.keys l /\
          entries l' = (before ++ after)%list).
Proof.
  intros item_name l changes. rewrite remove_loop_cons. split.
  - intros H. apply remove_first_none in H. now rewrite H.
  - intros before x after F.
    destruct (remove_first (lower item_name) l) as [l'|] eqn:R.
    + destruct (remove_first_some _ _ _ R) as (K & b & y & af & F' & E).
      destruct (first_at_unique _ _ _ _ _ _ _ _ F F') as (-> & -> & ->).
      exists l'. split; [reflexivity|]. now split.
    + destruct F as (E1 & E2 & E3).
      rewrite (proj1 (remove_first_none _ _) R x) in E2; [discriminate|].
      rewrite E1. apply in_or_app. right. now left.
Qed.

(** X22. [remove_items] for any names: the categories of the list are kept, in
    their order; no entry is added or changed; each name removes at most
    one entry, and the entries removed are as many as the messages
    recorded. *)
Theorem remove_items_removes_one_entry_for_each_message :
  forall (item_names : list string) (l : shopping_list) (changes : list string),
    let r := remove_loop item_names l changes in
    Dict.keys (fst r) = Dict.keys l /\
    (forall e, In e (entries (fst r)) -> In e (entries l)) /\
    List.length (entries (fst r)) + List.length (snd r)
    = List.length (entries l) + List.length changes /\
    List.length changes <= List.length (snd r) <=
    List.length changes + List.length item_names.
Proof.
  intros item_names. induction item_names as [|n item_names IH]; intros l changes.
  - simpl. repeat split; auto; lia.
  - cbv zeta. rewrite remove_loop_cons.
    destruct (remove_first (lower n) l) as [l1|] eqn:R.
    + destruct (remove_first_some _ _ _ R) as (K & b & x & af & (E1 & _) & E).
      specialize (IH l1 (changes ++ [removed_message n])%list). cbv zeta in IH.
      destruct IH as (K' & I' & L' & B').
      rewrite length_app in L', B'. simpl in L', B'.
      split; [now rewrite K', K|]. split.
      * intros e He. apply I' in He. rewrite E in He. rewrite E1.
        apply in_app_or in He as [He|He]; apply in_or_app; [now left|].
        right. now right.
      * rewrite E, length_app in L'. rewrite E1, length_app. simpl. lia.
    + specialize (IH l changes). cbv zeta in IH.
      destruct IH as (K' & I' & L' & B'). simpl. repeat split; auto; lia.
Qed.




Lemma run_tools_app (calls calls' : list tool_call) :
  forall st,
    run_tools (calls ++ calls') st
    = match run_tools calls st with
      | Some st' => run_tools calls' st'
      | None => None
      end.
Proof.
  induction calls as [|call calls IH]; intros st; simpl; [reflexivity|].
  destruct (run_tool st call); [apply IH | reflexivity].
Qed.

Lemma process_response_calls (text : string) (calls : list tool_call)
      (l : shopping_list) :
  calls <> [] ->
  _process_response text calls l
  = match run_tools calls (mk_state l [] "none") with
    | Some st =>
        Some (mk_response
                (if is_empty text then "I've updated your shopping list!" else text)
                (st_action st)
                (if edits_list (st_action st) then Some (st_list st) else None)
                (match st_changes st with
                 | [] => None
                 | changes => Some (join "; " changes)
                 end))
    | None => None
    end.
Proof. destruct calls; [congruence | reflexivity]. Qed.


(** X25. The last tool call decides whether the edited list is returned: when
    it is a search or a preference call, the answer carries its action and
    its message but no updated list, also when earlier calls of the same
    answer added, removed or modified entries. *)
Theorem last_tool_call_decides_the_updated_list :
  forall (text : string) (calls : list tool_call) (action_type change : string)
         (l : shopping_list) (r : response),
    edits_list action_type = false ->
    _process_response text (calls ++ [other_tool action_type change]) l = Some r ->
    action r = action_type /\ updated_list r = None /\
    exists changes, changes_made r = Some changes.
Proof.
  intros text calls a c l r Ha.
  rewrite process_response_calls by (intros E; now apply app_eq_nil in E as [_ E]).
  rewrite run_tools_app.
  destruct (run_tools calls (mk_state l [] "none")) as [st|]; [|discriminate].
  simpl. intros [= <-]. simpl. rewrite Ha. split; [reflexivity|].
  split; [reflexivity|].
  destruct (st_changes st ++ [c])%list eqn:E; [now apply app_eq_nil in E as [_ E]|].
  eexists. reflexivity.
Qed.

End ChatProperties.

(** ** The categorizer of the web layer *)

Section WebCategorizerProperties.
Import Py Notions Properties WebCategorizer.

Lemma first_rule_range (rules : list (list string * string)) (ing_name : string) :
  first_rule rules ing_name = other \/ In (first_rule rules ing_name) (map snd rules).
Proof.
  induction rules as [|[keywords cat] rules IH]; simpl; [now left|].
  destruct (existsb (fun k => contains k ing_name) keywords).
  - right. now left.
  - destruct IH as [IH|IH]; [now left | right; now right].
Qed.

Lemma get_in_values {V : Type} (k : string) (d : Dict.t V) (v : V) :
  Dict.get k d = Some v -> In v (map snd d).
Proof.
  induction d as [|[k' v'] d IH]; simpl; [discriminate|].
  destruct (String.eqb k' k).
  - intros [= <-]. now left.
  - intros H. right. now apply IH.
Qed.

Lemma category_of_label (it : item) : In (category_of it) web_labels.
Proof.
  unfold category_of. destruct (w_category_staple it) as [cat_name|].
  - destruct (Dict.get cat_name category_map) as [label|] eqn:E.
    + apply get_in_values in E. simpl in E. simpl get_or. unfold web_labels.
      simpl. intuition.
    + simpl. intuition.
  - destruct (first_rule_range keyword_rules (lower (get_or "" (w_name it)))) as [E|E].
    + rewrite E. simpl. intuition.
    + simpl in E. unfold web_labels. simpl. intuition.
Qed.

Lemma categorize_items_grouped (items : list item) :
  categorize_items items = grouped category_of (fun it => it) items [].
Proof.
  unfold categorize_items, grouped. generalize (@nil (string * list item)) as g.
  induction items as [|it items IH]; intros g; cbn [fold_left]; [reflexivity|].
  rewrite <- IH. f_equal. cbv zeta. apply append_to_ensured.
Qed.

(** X26. The categorizer of the web layer files every item under one of the six
    labels of the standard list. The categories come in the order in which
    their first item occurs in the input, each one holding its items in the
    order of the input; no category is empty, and the items of the result
    are those of the input, none lost and none repeated. *)
Theorem web_categorize_items_groups_by_label :
  forall items : list item,
    categorize_items items
    = map (fun k => (k, keyed category_of k items))
          (first_seen [] (map category_of items)) /\
    (forall k its, In (k, its) (categorize_items items) ->
                   In k web_labels /\ its <> []) /\
    Permutation (flat_map snd (categorize_items items)) items.
Proof.
  intros items.
  assert (C : categorize_items items
              = map (fun k => (k, keyed category_of k items))
                    (first_seen [] (map category_of items))).
  { rewrite categorize_items_grouped, grouped_closed_form.
    apply map_ext. intros k. now rewrite map_id. }
  split; [exact C|]. split.
  - intros k its Hin. rewrite C in Hin. apply in_map_iff in Hin as (k' & E & Hk).
    injection E as -> <-. split.
    + apply first_seen_in in Hk as [Hk _]. apply in_map_iff in Hk as (it & <- & _).
      apply category_of_label.
    + apply keyed_nonempty. now apply existsb_eqb_in.
  - rewrite C, flat_map_concat_map, map_map. cbn [snd].
    rewrite <- flat_map_concat_map. apply keyed_partition.
    + apply first_seen_nodup.
    + intros x Hx. apply first_seen_in. split; [|intros []].
      apply in_map_iff. now exists x.
Qed.

End WebCategorizerProperties.

(** ** Cleaning the answer of the classifier *)

Section CleaningProperties.
Import Py Properties AnswerCleaning.

Lemma string_app_assoc (a b c : string) : (a ++ b) ++ c = a ++ b ++ c.
Proof. induction a as [|x a IH]; simpl; [reflexivity | now rewrite IH]. Qed.

Lemma string_app_nil_r (a : string) : a ++ "" = a.
Proof. induction a as [|x a IH]; simpl; [reflexivity | now rewrite IH]. Qed.

Lemma lstrip_blank (ws s : string) : blank ws = true -> lstrip (ws ++ s) = lstrip s.
Proof.
  induction ws as [|c ws IH]; simpl; [reflexivity|].
  intros H. apply andb_prop in H as [Hc Hws]. rewrite Hc. now apply IH.
Qed.

Lemma rstrip_blank (ws : string) : blank ws = true -> rstrip ws = "".
Proof.
  induction ws as [|c ws IH]; simpl; [reflexivity|].
  intros H. apply andb_prop in H as [Hc Hws]. now rewrite IH, Hc.
Qed.

Lemma rstrip_app_blank (s ws : string) :
  blank ws = true -> rstrip (s ++ ws) = rstrip s.
Proof.
  intros H. induction s as [|c s IH]; simpl.
  - now apply rstrip_blank.
  - now rewrite IH.
Qed.

Lemma rstrip_app_fixed (s t : string) :
  rstrip t = t -> t <> "" -> rstrip (s ++ t) = s ++ t.
Proof.
  intros Ht Hn. induction s as [|c s IH]; simpl; [exact Ht|].
  rewrite IH. destruct (s ++ t) eqn:E; [|reflexivity].
  destruct s; simpl in E; [contradiction | discriminate].
Qed.

(** A text that starts and ends with characters that are no white space
    is what [strip] leaves of it, whatever white space surrounds it. *)
Lemma strip_wrapped (ws core ws' : string) (a : ascii) (m : string) :
  blank ws = true -> blank ws' = true ->
  core = String a m -> isspace a = false -> rstrip core = core ->
  strip (ws ++ core ++ ws') = core.
Proof.
  intros Hws Hws' Hc Ha Hr. unfold strip. rewrite lstrip_blank by exact Hws.
  assert (L : lstrip (core ++ ws') = core ++ ws').
  { rewrite Hc. simpl. now rewrite Ha. }
  rewrite L, rstrip_app_blank by exact Hws'. exact Hr.
Qed.

Lemma drop_app (p s : string) : drop (String.length p) (p ++ s) = s.
Proof. induction p as [|c p IH]; simpl; [now destruct s | exact IH]. Qed.

Lemma endswith_app (suffix s : string) : endswith suffix (s ++ suffix) = true.
Proof.
  induction s as [|c s IH]; simpl.
  - destruct suffix as [|c t]; [reflexivity|].
    cbn [append endswith]. now rewrite String.eqb_refl.
  - rewrite IH. apply orb_true_r.
Qed.

Lemma before_last_fence (s : string) : before_last fence (s ++ fence) = Some s.
Proof.
  induction s as [|c s IH]; [reflexivity|].
  cbn [append before_last]. now rewrite IH.
Qed.

Lemma remove_first_at_start (old s : string) :
  old <> "" -> remove_first_occurrence old (old ++ s) = s.
Proof.
  intros Hn. destruct old as [|c old]; [contradiction|].
  cbn [append remove_first_occurrence].
  change (String c (old ++ s)) with (String c old ++ s).
  rewrite prefix_app. apply drop_app.
Qed.

Lemma no_fence (a : ascii) (m : string) :
  a <> "`"%char -> prefix fence (String a m) = false.
Proof.
  intros Ha. unfold fence. cbn [prefix].
  destruct (ascii_dec "`" a) as [E|_]; [now elim Ha | reflexivity].
Qed.

Lemma no_json_fence (a : ascii) (m : string) :
  a <> "`"%char -> prefix json_fence (String a m) = false.
Proof.
  intros Ha. unfold json_fence. cbn [prefix].
  destruct (ascii_dec "`" a) as [E|_]; [now elim Ha | reflexivity].
Qed.

(** What is left once the opening fence is gone: the closing fence is cut
    and the body is returned. *)
Lemma clean_closing (body ws : string) (a : ascii) (m : string) :
  blank ws = true -> body = String a m -> isspace a = false -> a <> "`"%char ->
  rstrip body = body ->
  let content := body ++ ws ++ fence in
  (if endswith fence (if prefix fence content
                      then strip (remove_first_occurrence fence content) else content)
   then strip (get_or (if prefix fence content
                       then strip (remove_first_occurrence fence content) else content)
                      (before_last fence
                         (if prefix fence content
                          then strip (remove_first_occurrence fence content)
                          else content)))
   else (if prefix fence content
         then strip (remove_first_occurrence fence content) else content))
  = body.
Proof.
  intros Hws Hb Ha Hq Hr content.
  assert (P : prefix fence content = false).
  { subst content. rewrite Hb. apply no_fence. exact Hq. }
  rewrite P. subst content.
  rewrite <- string_app_assoc, endswith_app, before_last_fence. simpl get_or.
  rewrite <- (string_app_nil_r (body ++ ws)) at 1.
  change ((body ++ ws) ++ "") with ("" ++ (body ++ ws) ++ "").
  rewrite string_app_assoc.
  change ("" ++ body ++ ws ++ "") with ("" ++ body ++ (ws ++ "")).
  rewrite (string_app_nil_r ws).
  exact (strip_wrapped "" body ws a m eq_refl Hws Hb Ha Hr).
Qed.

Lemma fenced_core (opening inner : string) :
  opening <> "" -> rstrip (opening ++ inner ++ fence) = opening ++ inner ++ fence.
Proof.
  intros _. rewrite <- (string_app_assoc opening inner fence).
  apply rstrip_app_fixed; [reflexivity | discriminate].
Qed.

(** X27. The cleaning unwraps a fenced answer. Let the body start with a
    character that is neither white space nor a backtick and end without
    white space. Wrapped in the fence that names json and in a closing
    fence, with any white space around the fences and around the body, the
    text handed to the parser is the body; so it is with the plain fence,
    when the body does not start with the letter j; and so it is without
    any fence, when the body does not end with one. *)
Theorem clean_unwraps_a_fenced_answer :
  forall (ws0 ws1 ws2 ws3 body : string) (a : ascii) (m : string),
    blank ws0 = true -> blank ws1 = true -> blank ws2 = true -> blank ws3 = true ->
    body = String a m -> isspace a = false -> a <> "`"%char -> rstrip body = body ->
    clean (ws0 ++ json_fence ++ ws1 ++ body ++ ws2 ++ fence ++ ws3) = body /\
    (a <> "j"%char ->
     clean (ws0 ++ fence ++ ws1 ++ body ++ ws2 ++ fence ++ ws3) = body) /\
    (endswith fence body = false -> clean (ws0 ++ body ++ ws3) = body).
Proof.
  intros ws0 ws1 ws2 ws3 body a m H0 H1 H2 H3 Hb Ha Hq Hr.
  assert (Inner : strip (ws1 ++ body ++ ws2 ++ fence) = body ++ ws2 ++ fence).
  { rewrite <- (string_app_nil_r (ws1 ++ body ++ ws2 ++ fence)).
    rewrite string_app_assoc.
    change ((body ++ ws2 ++ fence) ++ "") with ((body ++ ws2 ++ fence) ++ "").
    apply (strip_wrapped ws1 (body ++ ws2 ++ fence) "" a (m ++ ws2 ++ fence)).
    - exact H1.
    - reflexivity.
    - now rewrite Hb.
    - exact Ha.
    - rewrite <- string_app_assoc. apply rstrip_app_fixed; [reflexivity | discriminate]. }
  split; [|split].
  - unfold clean. cbv zeta.
    assert (S : strip (ws0 ++ json_fence ++ ws1 ++ body ++ ws2 ++ fence ++ ws3)
                = json_fence ++ ws1 ++ body ++ ws2 ++ fence).
    { replace (ws0 ++ json_fence ++ ws1 ++ body ++ ws2 ++ fence ++ ws3)
        with (ws0 ++ (json_fence ++ ws1 ++ body ++ ws2 ++ fence) ++ ws3)
        by (now rewrite !string_app_assoc).
      apply (strip_wrapped ws0 _ ws3 "`"%char ("``json" ++ ws1 ++ body ++ ws2 ++ fence));
        try assumption; try reflexivity.
      replace (json_fence ++ ws1 ++ body ++ ws2 ++ fence)
        with (json_fence ++ (ws1 ++ body ++ ws2) ++ fence)
        by (now rewrite !string_app_assoc).
      apply fenced_core. discriminate. }
    rewrite S, prefix_app, remove_first_at_start by discriminate.
    rewrite Inner. apply (clean_closing body ws2 a m); assumption.
  - intros Hj. unfold clean. cbv zeta.
    assert (S : strip (ws0 ++ fence ++ ws1 ++ body ++ ws2 ++ fence ++ ws3)
                = fence ++ ws1 ++ body ++ ws2 ++ fence).
    { replace (ws0 ++ fence ++ ws1 ++ body ++ ws2 ++ fence ++ ws3)
        with (ws0 ++ (fence ++ ws1 ++ body ++ ws2 ++ fence) ++ ws3)
        by (now rewrite !string_app_assoc).
      apply (strip_wrapped ws0 _ ws3 "`"%char ("``" ++ ws1 ++ body ++ ws2 ++ fence));
        try assumption; try reflexivity.
      replace (fence ++ ws1 ++ body ++ ws2 ++ fence)
        with (fence ++ (ws1 ++ body ++ ws2) ++ fence)
        by (now rewrite !string_app_assoc).
      apply fenced_core. discriminate. }
    rewrite S.
    assert (J : prefix json_fence (fence ++ ws1 ++ body ++ ws2 ++ fence) = false).
    { unfold json_fence, fence. rewrite Hb.
      change ("```" ++ ws1 ++ String a m ++ ws2 ++ "```")
        with (String "`" (String "`" (String "`" (ws1 ++ String a (m ++ ws2 ++ "```"))))).
      cbn [prefix].
      destruct (ascii_dec "`" "`") as [_|N]; [|now elim N].
      destruct ws1 as [|w ws1]; cbn [append prefix].
      - destruct (ascii_dec "j" a) as [E|_]; [now elim Hj | reflexivity].
      - simpl in H1. apply andb_prop in H1 as [Hw _].
        destruct (ascii_dec "j" w) as [E|_]; [|reflexivity].
        subst w. discriminate Hw. }
    rewrite J.
    assert (R : (if prefix fence (fence ++ ws1 ++ body ++ ws2 ++ fence)
                 then strip (remove_first_occurrence
                               fence (fence ++ ws1 ++ body ++ ws2 ++ fence))
                 else fence ++ ws1 ++ body ++ ws2 ++ fence)
                = body ++ ws2 ++ fence).
    { rewrite prefix_app, remove_first_at_start by discriminate. exact Inner. }
    rewrite R.
    assert (P : prefix fence (body ++ ws2 ++ fence) = false).
    { rewrite Hb. apply no_fence. exact Hq. }
    generalize (clean_closing body ws2 a m H2 Hb Ha Hq Hr). cbv zeta.
    now rewrite P.
  - intros He. unfold clean. cbv zeta.
    rewrite (strip_wrapped ws0 body ws3 a m H0 H3 Hb Ha Hr).
    assert (PJ : prefix json_fence body = false) by (rewrite Hb; now apply no_json_fence).
    assert (PF : prefix fence body = false) by (rewrite Hb; now apply no_fence).
    now rewrite PJ, PF, He.
Qed.

End CleaningProperties.

(** ** The further properties on sample inputs *)

Section PropertySamples.
Import Py Repair Notions Properties.


Lemma combine_duplicates_keeps_every_line_witness :
  In flour_two [flour_two; flour_one] /\
  (exists e,
      In e (SmartShoppingListGenerator._combine_duplicates [flour_two; flour_one]) /\
      (e = flour_two \/
       (exists i,
           e = SmartShoppingListGenerator.with_notes
                 ("From recipe " ++ str_of_nat i) flour_two) \/
       (exists total items,
           In flour_two items /\
           e = SmartShoppingListGenerator.combined_item
                 (SmartShoppingListGenerator.group_key flour_two) total items))) /\
  List.length (SmartShoppingListGenerator._combine_duplicates [flour_two; flour_one])
  <= List.length [flour_two; flour_one].
Proof.
  assert (H : In flour_two [flour_two; flour_one]) by (left; reflexivity).
  exact (conj H (combine_duplicates_keeps_every_line [flour_two; flour_one] flour_two H)).
Defined.


Lemma generate_optimized_list_counts_its_items_witness :
  exists r,
    SmartShoppingListGenerator.generate_optimized_list [milk; kale] [] [] [bread_staple]
    = Some r /\
    total_items r = Some 3%Z /\
    In (SmartShoppingListGenerator.format_item (listed_staple bread_staple))
       (all_items (cats_of r)).
Proof.
  destruct (SmartShoppingListGenerator.generate_optimized_list
              [milk; kale] [] [] [bread_staple]) as [r|] eqn:E;
    [|vm_compute in E; discriminate E].
  exists r. split; [reflexivity|].
  destruct (generate_optimized_list_counts_its_items _ _ _ _ r E) as (T & L & S).
  split.
  - rewrite T, L. reflexivity.
  - apply S; [left; reflexivity | reflexivity].
Defined.

Lemma apply_substitutions_last_rule_wins_witness :
  usable kale_rule /\ names_exactly kale_rule kale /\
  SmartShoppingListGenerator._apply_substitutions [kale] kale_and_milk_rules
  = [ mk_ingredient (Some "spinach") None (Some "1") (Some "bunch")
                    (Some " (Substituted from kale)") ].
Proof.
  assert (U : usable kale_rule) by (split; discriminate).
  assert (N : names_exactly kale_rule kale) by reflexivity.
  assert (A : forall s, In s [mk_substitution (Some "milk") (Some "soy milk")] ->
                        usable s -> rule_key s <> rule_key kale_rule).
  { intros s [<-|[]] _. vm_compute. discriminate. }
  split; [exact U|]. split; [exact N|].
  exact (apply_substitutions_last_rule_wins
           [mk_substitution (Some "Milk") (Some "oat milk")]
           [mk_substitution (Some "milk") (Some "soy milk")]
           kale_rule kale U N A).
Defined.

Lemma empty_organic_preference_marks_every_item_witness :
  In "" [""] /\
  forall item,
    In item (SmartShoppingListGenerator._apply_organic_preferences [milk; kale] [""]) ->
    contains "organic" (lower (name_of "" item)) = true.
Proof.
  assert (H : In "" [""]) by (left; reflexivity).
  exact (conj H (empty_organic_preference_marks_every_item [milk; kale] [""] H)).
Defined.

Lemma empty_original_renames_every_item_witness :
  In blank_stored_rule [blank_stored_rule] /\
  FlaskApp.original blank_stored_rule = "" /\
  forall item,
    In item (FlaskApp.apply_preferences [blank_stored_rule] [] [web_almond_milk]) ->
    exists sub, In sub [blank_stored_rule] /\
                FlaskApp.l_name item = Some (FlaskApp.substitute sub).
Proof.
  assert (H : In blank_stored_rule [blank_stored_rule]) by (left; reflexivity).
  split; [exact H|]. split; [reflexivity|].
  exact (empty_original_renames_every_item [blank_stored_rule] [] [web_almond_milk]
                                           blank_stored_rule H eq_refl).
Defined.


Lemma last_tool_call_decides_the_updated_list_witness :
  ShoppingListChatAgent.edits_list "search" = false /\
  exists r,
    ShoppingListChatAgent._process_response
      "Done" ([ShoppingListChatAgent.add_items [eggs_item]]
              ++ [ShoppingListChatAgent.other_tool "search" "Searching Woolworths for: eggs"])%list
      sample_list
    = Some r /\
    ShoppingListChatAgent.action r = "search" /\
    ShoppingListChatAgent.updated_list r = None /\
    exists changes, ShoppingListChatAgent.changes_made r = Some changes.
Proof.
  split; [reflexivity|].
  destruct (ShoppingListChatAgent._process_response
              "Done" ([ShoppingListChatAgent.add_items [eggs_item]]
                      ++ [ShoppingListChatAgent.other_tool
                            "search" "Searching Woolworths for: eggs"])%list
              sample_list) as [r|] eqn:E;
    [|vm_compute in E; discriminate E].
  exists r. split; [reflexivity|].
  exact (last_tool_call_decides_the_updated_list
           "Done" [ShoppingListChatAgent.add_items [eggs_item]]
           "search" "Searching Woolworths for: eggs" sample_list r eq_refl E).
Defined.

(** X16 on an answer that lists the milk and claims 99 items: the native
    pass corrects the total, the other pass returns the answer as it is. *)
Lemma repair_pass_total_items_witness :
  (exists repaired,
      ShoppingListOptimizerNative._validate_items miscounted_answer [milk] []
      = Some repaired /\
      total_items repaired = Some 1%Z) /\
  ShoppingListOptimizer._validate_and_fix_missing_items miscounted_answer [milk] []
  = Some miscounted_answer /\
  total_items miscounted_answer = Some 99%Z /\
  (exists repaired,
      ShoppingListOptimizer._validate_and_fix_missing_items miscounted_answer [milk; kale] []
      = Some repaired /\
      total_items repaired = Some 2%Z).
Proof.
  split; [|split; [|split]].
  - destruct (ShoppingListOptimizerNative._validate_items miscounted_answer [milk] [])
      as [repaired|] eqn:E; [|vm_compute in E; discriminate E].
    exists repaired. split; [reflexivity|].
    rewrite (proj1 (repair_pass_total_items miscounted_answer [milk] []) repaired E).
    assert (R : repaired
                = mk_result (Some [ ("Dairy & Eggs",
                                     [mk_display_item (Some "milk") (Some "2 cup") None
                                                      (Some "")]) ])
                            [] [] (Some 1%Z)).
    { vm_compute in E. now injection E as <-. }
    rewrite R. reflexivity.
  - destruct (ShoppingListOptimizer._validate_and_fix_missing_items
                miscounted_answer [milk] []) as [repaired|] eqn:E;
      [|vm_compute in E; discriminate E].
    f_equal.
    apply (proj2 (repair_pass_total_items miscounted_answer [milk] []) repaired E).
    + intros ing [<-|[]]. apply found_covered_in. reflexivity.
    + intros s [].
  - reflexivity.
  - destruct (ShoppingListOptimizer._validate_and_fix_missing_items
                miscounted_answer [milk; kale] []) as [repaired|] eqn:E;
      [|vm_compute in E; discriminate E].
    exists repaired. split; [reflexivity|].
    destruct (proj2 (proj2 (repair_pass_total_items miscounted_answer [milk; kale] [])
                           repaired E)) as [T _].
    + left. exists kale. split; [right; left; reflexivity|].
      intros Hc. apply found_covered_in in Hc. vm_compute in Hc. discriminate Hc.
    + rewrite T.
      assert (R : List.length (all_items (cats_of repaired)) = 2).
      { vm_compute in E. injection E as <-. reflexivity. }
      now rewrite R.
Defined.

Lemma clean_unwraps_a_fenced_answer_witness :
  blank newline = true /\ blank " " = true /\
  AnswerCleaning.clean
    ("" ++ AnswerCleaning.json_fence ++ newline ++ "{}" ++ newline
        ++ AnswerCleaning.fence ++ " ") = "{}" /\
  AnswerCleaning.clean
    ("" ++ AnswerCleaning.fence ++ newline ++ "{}" ++ newline
        ++ AnswerCleaning.fence ++ " ") = "{}" /\
  AnswerCleaning.clean ("" ++ "{}" ++ " ") = "{}".
Proof.
  split; [reflexivity|]. split; [reflexivity|].
  destruct (clean_unwraps_a_fenced_answer
              "" newline newline " " "{}" "{"%char "}"
              eq_refl eq_refl eq_refl eq_refl eq_refl eq_refl
              (fun E : "{"%char = "`"%char => eq_ind "{"%char
                 (fun c => match c with
                           | Ascii true _ _ _ _ _ _ _ => True
                           | _ => False
                           end) I _ E)
              eq_refl) as (A & B & C).
  split; [exact A|]. split.
  - apply B. discriminate.
  - apply C. reflexivity.
Defined.

End PropertySamples.
